(** * BD_road_connectivity: the cache / analysis / report pipeline of
      [bangladesh_road_map.py], embedded shallowly.

    The class [BangladeshRoadMap] is a record of two attributes
    ([road_graph], [districts_gdf]) living next to a file system and a log of
    observable effects (console lines, file-system accesses, calls into the
    geodata and graph libraries).  Methods are functions in a state-and-
    exception monad; everything the outside world decides (what the provider
    returns, whether a write succeeds, the clock) is read from an [Env]. *)

From Stdlib Require Import QArith.
From stdpp Require Import numbers pretty strings relations gmap sets list.

(** ** Python values and exceptions *)

(** An exception caught by [except Exception as e]; [msg] is what [{e}]
    prints. *)
Inductive exn := Exception (msg : string).

Definition exn_msg (e : exn) : string := match e with Exception m => m end.

Inductive Result (A : Type) := Ok (a : A) | Raise (e : exn).
Arguments Ok {A} a.
Arguments Raise {A} e.

(** A binary64 float, kept as its bit pattern: the program never does float
    arithmetic itself, it only passes floats between library calls. *)
Record float := Float { float_bits : Z }.

(** ** networkx: the graph type and the connectivity primitives *)

Module nx.

(** A [MultiDiGraph] as the calls that build it: explicitly added nodes and
    the list of (parallel edges allowed) directed edges.  As in networkx,
    adding an edge adds its end points, and [G.nodes] iterates in order of
    first insertion. *)
Record MultiDiGraph := {
  added_nodes : list Z;
  added_edges : list (Z * Z)
}.

Fixpoint add_nodes_from (ns acc : list Z) : list Z :=
  match ns with
  | [] => acc
  | n :: ns' => add_nodes_from ns' (if decide (n ∈ acc) then acc else acc ++ [n])
  end.

Definition endpoints (es : list (Z * Z)) : list Z :=
  flat_map (fun e => [e.1; e.2]) es.

Definition nodes (G : MultiDiGraph) : list Z :=
  add_nodes_from (endpoints (added_edges G)) (add_nodes_from (added_nodes G) []).

Definition edges (G : MultiDiGraph) : list (Z * Z) := added_edges G.

(** The undirected projection: same nodes in the same order, every edge
    usable in both directions (see [neighbors]). *)
Record MultiGraph := {
  ug_nodes : list Z;
  ug_edges : list (Z * Z)
}.

Definition to_undirected (G : MultiDiGraph) : MultiGraph :=
  {| ug_nodes := nodes G; ug_edges := edges G |}.

(** [G.subgraph(nbunch)]: the subgraph induced by the nodes of [nbunch].
    The nodes are listed here in the order of the parent graph; networkx
    may iterate the view in another order, so what is stated of a subgraph
    below is stated of its nodes and of its edges as sets. *)
Definition subgraph (G : MultiGraph) (nbunch : list Z) : MultiGraph :=
  {| ug_nodes := filter (fun n => n ∈ nbunch) (ug_nodes G);
     ug_edges := filter (fun e => e.1 ∈ nbunch ∧ e.2 ∈ nbunch) (ug_edges G) |}.

Definition neighbors (G : MultiGraph) (v : Z) : gset Z :=
  list_to_set
    (flat_map (fun e => (if decide (e.1 = v) then [e.2] else [])
                        ++ (if decide (e.2 = v) then [e.1] else []))
              (ug_edges G)).

Definition level_neighbors (G : MultiGraph) (level : gset Z) : gset Z :=
  ⋃ (neighbors G <$> elements level).

(** [_plain_bfs]: level by level, [seen] grows by the unseen neighbours of
    the current level until a level is empty.  The Python loop has no
    bound; [fuel] is the number of nodes, which [plain_bfs_spec] shows to
    be enough. *)
Fixpoint bfs_loop (fuel : nat) (G : MultiGraph) (seen thislevel : gset Z) : gset Z :=
  match fuel with
  | O => seen
  | S fuel' =>
      if decide (thislevel = ∅) then seen
      else
        let nextlevel := level_neighbors G thislevel ∖ seen in
        bfs_loop fuel' G (seen ∪ nextlevel) nextlevel
  end.

Definition plain_bfs (G : MultiGraph) (source : Z) : gset Z :=
  bfs_loop (length (ug_nodes G)) G {[source]} {[source]}.

(** [connected_components]: for each node not yet seen, yield the set
    reached from it. *)
Definition cc_step (G : MultiGraph) (st : gset Z * list (gset Z)) (v : Z)
  : gset Z * list (gset Z) :=
  if decide (v ∈ st.1) then st
  else let c := plain_bfs G v in (st.1 ∪ c, st.2 ++ [c]).

Definition connected_components (G : MultiGraph) : list (gset Z) :=
  (foldl (cc_step G) (∅, []) (ug_nodes G)).2.

Definition number_connected_components (G : MultiGraph) : nat :=
  length (connected_components G).

(** [is_connected] raises [NetworkXPointlessConcept] on the null graph and
    otherwise compares the size of the set reached from the first node with
    the number of nodes. *)
Definition is_connected (G : MultiGraph) : Result bool :=
  match ug_nodes G with
  | [] => Raise (Exception "Connectivity is undefined for the null graph.")
  | source :: _ =>
      Ok (bool_decide (size (plain_bfs G source) = length (ug_nodes G)))
  end.

End nx.

(** ** The data model *)

(** [ConnectivityStats]: the dict built by [analyze_connectivity].  The four
    counts and flags are always present; the keys the report tests with [in]
    are options. *)
Record Stats := {
  total_nodes : nat;
  total_edges : nat;
  is_connected : bool;
  number_of_components : nat;
  analysis_date : option string;
  avg_degree_centrality : option float;
  avg_betweenness_centrality : option float
}.

(** District boundaries: region name and geometry (well-known text). *)
Record GeoDataFrame := { gdf_rows : list (string * string) }.

(** What an attribute of the analyzer, or a pickle, can hold. *)
Inductive pyobj :=
| PyNone
| PyGraph (G : nx.MultiDiGraph)
| PyGdf (d : GeoDataFrame)
| PyStats (st : Stats)
| PyOther (type_name : string).

Definition type_name (o : pyobj) : string :=
  match o with
  | PyNone => "NoneType"
  | PyGraph _ => "MultiDiGraph"
  | PyGdf _ => "GeoDataFrame"
  | PyStats _ => "dict"
  | PyOther t => t
  end.

(** [self.road_graph.nodes] / [.edges] / [.to_undirected()]: only a graph has
    these attributes. *)
Definition as_graph (o : pyobj) : Result nx.MultiDiGraph :=
  match o with
  | PyGraph G => Ok G
  | _ => Raise (Exception ("'" +:+ type_name o +:+ "' object has no attribute 'nodes'"))
  end.

(** *** The rendered map *)

Record Style := { color : string; weight : Q; opacity : Q }.

Record GeoJson := {
  gj_geometry : string;
  gj_style : Style;
  gj_popup : string;
  gj_tooltip : string
}.

Record FeatureGroup := { fg_name : string; fg_children : list GeoJson }.

Record Marker := {
  mk_location : float * float;
  mk_popup : string;
  mk_tooltip : string
}.

(** The [folium.Map] that [create_interactive_map] builds: its centre, the
    road layers in the order of [road_groups.values()], and the city layer.
    The tile layers and the three plugins are the same on every map. *)
Record FoliumMap := {
  map_location : float * float;
  map_road_layers : list FeatureGroup;
  map_cities : list Marker
}.

(** The [highway] tag of an edge: one string, or a list when a simplified
    segment merges several tags. *)
Inductive HighwayTag := TagStr (s : string) | TagList (l : list string).

(** A row of [edges_gdf]; [None] is the default branch of [row.get]. *)
Record EdgeRow := {
  row_highway : option HighwayTag;
  row_length : option float;
  row_name : option string;
  row_geometry : string
}.

Record NodeRow := { node_y : float; node_x : float }.

(** *** Files *)

(** The content of a file: a pickle of some object, a saved map, or bytes
    on which [open] + [pickle.load] raise [err]. *)
Inductive file :=
| Pickled (o : pyobj)
| Html (m : FoliumMap)
| Garbage (err : string).

(** [with open(path, 'wb') as f: dump(obj, f)] either succeeds, fails when
    opening (nothing written), or fails while writing (a truncated file is
    left behind). *)
Inductive WriteOutcome :=
| WriteOk
| OpenFails (e : exn)
| DumpFails (e : exn).

(** *** Observable effects *)

Inductive Event :=
| Print (line : string)
| FsExists (path : string)
| FsRead (path : string)
| FsWrite (path : string) (content : file)
| FsRemove (path : string)
| CallGraphFromPlace (place network_type : string)
| CallGeocodeToGdf (query : string)
| CallGeocode (query : string)
| CallGraphToGdfs (G : pyobj)
| CallDegreeCentrality (G : nx.MultiGraph)
| CallBetweennessCentrality (G : nx.MultiGraph).

(** *** The outside world *)

Record Env := {
  graph_from_place : string → string → Result nx.MultiDiGraph;
  geocode_to_gdf : string → Result GeoDataFrame;
  geocode : string → Result (float * float);
  graph_to_gdfs : nx.MultiDiGraph → Result (list NodeRow * list EdgeRow);
  degree_centrality : nx.MultiGraph → Result (list float);
  betweenness_centrality : nx.MultiGraph → Result (list float);
  np_mean : list float → float;
  series_mean : list float → float;
  now : string;
  write_outcome : string → WriteOutcome;
  os_remove : string → Result unit;
  file_info : string → string;
  format_4f : float → string;
  format_0f : float → string
}.

(** *** The analyzer and its world *)

Record State := {
  road_graph : pyobj;
  districts_gdf : pyobj;
  fs : gmap string file;
  trace : list Event
}.

Definition set_road_graph (o : pyobj) (s : State) : State :=
  {| road_graph := o; districts_gdf := districts_gdf s; fs := fs s; trace := trace s |}.
Definition set_districts_gdf (o : pyobj) (s : State) : State :=
  {| road_graph := road_graph s; districts_gdf := o; fs := fs s; trace := trace s |}.
Definition set_fs (m : gmap string file) (s : State) : State :=
  {| road_graph := road_graph s; districts_gdf := districts_gdf s; fs := m; trace := trace s |}.
Definition log (e : Event) (s : State) : State :=
  {| road_graph := road_graph s; districts_gdf := districts_gdf s; fs := fs s;
     trace := trace s ++ [e] |}.

(** ** The monad: state, and exceptions that keep the state reached *)

Definition M (A : Type) : Type := State → Result A * State.

Definition ret {A} (a : A) : M A := fun s => (Ok a, s).

Definition raise {A} (e : exn) : M A := fun s => (Raise e, s).

Definition bind {A B} (m : M A) (k : A → M B) : M B :=
  fun s => match m s with
           | (Ok a, s') => k a s'
           | (Raise e, s') => (Raise e, s')
           end.

Definition try_except {A} (body : M A) (handler : exn → M A) : M A :=
  fun s => match body s with
           | (Ok a, s') => (Ok a, s')
           | (Raise e, s') => handler e s'
           end.

Definition lift {A} (r : Result A) : M A := fun s => (r, s).

Definition modify (f : State → State) : M unit := fun s => (Ok tt, f s).

Definition gets {A} (f : State → A) : M A := fun s => (Ok (f s), s).

Arguments ret {A} a s /.
Arguments raise {A} e s /.
Arguments bind {A B} m k s /.
Arguments try_except {A} body handler s /.
Arguments lift {A} r s /.
Arguments modify f s /.
Arguments gets {A} f s /.

Notation "'do' x <- m ; k" := (bind m (fun x => k))
  (at level 10, x name, m at level 100, k at level 200).
Notation "m ;; k" := (bind m (fun _ => k))
  (at level 100, k at level 200, right associativity).

Definition emit (e : Event) : M unit := modify (log e).

Definition print (line : string) : M unit := emit (Print line).

Arguments emit e s /.
Arguments print line s /.

(** *** File-system primitives *)

Definition os_path_exists (path : string) : M bool :=
  emit (FsExists path) ;; gets (fun s => bool_decide (is_Some (fs s !! path))).

(** [with open(path, 'rb') as f: pickle.load(f)] *)
Definition pickle_load (path : string) : M pyobj :=
  emit (FsRead path) ;;
  do content <- gets (fun s => fs s !! path) ;
  match content with
  | Some (Pickled o) => ret o
  | Some (Html _) => raise (Exception "invalid load key, '<'.")
  | Some (Garbage err) => raise (Exception err)
  | None => raise (Exception ("[Errno 2] No such file or directory: '" +:+ path +:+ "'"))
  end.

(** [with open(path, 'wb') as f: <write content>] *)
Definition write_file (env : Env) (path : string) (content : file) : M unit :=
  emit (FsWrite path content) ;;
  match write_outcome env path with
  | WriteOk => modify (fun s => set_fs (<[path := content]> (fs s)) s)
  | OpenFails e => raise e
  | DumpFails e =>
      modify (fun s => set_fs (<[path := Garbage "pickle data was truncated"]> (fs s)) s) ;;
      raise e
  end.

Definition pickle_dump (env : Env) (path : string) (o : pyobj) : M unit :=
  write_file env path (Pickled o).

Definition remove_file (env : Env) (path : string) : M unit :=
  emit (FsRemove path) ;;
  match os_remove env path with
  | Ok _ => modify (fun s => set_fs (delete path (fs s)) s)
  | Raise e => raise e
  end.

(** *** Calls into the libraries *)

(** A call is an event followed by what the world answers.  What a library
    keeps on disk for itself (the HTTP cache of OSMnx) is not among the
    files of [fs], which are the files the program opens, tests and
    removes. *)
Definition call {A} (e : Event) (r : Result A) : M A := emit e ;; lift r.

(** ** Text helpers *)

Definition nl : string := String (Ascii.ascii_of_nat 10) "".

Definition comma : Ascii.ascii := Ascii.ascii_of_nat 44.

(** [f"{n:,}"]: decimal digits with a comma between groups of three;
    [commas_rev] works on the digits in reverse. *)
Fixpoint commas_rev (ds : list Ascii.ascii) : list Ascii.ascii :=
  match ds with
  | a :: b :: c :: ((_ :: _) as rest) => a :: b :: c :: comma :: commas_rev rest
  | _ => ds
  end.

Definition format_comma (n : nat) : string :=
  String.string_of_list_ascii
    (rev (commas_rev (rev (String.list_ascii_of_string (pretty n))))).

Definition is_ascii_lower (c : Ascii.ascii) : bool :=
  let n := Ascii.nat_of_ascii c in (97 <=? n)%nat && (n <=? 122)%nat.
Definition is_ascii_upper (c : Ascii.ascii) : bool :=
  let n := Ascii.nat_of_ascii c in (65 <=? n)%nat && (n <=? 90)%nat.
Definition ascii_upper (c : Ascii.ascii) : Ascii.ascii :=
  if is_ascii_lower c then Ascii.ascii_of_nat (Ascii.nat_of_ascii c - 32) else c.
Definition ascii_lower (c : Ascii.ascii) : Ascii.ascii :=
  if is_ascii_upper c then Ascii.ascii_of_nat (Ascii.nat_of_ascii c + 32) else c.

(** [str.title()] on ASCII text: a letter that follows a letter is lowered,
    any other letter is raised. *)
Fixpoint title_from (prev_cased : bool) (s : string) : string :=
  match s with
  | EmptyString => EmptyString
  | String c rest =>
      if is_ascii_lower c || is_ascii_upper c
      then String (if prev_cased then ascii_lower c else ascii_upper c) (title_from true rest)
      else String c (title_from false rest)
  end.

Definition title (s : string) : string := title_from false s.

Definition rule50 : string := String.concat "" (replicate 50 "=").


(** ** class BangladeshRoadMap *)

Definition country_name : string := "Bangladesh".

Definition major_cities : list string :=
  ["Dhaka"; "Chittagong"; "Sylhet"; "Rajshahi";
   "Khulna"; "Barisal"; "Rangpur"; "Mymensingh"].

Definition cache_dir : string := "data_cache".
Definition graph_cache_file : string := cache_dir +:+ "/bangladesh_road_graph.pkl".
Definition districts_cache_file : string := cache_dir +:+ "/bangladesh_districts.pkl".
Definition stats_cache_file : string := cache_dir +:+ "/connectivity_stats.pkl".

(** [__init__]: no graph, no districts yet. *)
Definition init (files : gmap string file) : State :=
  {| road_graph := PyNone; districts_gdf := PyNone; fs := files; trace := [] |}.

Definition len_nodes (o : pyobj) : M nat :=
  do G <- lift (as_graph o) ; ret (length (nx.nodes G)).
Definition len_edges (o : pyobj) : M nat :=
  do G <- lift (as_graph o) ; ret (length (nx.edges G)).

Definition load_cached_graph : M bool :=
  do found <- os_path_exists graph_cache_file ;
  if found then
    try_except
      (print "Loading cached road network..." ;;
       do o <- pickle_load graph_cache_file ;
       modify (set_road_graph o) ;;
       do n <- len_nodes o ;
       do m <- len_edges o ;
       print ("Successfully loaded cached network with " +:+ pretty n
              +:+ " nodes and " +:+ pretty m +:+ " edges") ;;
       ret true)
      (fun e =>
         print ("Error loading cached graph: " +:+ exn_msg e) ;;
         ret false)
  else ret false.

Definition save_graph_to_cache (env : Env) : M unit :=
  try_except
    (print "Saving road network to cache..." ;;
     do o <- gets road_graph ;
     pickle_dump env graph_cache_file o ;;
     print ("Road network cached successfully at " +:+ graph_cache_file))
    (fun e => print ("Error saving graph to cache: " +:+ exn_msg e)).

Definition download_road_network (env : Env) (network_type : string)
    (force_download : bool) : M bool :=
  do cached <- (if negb force_download then load_cached_graph else ret false) ;
  if cached then ret true
  else
    print ("Downloading " +:+ network_type +:+ " network for " +:+ country_name +:+ "...") ;;
    print "This may take several minutes. Please be patient." ;;
    try_except
      (do G <- call (CallGraphFromPlace country_name network_type)
                    (graph_from_place env country_name network_type) ;
       modify (set_road_graph (PyGraph G)) ;;
       print ("Successfully downloaded road network with " +:+ pretty (length (nx.nodes G))
              +:+ " nodes and " +:+ pretty (length (nx.edges G)) +:+ " edges") ;;
       save_graph_to_cache env ;;
       ret true)
      (fun e =>
         print ("Error downloading road network: " +:+ exn_msg e) ;;
         ret false).

Definition load_cached_districts : M bool :=
  do found <- os_path_exists districts_cache_file ;
  if found then
    try_except
      (print "Loading cached district boundaries..." ;;
       do o <- pickle_load districts_cache_file ;
       modify (set_districts_gdf o) ;;
       print "Successfully loaded cached district boundaries" ;;
       ret true)
      (fun e =>
         print ("Error loading cached districts: " +:+ exn_msg e) ;;
         ret false)
  else ret false.

Definition save_districts_to_cache (env : Env) : M unit :=
  try_except
    (print "Saving district boundaries to cache..." ;;
     do o <- gets districts_gdf ;
     pickle_dump env districts_cache_file o ;;
     print ("District boundaries cached successfully at " +:+ districts_cache_file))
    (fun e => print ("Error saving districts to cache: " +:+ exn_msg e)).

Definition download_districts (env : Env) (force_download : bool) : M bool :=
  do cached <- (if negb force_download then load_cached_districts else ret false) ;
  if cached then ret true
  else
    print "Downloading district boundaries..." ;;
    try_except
      (do d <- call (CallGeocodeToGdf "Bangladesh") (geocode_to_gdf env "Bangladesh") ;
       modify (set_districts_gdf (PyGdf d)) ;;
       print "Successfully downloaded district boundaries" ;;
       save_districts_to_cache env ;;
       ret true)
      (fun e =>
         print ("Error downloading districts: " +:+ exn_msg e) ;;
         ret false).

(** Returns the unpickled object, [PyNone] when there is nothing usable. *)
Definition load_cached_stats : M pyobj :=
  do found <- os_path_exists stats_cache_file ;
  if found then
    try_except
      (print "Loading cached connectivity statistics..." ;;
       do stats <- pickle_load stats_cache_file ;
       print "Successfully loaded cached connectivity statistics" ;;
       ret stats)
      (fun e =>
         print ("Error loading cached stats: " +:+ exn_msg e) ;;
         ret PyNone)
  else ret PyNone.

Definition save_stats_to_cache (env : Env) (stats : pyobj) : M unit :=
  try_except
    (print "Saving connectivity statistics to cache..." ;;
     pickle_dump env stats_cache_file stats ;;
     print ("Statistics cached successfully at " +:+ stats_cache_file))
    (fun e => print ("Error saving stats to cache: " +:+ exn_msg e)).

Definition is_none (o : pyobj) : bool :=
  match o with PyNone => true | _ => false end.

(** The [try] block of [analyze_connectivity]: both centralities, then the
    two averages are stored in [stats]. *)
Definition centrality_measures (env : Env) (G : nx.MultiDiGraph) (stats : Stats) : M Stats :=
  let G_undirected := nx.to_undirected G in
  do degree <- call (CallDegreeCentrality G_undirected)
                    (degree_centrality env G_undirected) ;
  do betweenness <-
    (if (5000 <? length (nx.ug_nodes G_undirected))%nat then
       let sample_nodes := take 1000 (nx.ug_nodes G_undirected) in
       let sub := nx.subgraph G_undirected sample_nodes in
       call (CallBetweennessCentrality sub) (betweenness_centrality env sub)
     else
       call (CallBetweennessCentrality G_undirected)
            (betweenness_centrality env G_undirected)) ;
  ret {| total_nodes := total_nodes stats;
         total_edges := total_edges stats;
         is_connected := is_connected stats;
         number_of_components := number_of_components stats;
         analysis_date := analysis_date stats;
         avg_degree_centrality := Some (np_mean env degree);
         avg_betweenness_centrality := Some (np_mean env betweenness) |}.

(** The part of [analyze_connectivity] after the cache lookup.  The
    connectivity functions of networkx are computed in place, by the
    functions of [nx], and leave no event; the centralities are calls. *)
Definition compute_stats (env : Env) : M pyobj :=
  print "Analyzing road network connectivity..." ;;
  print "This may take a few minutes for large networks..." ;;
  do o <- gets road_graph ;
  do G <- lift (as_graph o) ;
  do connected <- lift (nx.is_connected (nx.to_undirected G)) ;
  let stats :=
    {| total_nodes := length (nx.nodes G);
       total_edges := length (nx.edges G);
       is_connected := connected;
       number_of_components := nx.number_connected_components (nx.to_undirected G);
       analysis_date := Some (now env);
       avg_degree_centrality := None;
       avg_betweenness_centrality := None |} in
  do stats <-
    try_except
      (centrality_measures env G stats)
      (fun e =>
         print ("Error calculating centrality measures: " +:+ exn_msg e) ;;
         ret stats) ;
  save_stats_to_cache env (PyStats stats) ;;
  ret (PyStats stats).

Definition analyze_connectivity (env : Env) (force_analysis : bool) : M pyobj :=
  do o <- gets road_graph ;
  if is_none o then
    print "No road network available for analysis" ;;
    ret PyNone
  else
    do cached_stats <- (if negb force_analysis then load_cached_stats else ret PyNone) ;
    if negb (is_none cached_stats) then ret cached_stats
    else compute_stats env.

(** *** The map *)

Definition default_style : Style :=
  {| color := "#808080"; weight := 1; opacity := 0.3 |}.

Definition styles : gmap string Style :=
  list_to_map
    [("motorway", {| color := "#FF0000"; weight := 4; opacity := 0.8 |});
     ("trunk", {| color := "#FF4500"; weight := 3; opacity := 0.8 |});
     ("primary", {| color := "#FFA500"; weight := 2.5; opacity := 0.7 |});
     ("secondary", {| color := "#FFFF00"; weight := 2; opacity := 0.6 |});
     ("tertiary", {| color := "#90EE90"; weight := 1.5; opacity := 0.5 |});
     ("residential", {| color := "#87CEEB"; weight := 1; opacity := 0.4 |});
     ("default", default_style)].

(** [highway_type[0] if highway_type else 'default'] for a list, the value
    itself for a string. *)
Definition first_tag (highway_type : HighwayTag) : string :=
  match highway_type with
  | TagList (t :: _) => t
  | TagList [] => "default"
  | TagStr s => s
  end.

Definition get_road_style (highway_type : HighwayTag) : Style :=
  let highway_type := first_tag highway_type in
  default default_style (styles !! highway_type).

(** [row.get('highway', 'default')], then the same list rule. *)
Definition row_highway_type (row : EdgeRow) : string :=
  first_tag (default (TagStr "default") (row_highway row)).

(** [f"{row.get('length', 'N/A'):.0f}"]: the default ['N/A'] is a string and
    has no format code [f]. *)
Definition format_length (env : Env) (row : EdgeRow) : Result string :=
  match row_length row with
  | Some len => Ok (format_0f env len)
  | None => Raise (Exception "Unknown format code 'f' for object of type 'str'")
  end.

Definition indent12 : string := "            ".

Definition popup_text (highway_type len name : string) : string :=
  nl +:+ indent12 +:+ "<b>Road Information</b><br>" +:+
  nl +:+ indent12 +:+ "Type: " +:+ highway_type +:+ "<br>" +:+
  nl +:+ indent12 +:+ "Length: " +:+ len +:+ "m<br>" +:+
  nl +:+ indent12 +:+ "Name: " +:+ name +:+
  nl +:+ indent12.

(** [road_groups]: a dict in insertion order. *)
Fixpoint add_to_group (key : string) (child : GeoJson)
    (groups : list (string * FeatureGroup)) : list (string * FeatureGroup) :=
  match groups with
  | [] => [(key, {| fg_name := title key +:+ " Roads"; fg_children := [child] |})]
  | (k, g) :: rest =>
      if decide (k = key)
      then (k, {| fg_name := fg_name g; fg_children := fg_children g ++ [child] |}) :: rest
      else (k, g) :: add_to_group key child rest
  end.

(** One turn of the loop over [edges_gdf.iterrows()]. *)
Definition add_road (env : Env) (road_groups : list (string * FeatureGroup))
    (row : EdgeRow) : Result (list (string * FeatureGroup)) :=
  let highway_type := row_highway_type row in
  let style := get_road_style (TagStr highway_type) in
  match format_length env row with
  | Raise e => Raise e
  | Ok len =>
      Ok (add_to_group highway_type
            {| gj_geometry := row_geometry row;
               gj_style := style;
               gj_popup := popup_text highway_type len (default "Unnamed" (row_name row));
               gj_tooltip := title highway_type +:+ " Road" |}
            road_groups)
  end.

Fixpoint add_roads (env : Env) (road_groups : list (string * FeatureGroup))
    (rows : list EdgeRow) : Result (list (string * FeatureGroup)) :=
  match rows with
  | [] => Ok road_groups
  | row :: rest =>
      match add_road env road_groups row with
      | Raise e => Raise e
      | Ok road_groups' => add_roads env road_groups' rest
      end
  end.

(** The loop over [self.major_cities]: a city that cannot be geocoded is
    reported and skipped. *)
Fixpoint add_cities (env : Env) (cities : list string) (cities_group : list Marker)
    : M (list Marker) :=
  match cities with
  | [] => ret cities_group
  | city :: rest =>
      do cities_group' <-
        try_except
          (do city_location <- call (CallGeocode (city +:+ ", Bangladesh"))
                                    (geocode env (city +:+ ", Bangladesh")) ;
           ret (cities_group ++
                  [{| mk_location := city_location;
                      mk_popup := "<b>" +:+ city +:+ "</b><br>Major City";
                      mk_tooltip := city |}]))
          (fun e =>
             print ("Could not geocode " +:+ city +:+ ": " +:+ exn_msg e) ;;
             ret cities_group) ;
      add_cities env rest cities_group'
  end.

Definition create_interactive_map (env : Env) (save_path : string) : M (option FoliumMap) :=
  do o <- gets road_graph ;
  if is_none o then
    print "No road network available for mapping" ;;
    ret None
  else
    print "Creating interactive map..." ;;
    do gdfs <- call (CallGraphToGdfs o)
                    (match as_graph o with
                     | Ok G => graph_to_gdfs env G
                     | Raise e => Raise e
                     end) ;
    let center_lat := series_mean env (node_y <$> gdfs.1) in
    let center_lon := series_mean env (node_x <$> gdfs.1) in
    print "Adding roads to map..." ;;
    do road_groups <- lift (add_roads env [] gdfs.2) ;
    print "Adding major cities..." ;;
    do cities_group <- add_cities env major_cities [] ;
    let m := {| map_location := (center_lat, center_lon);
                map_road_layers := road_groups.*2;
                map_cities := cities_group |} in
    write_file env save_path (Html m) ;;
    print ("Interactive map saved to " +:+ save_path) ;;
    ret (Some m).

(** *** The report *)

(** Only [None] is tested for: with a cached object that is not a mapping
    the three header lines are printed before the first subscript raises. *)
Definition generate_report (env : Env) (force_analysis : bool) : M unit :=
  do stats <- analyze_connectivity env force_analysis ;
  match stats with
  | PyNone => ret tt
  | PyStats stats =>
      print (nl +:+ rule50) ;;
      print "BANGLADESH ROAD CONNECTIVITY REPORT" ;;
      print rule50 ;;
      print ("Total Road Nodes: " +:+ format_comma (total_nodes stats)) ;;
      print ("Total Road Segments: " +:+ format_comma (total_edges stats)) ;;
      print ("Network Connected: " +:+ (if is_connected stats then "Yes" else "No")) ;;
      print ("Number of Components: " +:+ pretty (number_of_components stats)) ;;
      match avg_degree_centrality stats with
      | Some c => print ("Average Degree Centrality: " +:+ format_4f env c)
      | None => ret tt
      end ;;
      match avg_betweenness_centrality stats with
      | Some c => print ("Average Betweenness Centrality: " +:+ format_4f env c)
      | None => ret tt
      end ;;
      match analysis_date stats with
      | Some d => print ("Analysis Date: " +:+ d)
      | None => ret tt
      end ;;
      print rule50
  | other =>
      print (nl +:+ rule50) ;;
      print "BANGLADESH ROAD CONNECTIVITY REPORT" ;;
      print rule50 ;;
      raise (Exception ("'" +:+ type_name other +:+ "' object is not subscriptable"))
  end.

(** *** Cache management *)

Definition cache_files : list string :=
  [graph_cache_file; districts_cache_file; stats_cache_file].

Fixpoint remove_existing (env : Env) (files : list string) : M unit :=
  match files with
  | [] => ret tt
  | cache_file :: rest =>
      do found <- os_path_exists cache_file ;
      (if found then
         try_except
           (remove_file env cache_file ;;
            print ("Removed cache file: " +:+ cache_file))
           (fun e =>
              print ("Error removing cache file " +:+ cache_file +:+ ": " +:+ exn_msg e))
       else ret tt) ;;
      remove_existing env rest
  end.

Definition clear_cache (env : Env) : M unit :=
  remove_existing env cache_files ;;
  print "Cache cleared successfully!".

Fixpoint cache_info_lines (env : Env) (files : list (string * string)) : M unit :=
  match files with
  | [] => ret tt
  | (name, file_path) :: rest =>
      do found <- os_path_exists file_path ;
      (if found then print (name +:+ ": Cached (" +:+ file_info env file_path +:+ ")")
       else print (name +:+ ": Not cached")) ;;
      cache_info_lines env rest
  end.

Definition get_cache_info (env : Env) : M unit :=
  print (nl +:+ "=== CACHE INFORMATION ===") ;;
  cache_info_lines env
    [("Road Network", graph_cache_file);
     ("District Boundaries", districts_cache_file);
     ("Connectivity Stats", stats_cache_file)] ;;
  print ("========================" +:+ nl).

(** *** The pipeline *)

Definition run_complete_analysis (env : Env) (force_download force_analysis : bool)
    : M (option FoliumMap) :=
  print "Starting Bangladesh Road Connectivity Analysis..." ;;
  get_cache_info env ;;
  (if negb force_download
   then print ("Using cached data when available. Use force_download=True to refresh data."
               +:+ nl)
   else ret tt) ;;
  do ok <- download_road_network env "drive" force_download ;
  if negb ok then
    print "Failed to download road network. Exiting." ;;
    ret None
  else
    download_districts env force_download ;;
    generate_report env force_analysis ;;
    do map_obj <- create_interactive_map env "bangladesh_road_map.html" ;
    print (nl +:+ "Analysis complete!") ;;
    print "Check 'bangladesh_road_map.html' for the interactive map." ;;
    print (nl +:+ "To force refresh data next time, use:") ;;
    print "analyzer.run_complete_analysis(force_download=True, force_analysis=True)" ;;
    ret map_obj.

(** ** Vocabulary of the specification *)

(** *** Connectivity, stated without the algorithm *)

Definition adjacent (G : nx.MultiGraph) (u v : Z) : Prop :=
  (u, v) ∈ nx.ug_edges G ∨ (v, u) ∈ nx.ug_edges G.

(** Two nodes are connected when a path of edges, taken in either
    direction, joins them. *)
Definition connected (G : nx.MultiGraph) : relation Z := rtc (adjacent G).

(** Every edge joins two nodes of the graph. *)
Definition closed_graph (G : nx.MultiGraph) : Prop :=
  ∀ e, e ∈ nx.ug_edges G → e.1 ∈ nx.ug_nodes G ∧ e.2 ∈ nx.ug_nodes G.

(** One node out of each connected component. *)
Definition representatives (G : nx.MultiGraph) (reps : list Z) : Prop :=
  NoDup reps ∧
  (∀ r, r ∈ reps → r ∈ nx.ug_nodes G) ∧
  (∀ r r', r ∈ reps → r' ∈ reps → connected G r r' → r = r') ∧
  (∀ v, v ∈ nx.ug_nodes G → ∃ r, r ∈ reps ∧ connected G r v).

(** [G] has exactly [n] connected components. *)
Definition has_components (G : nx.MultiGraph) (n : nat) : Prop :=
  ∃ reps, representatives G reps ∧ length reps = n.

(** What [connected_components] maintains while it walks over the nodes. *)
Definition cc_inv (G : nx.MultiGraph) (st : gset Z * list (gset Z)) (reps : list Z) : Prop :=
  length st.2 = length reps ∧
  NoDup reps ∧
  (∀ r, r ∈ reps → r ∈ nx.ug_nodes G) ∧
  (∀ r r', r ∈ reps → r' ∈ reps → connected G r r' → r = r') ∧
  (∀ v, v ∈ st.1 ↔ ∃ r, r ∈ reps ∧ connected G r v).

(** *** Effects *)

Definition is_library_call (e : Event) : bool :=
  match e with
  | CallGraphFromPlace _ _ | CallGeocodeToGdf _ | CallGeocode _ | CallGraphToGdfs _
  | CallDegreeCentrality _ | CallBetweennessCentrality _ => true
  | _ => false
  end.

(** The calls into the geodata and graph libraries recorded in a trace. *)
Fixpoint library_calls (t : list Event) : list Event :=
  match t with
  | [] => []
  | e :: t' => if is_library_call e then e :: library_calls t' else library_calls t'
  end.

(** What a method added to the trace. *)
Definition new_events (before after : State) : list Event :=
  drop (length (trace before)) (trace after).

(** Two runs agree on the value returned, on the attributes of the
    analyzer, on the files, and on the library calls made. *)
Definition same_outcome {A} (x y : Result A * State) : Prop :=
  x.1 = y.1 ∧ road_graph x.2 = road_graph y.2 ∧ districts_gdf x.2 = districts_gdf y.2 ∧
  fs x.2 = fs y.2 ∧ library_calls (trace x.2) = library_calls (trace y.2).

(** The same world, except for what happens to writes. *)
Definition with_write_outcome (w : string → WriteOutcome) (env : Env) : Env :=
  {| graph_from_place := graph_from_place env;
     geocode_to_gdf := geocode_to_gdf env;
     geocode := geocode env;
     graph_to_gdfs := graph_to_gdfs env;
     degree_centrality := degree_centrality env;
     betweenness_centrality := betweenness_centrality env;
     np_mean := np_mean env;
     series_mean := series_mean env;
     now := now env;
     write_outcome := w;
     os_remove := os_remove env;
     file_info := file_info env;
     format_4f := format_4f env;
     format_0f := format_0f env |}.

Definition removable (env : Env) (path : string) : bool :=
  match os_remove env path with Ok _ => true | Raise _ => false end.

(** *** The report, as the specification words it: node count, edge count,
    connectivity as Yes/No, component count, then the centrality averages
    and the timestamp when present, between two rules. *)
Definition report_block (env : Env) (st : Stats) : list string :=
  [nl +:+ rule50; "BANGLADESH ROAD CONNECTIVITY REPORT"; rule50;
   "Total Road Nodes: " +:+ format_comma (total_nodes st);
   "Total Road Segments: " +:+ format_comma (total_edges st);
   "Network Connected: " +:+ (if is_connected st then "Yes" else "No");
   "Number of Components: " +:+ pretty (number_of_components st)]
  ++ option_list ((fun c => "Average Degree Centrality: " +:+ format_4f env c)
                    <$> avg_degree_centrality st)
  ++ option_list ((fun c => "Average Betweenness Centrality: " +:+ format_4f env c)
                    <$> avg_betweenness_centrality st)
  ++ option_list ((fun d => "Analysis Date: " +:+ d) <$> analysis_date st)
  ++ [rule50].

(** The marker of a city, when the geocoder finds it. *)
Definition city_marker (env : Env) (city : string) : option Marker :=
  match geocode env (city +:+ ", Bangladesh") with
  | Ok city_location =>
      Some {| mk_location := city_location;
              mk_popup := "<b>" +:+ city +:+ "</b><br>Major City";
              mk_tooltip := city |}
  | Raise _ => None
  end.

(** The stats the computation stores before the centralities are known. *)
Definition basic_stats (env : Env) (G : nx.MultiDiGraph) (connected_flag : bool) : Stats :=
  {| total_nodes := length (nx.nodes G);
     total_edges := length (nx.edges G);
     is_connected := connected_flag;
     number_of_components := nx.number_connected_components (nx.to_undirected G);
     analysis_date := Some (now env);
     avg_degree_centrality := None;
     avg_betweenness_centrality := None |}.

(** ** Fixtures: small worlds on which the statements below are exercised *)

(** Two components: 1 - 2 - 3 and 4 - 5. *)
Definition two_islands : nx.MultiDiGraph :=
  {| nx.added_nodes := [1; 2; 3; 4; 5]%Z;
     nx.added_edges := [(1, 2); (3, 2); (4, 5)]%Z |}.

Definition null_graph : nx.MultiDiGraph :=
  {| nx.added_nodes := []; nx.added_edges := [] |}.

(** 5001 isolated nodes. *)
Definition big_graph : nx.MultiDiGraph :=
  {| nx.added_nodes := Z.of_nat <$> seq 0 (Z.to_nat 5001); nx.added_edges := [] |}.

Definition some_districts : GeoDataFrame :=
  {| gdf_rows := [("Bangladesh", "POLYGON ((88.0 20.6, 92.7 20.6, 92.7 26.6, 88.0 26.6))")] |}.

Definition some_rows : list NodeRow * list EdgeRow :=
  ([{| node_y := Float 1; node_x := Float 2 |}],
   [{| row_highway := Some (TagStr "primary"); row_length := Some (Float 3);
       row_name := Some "N1"; row_geometry := "LINESTRING (90.4 23.8, 91.8 22.3)" |};
    {| row_highway := Some (TagList ["trunk"; "primary"]); row_length := Some (Float 4);
       row_name := None; row_geometry := "LINESTRING (90.4 23.8, 89.5 22.8)" |}]).

(** A world in which every library call and every write succeeds. *)
Definition env_ok : Env :=
  {| graph_from_place := fun _ _ => Ok two_islands;
     geocode_to_gdf := fun _ => Ok some_districts;
     geocode := fun _ => Ok (Float 5, Float 6);
     graph_to_gdfs := fun _ => Ok some_rows;
     degree_centrality := fun _ => Ok [Float 7];
     betweenness_centrality := fun _ => Ok [Float 8];
     np_mean := fun _ => Float 9;
     series_mean := fun _ => Float 10;
     now := "2024-01-01 00:00:00";
     write_outcome := fun _ => WriteOk;
     os_remove := fun _ => Ok tt;
     file_info := fun _ => "0.1 MB, 2024-01-01 00:00:00";
     format_4f := fun _ => "0.5000";
     format_0f := fun _ => "100" |}.

(** The same world with a provider that is down, a geocoder that finds
    nothing, centralities that fail, and a disk that refuses writes and
    removals. *)
Definition env_down : Env :=
  {| graph_from_place := fun _ _ => Raise (Exception "no route to host");
     geocode_to_gdf := fun _ => Raise (Exception "no route to host");
     geocode := fun _ => Raise (Exception "no route to host");
     graph_to_gdfs := graph_to_gdfs env_ok;
     degree_centrality := fun _ => Raise (Exception "out of memory");
     betweenness_centrality := fun _ => Raise (Exception "out of memory");
     np_mean := np_mean env_ok;
     series_mean := series_mean env_ok;
     now := "2024-02-02 00:00:00";
     write_outcome := fun _ => OpenFails (Exception "[Errno 13] Permission denied");
     os_remove := fun _ => Raise (Exception "[Errno 13] Permission denied");
     file_info := file_info env_ok;
     format_4f := format_4f env_ok;
     format_0f := format_0f env_ok |}.

(** Only the geocoders and the centralities fail. *)
Definition env_degraded : Env :=
  {| graph_from_place := graph_from_place env_ok;
     geocode_to_gdf := geocode_to_gdf env_down;
     geocode := geocode env_down;
     graph_to_gdfs := graph_to_gdfs env_ok;
     degree_centrality := degree_centrality env_down;
     betweenness_centrality := betweenness_centrality env_down;
     np_mean := np_mean env_ok;
     series_mean := series_mean env_ok;
     now := now env_ok;
     write_outcome := write_outcome env_ok;
     os_remove := os_remove env_ok;
     file_info := file_info env_ok;
     format_4f := format_4f env_ok;
     format_0f := format_0f env_ok |}.

Definition some_stats : Stats :=
  {| total_nodes := 4321; total_edges := 89; is_connected := true;
     number_of_components := 1; analysis_date := Some "2023-12-31 23:59:59";
     avg_degree_centrality := Some (Float 11);
     avg_betweenness_centrality := None |}.

(** A fresh analyzer next to a cache that holds statistics only. *)
Definition s_stats_only : State :=
  init {[ stats_cache_file := Pickled (PyStats some_stats) ]}.

(** An analyzer whose graph is loaded, with an empty cache. *)
Definition s_loaded (G : nx.MultiDiGraph) : State :=
  set_road_graph (PyGraph G) (init ∅).

(** A full cache. *)
Definition s_cached : State :=
  init (<[ graph_cache_file := Pickled (PyGraph two_islands) ]>
        (<[ districts_cache_file := Pickled (PyGdf some_districts) ]>
         (<[ stats_cache_file := Pickled (PyStats some_stats) ]> ∅))).

(** A cache whose three files cannot be decoded. *)
Definition s_corrupt : State :=
  init (<[ graph_cache_file := Garbage "invalid load key" ]>
        (<[ districts_cache_file := Garbage "invalid load key" ]>
         (<[ stats_cache_file := Garbage "invalid load key" ]> ∅))).

(** ** More vocabulary *)

Definition write_error (w : WriteOutcome) : option exn :=
  match w with WriteOk => None | OpenFails e | DumpFails e => Some e end.

Definition same_memory {A} (x y : Result A * State) : Prop :=
  x.1 = y.1 ∧ road_graph x.2 = road_graph y.2 ∧ districts_gdf x.2 = districts_gdf y.2 ∧
  library_calls (trace x.2) = library_calls (trace y.2).

(** The graph on which betweenness is computed. *)
Definition betweenness_input (G : nx.MultiDiGraph) : nx.MultiGraph :=
  let G_undirected := nx.to_undirected G in
  if (5000 <? length (nx.ug_nodes G_undirected))%nat
  then nx.subgraph G_undirected (take 1000 (nx.ug_nodes G_undirected))
  else G_undirected.

(** One of the two centrality calls raises [e]. *)
Definition centrality_fails (env : Env) (G : nx.MultiDiGraph) (e : exn) : Prop :=
  degree_centrality env (nx.to_undirected G) = Raise e
  ∨ (∃ d, degree_centrality env (nx.to_undirected G) = Ok d)
    ∧ betweenness_centrality env (betweenness_input G) = Raise e.

(** Printing the lines of [l] one after the other. *)
Definition printed (l : list string) (s : State) : State :=
  {| road_graph := road_graph s; districts_gdf := districts_gdf s; fs := fs s;
     trace := trace s ++ (Print <$> l) |}.

(** The statements of [run_complete_analysis] that come before the
    download. *)
Definition preamble (env : Env) (force_download : bool) : M unit :=
  print "Starting Bangladesh Road Connectivity Analysis..." ;;
  get_cache_info env ;;
  (if negb force_download
   then print ("Using cached data when available. Use force_download=True to refresh data."
               +:+ nl)
   else ret tt).

(** The statements that come after a successful download. *)
Definition after_download (env : Env) (force_download force_analysis : bool)
    : M (option FoliumMap) :=
  download_districts env force_download ;;
  generate_report env force_analysis ;;
  do map_obj <- create_interactive_map env "bangladesh_road_map.html" ;
  print (nl +:+ "Analysis complete!") ;;
  print "Check 'bangladesh_road_map.html' for the interactive map." ;;
  print (nl +:+ "To force refresh data next time, use:") ;;
  print "analyzer.run_complete_analysis(force_download=True, force_analysis=True)" ;;
  ret map_obj.

(** Testing for a file or reading one. *)
Definition is_cache_read (e : Event) : bool :=
  match e with FsExists _ | FsRead _ => true | _ => false end.

(** The calls to [nx.degree_centrality] and [nx.betweenness_centrality]. *)
Definition is_centrality_call (e : Event) : bool :=
  match e with
  | CallDegreeCentrality _ | CallBetweennessCentrality _ => true
  | _ => false
  end.

Definition centrality_calls (t : list Event) : list Event :=
  filter (λ e, is_centrality_call e = true) t.

(** The lines printed, out of a list of events. *)
Definition printed_lines (evs : list Event) : list string :=
  omap (λ e, match e with Print line => Some line | _ => None end) evs.

(** The line of [get_cache_info] for one artifact. *)
Definition cache_line (env : Env) (name file_path : string) (files : gmap string file)
    : string :=
  if bool_decide (is_Some (files !! file_path))
  then name +:+ ": Cached (" +:+ file_info env file_path +:+ ")"
  else name +:+ ": Not cached".

(** [print] and [os.path.exists] only. *)
Definition is_look (e : Event) : bool :=
  match e with Print _ | FsExists _ => true | _ => false end.

(** Whatever state [m] starts in, it only appends to the log, every event
    it appends satisfies [P], and it leaves alone every file that [P] allows
    it neither to write nor to remove. *)
Definition emits {A} (P : Event → Prop) (m : M A) : Prop :=
  ∀ s, ∃ evs, trace (m s).2 = trace s ++ evs ∧ Forall P evs ∧
              ∀ path, (∀ content, ¬ P (FsWrite path content)) → ¬ P (FsRemove path) →
                      fs (m s).2 !! path = fs s !! path.

(** The road-network producer: its own cache file, and the provider asked
    for the network of Bangladesh of the given type. *)
Definition graph_event (network_type : string) (e : Event) : Prop :=
  match e with
  | Print _ => True
  | FsExists path | FsRead path | FsWrite path _ => path = graph_cache_file
  | CallGraphFromPlace place nt => place = country_name ∧ nt = network_type
  | _ => False
  end.

(** The district producer: its own cache file, and the geocoder asked for
    the country. *)
Definition districts_event (e : Event) : Prop :=
  match e with
  | Print _ => True
  | FsExists path | FsRead path | FsWrite path _ => path = districts_cache_file
  | CallGeocodeToGdf query => query = "Bangladesh"
  | _ => False
  end.

(** The statistics producer: its own cache file, and the two centralities. *)
Definition stats_event (e : Event) : Prop :=
  match e with
  | Print _ | CallDegreeCentrality _ | CallBetweennessCentrality _ => True
  | FsExists path | FsRead path | FsWrite path _ => path = stats_cache_file
  | _ => False
  end.

(** The map: the conversion of the graph, the geocoder asked for the listed
    cities, and one file written. *)
Definition map_event (save_path : string) (e : Event) : Prop :=
  match e with
  | Print _ | CallGraphToGdfs _ => True
  | CallGeocode query => ∃ city, city ∈ major_cities ∧ query = city +:+ ", Bangladesh"
  | FsWrite path _ => path = save_path
  | _ => False
  end.

(** The cache report: existence tests of the cache files. *)
Definition info_event (e : Event) : Prop :=
  match e with
  | Print _ => True
  | FsExists path => path ∈ cache_files
  | _ => False
  end.

(** Clearing the cache: existence tests and removals of the cache files. *)
Definition clear_event (e : Event) : Prop :=
  match e with
  | Print _ => True
  | FsExists path | FsRemove path => path ∈ cache_files
  | _ => False
  end.

(** The whole pipeline, for [network_type] and a map saved at [save_path]. *)
Definition allowed (network_type save_path : string) (e : Event) : Prop :=
  graph_event network_type e ∨ districts_event e ∨ stats_event e
  ∨ map_event save_path e ∨ info_event e.

(** The calls that make a run slow: the download of the road network and
    the two centralities. *)
Definition is_heavy_call (e : Event) : bool :=
  match e with
  | CallGraphFromPlace _ _ | CallDegreeCentrality _ | CallBetweennessCentrality _ => true
  | _ => false
  end.

(** [emits], from one given state. *)
Definition emits_at {A} (P : Event → Prop) (m : M A) (s : State) : Prop :=
  ∃ evs, trace (m s).2 = trace s ++ evs ∧ Forall P evs.

(** [road_groups] after the loop has gone over [rows]: one group per
    classification met, under distinct keys; the group of [key] is named
    after it and holds, in the order of the rows, one element per row of
    that classification, drawn in the style of [key]. *)
Definition grouped (rows : list EdgeRow) (road_groups : list (string * FeatureGroup)) : Prop :=
  NoDup road_groups.*1 ∧
  (∀ key, key ∈ road_groups.*1 ↔ key ∈ row_highway_type <$> rows) ∧
  (∀ key group, (key, group) ∈ road_groups →
     fg_name group = title key +:+ " Roads" ∧
     gj_geometry <$> fg_children group
     = row_geometry <$> filter (λ row, row_highway_type row = key) rows ∧
     Forall (λ child, gj_style child = get_road_style (TagStr key) ∧
                      gj_tooltip child = title key +:+ " Road")
       (fg_children group)).

(** The line printed for a city the geocoder does not find. *)
Definition geocode_warning (env : Env) (city : string) : option string :=
  match geocode env (city +:+ ", Bangladesh") with
  | Ok _ => None
  | Raise e => Some ("Could not geocode " +:+ city +:+ ": " +:+ exn_msg e)
  end.

(** What [argparse] hands to [main]. *)
Record Args := {
  arg_force_download : bool;
  arg_force_analysis : bool;
  arg_clear_cache : bool;
  arg_cache_info : bool;
  arg_network_type : string
}.

(** The end of [__init__], run on [init files]: the cache directory is
    created when it is missing.  The directory is not one of the files of
    [fs]; whether it exists ([dir_exists]) and what creating it does
    ([makedirs]) is for the world to say, and creating it leaves no event
    and changes no file of [fs]. *)
Definition BangladeshRoadMap_init (dir_exists : bool) (makedirs : Result unit) : M unit :=
  emit (FsExists cache_dir) ;;
  if negb dir_exists then
    lift makedirs ;;
    print ("Created cache directory: " +:+ cache_dir)
  else ret tt.

Definition main (env : Env) (dir_exists : bool) (makedirs : Result unit) (args : Args)
    : M unit :=
  BangladeshRoadMap_init dir_exists makedirs ;;
  if arg_clear_cache args then clear_cache env
  else if arg_cache_info args then get_cache_info env
  else
    run_complete_analysis env (arg_force_download args) (arg_force_analysis args) ;;
    ret tt.

(** The same command line with another [--network-type]. *)
Definition with_network_type (network_type : string) (args : Args) : Args :=
  {| arg_force_download := arg_force_download args;
     arg_force_analysis := arg_force_analysis args;
     arg_clear_cache := arg_clear_cache args;
     arg_cache_info := arg_cache_info args;
     arg_network_type := network_type |}.

(** What [main] may do: what the constructor, [clear_cache],
    [get_cache_info] and the pipeline for the drive network may do. *)
Definition main_event (e : Event) : Prop :=
  e = FsExists cache_dir ∨ clear_event e
  ∨ allowed "drive" "bangladesh_road_map.html" e.

(** A cache file that is of no use to its producer. *)
Definition useless_graph_file (content : file) : Prop :=
  match content with
  | Pickled (PyGraph _) => False
  | _ => True
  end.

Definition useless_stats_file (content : file) : Prop :=
  match content with
  | Pickled PyNone | Html _ | Garbage _ => True
  | Pickled _ => False
  end.

(** A world where everything works except that the map cannot be written. *)
Definition env_no_map : Env :=
  with_write_outcome
    (λ path, if decide (path = "bangladesh_road_map.html")
             then OpenFails (Exception "[Errno 13] Permission denied")
             else WriteOk)
    env_ok.

(** The four lines that close a run. *)
Definition closing_lines : list string :=
  [nl +:+ "Analysis complete!";
   "Check 'bangladesh_road_map.html' for the interactive map.";
   nl +:+ "To force refresh data next time, use:";
   "analyzer.run_complete_analysis(force_download=True, force_analysis=True)"].

(** * Properties *)

(** * Facts *)

(** ** networkx: the search reaches exactly the connected nodes *)

Section connectivity.
Import nx.
Implicit Types (G : MultiGraph) (u v w : Z) (seen level : gset Z).

Lemma adjacent_sym G u v : adjacent G u v → adjacent G v u.
Proof. unfold adjacent. tauto. Qed.

Lemma connected_sym G u v : connected G u v → connected G v u.
Proof.
  induction 1 as [|x y z Hxy _ IH]; [apply rtc_refl|].
  eapply rtc_r; [exact IH|]. by apply adjacent_sym.
Qed.

Lemma elem_of_neighbors G v w : w ∈ neighbors G v ↔ adjacent G v w.
Proof.
  unfold neighbors, adjacent. rewrite elem_of_list_to_set, list_elem_of_In, in_flat_map.
  split.
  - intros [[a b] [Hin Hw]]. apply list_elem_of_In in Hin. simpl in Hw.
    apply in_app_or in Hw as [Hw|Hw]; case_decide; simpl in *; try tauto;
      destruct Hw as [<-|[]]; subst; tauto.
  - intros [H|H]; [exists (v, w)|exists (w, v)]; (split; [by apply list_elem_of_In|]);
      simpl; apply in_or_app.
    + left. case_decide; [by left|done].
    + right. case_decide; [by left|done].
Qed.

Lemma elem_of_level_neighbors G level w :
  w ∈ level_neighbors G level ↔ ∃ v, v ∈ level ∧ adjacent G v w.
Proof.
  unfold level_neighbors. rewrite elem_of_union_list. split.
  - intros (X & HX & Hw). apply list_elem_of_fmap in HX as (v & -> & Hv).
    exists v. split; [by apply elem_of_elements|by apply elem_of_neighbors].
  - intros (v & Hv & Hadj). exists (neighbors G v). split.
    + apply list_elem_of_fmap. exists v. split; [done|by apply elem_of_elements].
    + by apply elem_of_neighbors.
Qed.

Lemma bfs_loop_done fuel G seen : bfs_loop fuel G seen ∅ = seen.
Proof. destruct fuel; simpl; [done|]. by rewrite decide_True. Qed.

Lemma closed_reach G seen s v :
  s ∈ seen → (∀ x w, x ∈ seen → adjacent G x w → w ∈ seen) →
  connected G s v → v ∈ seen.
Proof. intros Hs Hcl Hc. induction Hc; eauto. Qed.

Lemma bfs_loop_spec G s fuel : closed_graph G → ∀ seen level,
  s ∈ seen → level ⊆ seen →
  (∀ x, x ∈ seen → x ∈ ug_nodes G) →
  (∀ x, x ∈ seen → connected G s x) →
  (∀ x w, x ∈ seen → x ∉ level → adjacent G x w → w ∈ seen) →
  size (list_to_set (ug_nodes G) ∖ seen : gset Z) < fuel →
  ∀ v, v ∈ bfs_loop fuel G seen level ↔ connected G s v.
Proof.
  intros Hwf. induction fuel as [|fuel IH]; intros seen level Hs Hsub Hnodes Hconn Hfront Hsize v;
    [lia|].
  simpl. case_decide as Hlevel.
  - subst level. split; [by apply Hconn|].
    apply closed_reach; [done|]. intros x w Hx. apply Hfront; set_solver.
  - remember (level_neighbors G level ∖ seen) as next eqn:Enext.
    assert (Hnext : ∀ w, w ∈ next → w ∈ ug_nodes G ∧ connected G s w ∧ w ∉ seen).
    { intros w Hw. rewrite Enext in Hw. apply elem_of_difference in Hw as [Hw Hnw].
      apply elem_of_level_neighbors in Hw as (x & Hx & Hadj).
      split_and!; [|..|done].
      - destruct Hadj as [H|H]; apply Hwf in H; simpl in H; tauto.
      - apply (rtc_r s x w); [apply Hconn; set_solver|done]. }
    assert (Hclosed : ∀ x w, x ∈ seen → adjacent G x w → w ∈ seen ∪ next).
    { intros x w Hx Hadj. destruct (decide (w ∈ seen)) as [|Hw]; [set_solver|].
      apply elem_of_union_r. rewrite Enext. apply elem_of_difference. split; [|done].
      apply elem_of_level_neighbors. exists x. split; [|done].
      destruct (decide (x ∈ level)); [done|]. exfalso. eauto. }
    destruct (decide (next = ∅)) as [Hempty|Hne].
    + rewrite Hempty, bfs_loop_done. split; [intros; apply Hconn; set_solver|].
      intros Hv. apply (closed_reach G (seen ∪ ∅) s); [set_solver| |done].
      intros x w Hx Hadj. rewrite <- Hempty. apply (Hclosed x); [set_solver|done].
    + apply IH.
      * set_solver.
      * set_solver.
      * intros x [Hx|Hx]%elem_of_union; [eauto|by apply Hnext].
      * intros x [Hx|Hx]%elem_of_union; [eauto|by apply Hnext].
      * intros x w [Hx|Hx]%elem_of_union Hxl Hadj; [by eapply Hclosed|done].
      * assert (list_to_set (ug_nodes G) ∖ (seen ∪ next) ⊂ (list_to_set (ug_nodes G) ∖ seen : gset Z)) as Hlt.
        { apply set_choose_L in Hne as [w Hw]. destruct (Hnext w Hw) as (Hn & _ & Hns).
          split; [set_solver|]. intros Hsubs.
          assert (w ∈ (list_to_set (ug_nodes G) ∖ seen : gset Z)) as Hin by set_solver.
          apply Hsubs in Hin. set_solver. }
        apply subset_size in Hlt. lia.
Qed.

Lemma plain_bfs_spec G s v :
  closed_graph G → NoDup (ug_nodes G) → s ∈ ug_nodes G →
  v ∈ plain_bfs G s ↔ connected G s v.
Proof.
  intros Hwf Hnd Hs. unfold plain_bfs. apply bfs_loop_spec.
  - done.
  - set_solver.
  - done.
  - intros x ->%elem_of_singleton. done.
  - intros x ->%elem_of_singleton. apply rtc_refl.
  - intros x w ->%elem_of_singleton Hx. set_solver.
  - assert (size (list_to_set (ug_nodes G) : gset Z) = length (ug_nodes G)) as Hsz
      by by apply size_list_to_set.
    assert ((list_to_set (ug_nodes G) ∖ {[s]} : gset Z) ⊂ list_to_set (ug_nodes G)) as Hlt
      by set_solver.
    apply subset_size in Hlt. lia.
Qed.

Lemma connected_trans G u v w : connected G u v → connected G v w → connected G u w.
Proof. apply rtc_trans. Qed.

Lemma connected_in_nodes G s v :
  closed_graph G → s ∈ ug_nodes G → connected G s v → v ∈ ug_nodes G.
Proof.
  intros Hwf Hs Hc. induction Hc as [|x y z Hxy _ IH]; [done|].
  apply IH. destruct Hxy as [H|H]; apply Hwf in H; simpl in H; tauto.
Qed.

Lemma reps_length_le G (l1 l2 : list Z) :
  NoDup l1 →
  (∀ r r', r ∈ l1 → r' ∈ l1 → connected G r r' → r = r') →
  (∀ x, x ∈ l1 → ∃ y, y ∈ l2 ∧ connected G y x) →
  length l1 ≤ length l2.
Proof.
  revert l2. induction l1 as [|x l1 IH]; intros l2 Hnd Hpw Hcov; simpl; [lia|].
  apply NoDup_cons in Hnd as [Hx Hnd].
  destruct (Hcov x) as (y & Hy & Hyx); [left|].
  apply list_elem_of_split in Hy as (a & b & ->).
  rewrite length_app. simpl.
  enough (length l1 ≤ length (a ++ b)) by (rewrite length_app in *; lia).
  apply IH; [done| |].
  - intros r r' Hr Hr'. apply Hpw; by right.
  - intros x' Hx'. destruct (Hcov x') as (y' & Hy' & Hyx'); [by right|].
    exists y'. split; [|done].
    apply elem_of_app in Hy' as [?|Hy']; [set_solver|].
    apply elem_of_cons in Hy' as [->|?]; [|set_solver].
    exfalso. apply Hx. erewrite (Hpw x x'); [done|left|by right|].
    eapply connected_trans; [apply connected_sym|]; done.
Qed.

Lemma has_components_unique G n m : has_components G n → has_components G m → n = m.
Proof.
  intros (l1 & (Hnd1 & Hin1 & Hpw1 & Hcov1) & <-) (l2 & (Hnd2 & Hin2 & Hpw2 & Hcov2) & <-).
  apply Nat.le_antisymm; eapply reps_length_le; eauto.
Qed.

Lemma cc_step_inv G st reps v :
  closed_graph G → NoDup (ug_nodes G) → v ∈ ug_nodes G → cc_inv G st reps →
  ∃ reps', cc_inv G (cc_step G st v) reps' ∧ v ∈ (cc_step G st v).1 ∧ st.1 ⊆ (cc_step G st v).1.
Proof.
  intros Hwf Hnd Hv (Hlen & Hnr & Hin & Hpw & Hseen). unfold cc_step.
  case_decide as Hvs; [exists reps; split_and!; done|].
  assert (Hnew : ∀ r, r ∈ reps → ¬ connected G r v).
  { intros r Hr Hc. apply Hvs, Hseen. eauto. }
  exists (reps ++ [v]). unfold cc_inv. simpl. split_and!.
  - rewrite !length_app. simpl. lia.
  - apply NoDup_app. split_and!; [done| |apply NoDup_singleton].
    intros r Hr ->%list_elem_of_singleton. by apply (Hnew v), rtc_refl.
  - intros r [?| ->%list_elem_of_singleton]%elem_of_app; eauto.
  - intros r r' [Hr| ->%list_elem_of_singleton]%elem_of_app
                 [Hr'| ->%list_elem_of_singleton]%elem_of_app Hc; eauto.
    + by destruct (Hnew r).
    + destruct (Hnew r'); [done|]. by apply connected_sym.
  - intros w. rewrite elem_of_union, Hseen, plain_bfs_spec by done. split.
    + intros [(r & Hr & Hc)|Hc]; [exists r|exists v]; (split; [|done]); set_solver.
    + intros (r & [Hr| ->%list_elem_of_singleton]%elem_of_app & Hc); eauto.
  - apply elem_of_union_r, plain_bfs_spec; [done..|apply rtc_refl].
  - set_solver.
Qed.

Lemma cc_fold_inv G : closed_graph G → NoDup (ug_nodes G) → ∀ (l : list Z) st reps,
  (∀ v, v ∈ l → v ∈ ug_nodes G) → cc_inv G st reps →
  ∃ reps', cc_inv G (foldl (cc_step G) st l) reps' ∧
           st.1 ⊆ (foldl (cc_step G) st l).1 ∧
           ∀ v, v ∈ l → v ∈ (foldl (cc_step G) st l).1.
Proof.
  intros Hwf Hnd. induction l as [|v l IH]; intros st reps Hl Hinv; simpl.
  - exists reps. split_and!; [done|done|]. intros v Hv. by apply elem_of_nil in Hv.
  - destruct (cc_step_inv G st reps v) as (reps1 & Hinv1 & Hv1 & Hsub1);
      [done|done|apply Hl; left|done|].
    destruct (IH (cc_step G st v) reps1) as (reps2 & Hinv2 & Hsub2 & Hall);
      [intros; apply Hl; by right|done|].
    exists reps2. split_and!; [done|set_solver|].
    intros w [->|Hw]%elem_of_cons; [set_solver|eauto].
Qed.

Lemma connected_components_spec G :
  closed_graph G → NoDup (ug_nodes G) →
  has_components G (number_connected_components G).
Proof.
  intros Hwf Hnd.
  destruct (cc_fold_inv G Hwf Hnd (ug_nodes G) (∅, []) []) as (reps & Hinv & _ & Hall).
  - done.
  - split_and!; simpl; [done|apply NoDup_nil_2|set_solver|set_solver|].
    intros v. split; [set_solver|]. intros (r & Hr & _). by apply elem_of_nil in Hr.
  - destruct Hinv as (Hlen & Hnr & Hin & Hpw & Hseen).
    exists reps. split; [|done]. split_and!; [done..|].
    intros v Hv. by apply Hseen, Hall.
Qed.

Lemma is_connected_spec G s l :
  closed_graph G → NoDup (ug_nodes G) → ug_nodes G = s :: l →
  ∃ b, is_connected G = Ok b ∧ (b = true ↔ has_components G 1).
Proof.
  intros Hwf Hnd Hnodes. unfold is_connected. rewrite Hnodes, <- Hnodes.
  eexists. split; [done|]. rewrite bool_decide_eq_true.
  assert (Hs : s ∈ ug_nodes G) by (rewrite Hnodes; left).
  assert (Hsub : plain_bfs G s ⊆ list_to_set (ug_nodes G)).
  { intros v Hv. apply elem_of_list_to_set. apply plain_bfs_spec in Hv; [|done..].
    by eapply connected_in_nodes. }
  rewrite <- (size_list_to_set (C:=gset Z)) by done. split.
  - intros Hsize. exists [s]. split; [|done]. split_and!.
    + apply NoDup_singleton.
    + by intros r ->%list_elem_of_singleton.
    + by intros r r' ->%list_elem_of_singleton ->%list_elem_of_singleton.
    + intros v Hv. exists s. split; [left|]. apply plain_bfs_spec; [done..|].
      rewrite (set_subseteq_size_eq _ _ Hsub) by lia. by apply elem_of_list_to_set.
  - intros ([|r [|? ?]] & (_ & Hin & _ & Hcov) & Hlen); simplify_eq/=.
    f_equal. apply set_eq. intros v. split; [apply Hsub|].
    intros Hv%elem_of_list_to_set. apply plain_bfs_spec; [done..|].
    destruct (Hcov s Hs) as (r1 & ->%list_elem_of_singleton & Hrs).
    destruct (Hcov v Hv) as (r2 & ->%list_elem_of_singleton & Hrv).
    eapply connected_trans; [by apply connected_sym|done].
Qed.

Lemma NoDup_add_nodes_from ns acc : NoDup acc → NoDup (add_nodes_from ns acc).
Proof.
  revert acc. induction ns as [|n ns IH]; intros acc Hacc; simpl; [done|].
  apply IH. case_decide; [done|]. apply NoDup_app. split_and!; [done| |apply NoDup_singleton].
  by intros x Hx ->%list_elem_of_singleton.
Qed.

Lemma elem_of_add_nodes_from ns acc x :
  x ∈ add_nodes_from ns acc ↔ x ∈ ns ∨ x ∈ acc.
Proof.
  revert acc. induction ns as [|n ns IH]; intros acc; simpl; [set_solver|].
  rewrite IH. case_decide; set_solver.
Qed.

Lemma NoDup_nodes (D : MultiDiGraph) : NoDup (nodes D).
Proof. unfold nodes. do 2 apply NoDup_add_nodes_from. apply NoDup_nil_2. Qed.

Lemma to_undirected_closed (D : MultiDiGraph) : closed_graph (to_undirected D).
Proof.
  intros e He. simpl in *. unfold nodes, edges in *.
  rewrite !elem_of_add_nodes_from. unfold endpoints.
  split; left; apply list_elem_of_In, in_flat_map; exists e;
    (split; [by apply list_elem_of_In|simpl; tauto]).
Qed.
End connectivity.

(** ** Running the methods symbolically *)

Ltac run :=
  cbn [bind ret raise try_except lift modify gets emit print call
       os_path_exists pickle_load write_file pickle_dump remove_file
       log set_fs set_road_graph set_districts_gdf
       road_graph districts_gdf fs trace fst snd negb is_none
       len_nodes len_edges as_graph].

Lemma library_calls_app t1 t2 :
  library_calls (t1 ++ t2) = library_calls t1 ++ library_calls t2.
Proof.
  induction t1 as [|e t1 IH]; simpl; [done|].
  destruct (is_library_call e); simpl; by rewrite IH.
Qed.

Ltac calls :=
  rewrite ?library_calls_app; cbn [library_calls is_library_call app];
  rewrite ?app_nil_r.

Lemma exists_true {A} (o : option A) x : o = Some x → bool_decide (is_Some o) = true.
Proof. intros ->. by apply bool_decide_eq_true. Qed.

Lemma exists_false {A} (o : option A) : o = None → bool_decide (is_Some o) = false.
Proof. intros ->. apply bool_decide_eq_false. by intros [? ?]. Qed.

Lemma new_events_app s s' evs : trace s' = trace s ++ evs → new_events s s' = evs.
Proof. intros H. unfold new_events. rewrite H. by rewrite drop_app_length. Qed.

(** ** The three load functions *)

Lemma load_cached_graph_hit s G :
  fs s !! graph_cache_file = Some (Pickled (PyGraph G)) →
  ∃ s', load_cached_graph s = (Ok true, s') ∧
        road_graph s' = PyGraph G ∧ districts_gdf s' = districts_gdf s ∧ fs s' = fs s ∧
        library_calls (trace s') = library_calls (trace s).
Proof.
  intros Hf. unfold load_cached_graph. run.
  rewrite (exists_true _ _ Hf). run. rewrite Hf. run.
  eexists. split; [reflexivity|]. run. split_and!; try done. by calls.
Qed.

Lemma load_cached_graph_garbage s err :
  fs s !! graph_cache_file = Some (Garbage err) →
  ∃ s', load_cached_graph s = (Ok false, s') ∧
        road_graph s' = road_graph s ∧ districts_gdf s' = districts_gdf s ∧ fs s' = fs s ∧
        library_calls (trace s') = library_calls (trace s).
Proof.
  intros Hf. unfold load_cached_graph. run.
  rewrite (exists_true _ _ Hf). run. rewrite Hf. run.
  eexists. split; [reflexivity|]. run. split_and!; try done. by calls.
Qed.

Ltac split_on x :=
  lazymatch x with
  | context [match ?y with _ => _ end] => split_on y
  | _ => destruct x eqn:?
  end.

Ltac split_world :=
  repeat (run;
          match goal with
          | |- context [match ?x with _ => _ end] => split_on x
          end);
  run.

Lemma compute_stats_frame env s1 s2 :
  road_graph s1 = road_graph s2 → districts_gdf s1 = districts_gdf s2 → fs s1 = fs s2 →
  library_calls (trace s1) = library_calls (trace s2) →
  same_outcome (compute_stats env s1) (compute_stats env s2).
Proof.
  intros Hg Hd Hf Ht. unfold same_outcome, compute_stats, centrality_measures, save_stats_to_cache.
  run. rewrite Hg.
  split_world; simplify_eq; split_and!; try done; try congruence; calls; try congruence.
Qed.

Ltac finish := split_and!; try done; try congruence; calls; try congruence.

(** ** C1: cache hit, and decode failure as a miss *)

(** C1 (as stated, for the statistics producer): with [force_analysis]
    false and a cache file that decodes to a statistics mapping, the
    producer does not return that mapping when no road network is loaded. *)
Lemma stats_cache_hit_needs_graph :
  fs s_stats_only !! stats_cache_file = Some (Pickled (PyStats some_stats)) ∧
  (analyze_connectivity env_ok false s_stats_only).1 = Ok PyNone ∧
  (analyze_connectivity env_ok false s_stats_only).1 ≠ Ok (PyStats some_stats).
Proof. vm_compute. split_and!; [reflexivity|reflexivity|discriminate]. Qed.

(** C1 (amended): with the force flag off and the cache file present, the
    road-network and district producers return the cached artifact without
    any library call when the file decodes (for the road network: to a
    graph), and behave as a forced refresh when it does not; the statistics
    producer does the same provided a road network is loaded (and the cached
    object is not [None]).  A decode failure never reaches the caller. *)
Theorem cache_hit_or_fall_through env network_type s :
  (∀ G, fs s !! graph_cache_file = Some (Pickled (PyGraph G)) →
        ∃ s', download_road_network env network_type false s = (Ok true, s') ∧
              road_graph s' = PyGraph G ∧ fs s' = fs s ∧
              library_calls (trace s') = library_calls (trace s)) ∧
  (∀ err, fs s !! graph_cache_file = Some (Garbage err) →
        same_outcome (download_road_network env network_type false s)
                     (download_road_network env network_type true s) ∧
        ∃ b, (download_road_network env network_type false s).1 = Ok b) ∧
  (∀ o, fs s !! districts_cache_file = Some (Pickled o) →
        ∃ s', download_districts env false s = (Ok true, s') ∧
              districts_gdf s' = o ∧ fs s' = fs s ∧
              library_calls (trace s') = library_calls (trace s)) ∧
  (∀ err, fs s !! districts_cache_file = Some (Garbage err) →
        same_outcome (download_districts env false s) (download_districts env true s) ∧
        ∃ b, (download_districts env false s).1 = Ok b) ∧
  (∀ o, road_graph s ≠ PyNone → o ≠ PyNone →
        fs s !! stats_cache_file = Some (Pickled o) →
        ∃ s', analyze_connectivity env false s = (Ok o, s') ∧
              road_graph s' = road_graph s ∧ fs s' = fs s ∧
              library_calls (trace s') = library_calls (trace s)) ∧
  (∀ err, road_graph s ≠ PyNone →
        fs s !! stats_cache_file = Some (Garbage err) →
        same_outcome (analyze_connectivity env false s) (analyze_connectivity env true s)).
Proof.
  split_and!.
  - intros G Hf. unfold download_road_network, load_cached_graph. run.
    rewrite (exists_true _ _ Hf). run. rewrite Hf. run.
    eexists. split; [reflexivity|]. run. by finish.
  - intros err Hf.
    unfold same_outcome, download_road_network, load_cached_graph, save_graph_to_cache. run.
    rewrite (exists_true _ _ Hf). run. rewrite Hf.
    split_world; (split; [by finish|eauto]).
  - intros o Hf. unfold download_districts, load_cached_districts. run.
    rewrite (exists_true _ _ Hf). run. rewrite Hf. run.
    eexists. split; [reflexivity|]. run. by finish.
  - intros err Hf.
    unfold same_outcome, download_districts, load_cached_districts, save_districts_to_cache. run.
    rewrite (exists_true _ _ Hf). run. rewrite Hf.
    split_world; (split; [by finish|eauto]).
  - intros o Hg Ho Hf. unfold analyze_connectivity, load_cached_stats. run.
    destruct (road_graph s) eqn:Hrg; [done|..]; run;
      rewrite (exists_true _ _ Hf); run; rewrite Hf; run;
      (destruct o; [done|..]); run;
      (eexists; split; [reflexivity|]); run; by finish.
  - intros err Hg Hf. unfold analyze_connectivity, load_cached_stats. run.
    destruct (road_graph s) eqn:Hrg; [done|..]; run;
      rewrite (exists_true _ _ Hf); run; rewrite Hf; run;
      apply compute_stats_frame; run; try done; by calls.
Qed.

Lemma cache_hit_or_fall_through_witness :
  (∃ s', download_road_network env_ok "drive" false s_cached = (Ok true, s') ∧
         road_graph s' = PyGraph two_islands ∧ fs s' = fs s_cached ∧
         library_calls (trace s') = library_calls (trace s_cached)) ∧
  same_outcome (download_road_network env_ok "drive" false s_corrupt)
               (download_road_network env_ok "drive" true s_corrupt) ∧
  (∃ s', analyze_connectivity env_ok false (set_road_graph (PyGraph two_islands) s_cached)
         = (Ok (PyStats some_stats), s') ∧
         road_graph s' = PyGraph two_islands ∧ fs s' = fs s_cached ∧
         library_calls (trace s') = library_calls (trace s_cached)) ∧
  same_outcome
    (analyze_connectivity env_ok false (set_road_graph (PyGraph two_islands) s_corrupt))
    (analyze_connectivity env_ok true (set_road_graph (PyGraph two_islands) s_corrupt)).
Proof.
  split_and!.
  - apply (cache_hit_or_fall_through env_ok "drive" s_cached). reflexivity.
  - apply (cache_hit_or_fall_through env_ok "drive" s_corrupt) with "invalid load key".
    reflexivity.
  - apply (cache_hit_or_fall_through env_ok "drive"
             (set_road_graph (PyGraph two_islands) s_cached)); [done|done|reflexivity].
  - apply (cache_hit_or_fall_through env_ok "drive"
             (set_road_graph (PyGraph two_islands) s_corrupt)) with "invalid load key";
      [done|reflexivity].
Defined.

(** ** C9: no graph, no cache lookup *)

(** C9: when [road_graph] is [None], [analyze_connectivity] prints one line
    and returns [None]; the state is otherwise untouched, so the statistics
    cache is neither tested for existence nor read, whatever it holds and
    whatever [force_analysis] is. *)
Theorem analyze_without_graph_skips_cache env force_analysis s :
  road_graph s = PyNone →
  analyze_connectivity env force_analysis s
  = (Ok PyNone, log (Print "No road network available for analysis") s).
Proof. intros Hg. unfold analyze_connectivity. run. rewrite Hg. by run. Qed.

Lemma analyze_without_graph_skips_cache_witness :
  fs s_stats_only !! stats_cache_file = Some (Pickled (PyStats some_stats)) ∧
  analyze_connectivity env_ok false s_stats_only
  = (Ok PyNone, log (Print "No road network available for analysis") s_stats_only).
Proof.
  split; [vm_compute; reflexivity|].
  apply (analyze_without_graph_skips_cache env_ok false s_stats_only). reflexivity.
Defined.

(** ** C7: the style of a road *)

Lemma styles_lookup_other (s : string) :
  s ∉ ["motorway"; "trunk"; "primary"; "secondary"; "tertiary"; "residential"] →
  default default_style (styles !! s) = default_style.
Proof.
  intros Hs. unfold styles. cbn [list_to_map foldr fst snd uncurry].
  repeat (rewrite lookup_insert_ne;
          [|solve [intros <-; apply Hs; repeat first [by left | right]]]).
  destruct (decide ("default" = s)) as [<-|Hne].
  - by rewrite lookup_insert_eq.
  - by rewrite lookup_insert_ne, lookup_empty.
Qed.

(** C7: the six recognised classifications have their fixed style; any other
    string, a missing tag and an empty list get the default style; a list is
    looked up by its first element only.  The loop over the edges applies the
    same rule to the row before it calls [get_road_style]. *)
Theorem road_style_lookup :
  get_road_style (TagStr "motorway")
    = {| color := "#FF0000"; weight := 4; opacity := 0.8 |} ∧
  get_road_style (TagStr "trunk")
    = {| color := "#FF4500"; weight := 3; opacity := 0.8 |} ∧
  get_road_style (TagStr "primary")
    = {| color := "#FFA500"; weight := 2.5; opacity := 0.7 |} ∧
  get_road_style (TagStr "secondary")
    = {| color := "#FFFF00"; weight := 2; opacity := 0.6 |} ∧
  get_road_style (TagStr "tertiary")
    = {| color := "#90EE90"; weight := 1.5; opacity := 0.5 |} ∧
  get_road_style (TagStr "residential")
    = {| color := "#87CEEB"; weight := 1; opacity := 0.4 |} ∧
  default_style = {| color := "#808080"; weight := 1; opacity := 0.3 |} ∧
  (∀ s, s ∉ ["motorway"; "trunk"; "primary"; "secondary"; "tertiary"; "residential"] →
        get_road_style (TagStr s) = default_style) ∧
  get_road_style (TagList []) = default_style ∧
  (∀ t rest, get_road_style (TagList (t :: rest)) = get_road_style (TagStr t)) ∧
  (∀ row, row_highway row = None →
          get_road_style (TagStr (row_highway_type row)) = default_style) ∧
  (∀ row tag, row_highway row = Some tag →
          get_road_style (TagStr (row_highway_type row)) = get_road_style tag).
Proof.
  split_and!; try (vm_compute; reflexivity).
  - intros s Hs. by apply styles_lookup_other.
  - intros row Hrow. unfold row_highway_type. rewrite Hrow. vm_compute. reflexivity.
  - intros row tag Hrow. unfold row_highway_type. rewrite Hrow. by destruct tag as [|[|]].
Qed.

Lemma road_style_lookup_witness :
  get_road_style (TagStr "footway") = default_style ∧
  get_road_style
    (TagStr (row_highway_type
               {| row_highway := None; row_length := None; row_name := None;
                  row_geometry := "" |})) = default_style ∧
  get_road_style
    (TagStr (row_highway_type
               {| row_highway := Some (TagList ["trunk"; "primary"]); row_length := None;
                  row_name := None; row_geometry := "" |}))
  = get_road_style (TagList ["trunk"; "primary"]).
Proof.
  pose proof road_style_lookup as (_ & _ & _ & _ & _ & _ & _ & Hother & _ & _ & Hnone & Hsome).
  split_and!.
  - apply Hother. vm_compute. intros H.
    repeat (apply elem_of_cons in H as [H|H]; [discriminate|]). by apply elem_of_nil in H.
  - apply Hnone. reflexivity.
  - apply Hsome. reflexivity.
Defined.

(** ** C8: clearing the cache *)

Lemma remove_existing_spec env files : ∀ s, ∃ s' evs,
  remove_existing env files s = (Ok tt, s') ∧
  road_graph s' = road_graph s ∧ districts_gdf s' = districts_gdf s ∧
  trace s' = trace s ++ evs ∧
  (∀ p, fs s' !! p = if bool_decide (p ∈ files) && removable env p
                     then None else fs s !! p) ∧
  (∀ p, FsRemove p ∈ evs → p ∈ files ∧ is_Some (fs s !! p)).
Proof.
  induction files as [|f rest IH]; intros s.
  - exists s, []. cbn [remove_existing]. run. rewrite app_nil_r.
    split_and!; try done. intros p Hp. by apply elem_of_nil in Hp.
  - cbn [remove_existing]. unfold removable. run.
    destruct (fs s !! f) as [c|] eqn:Hf.
    + rewrite bool_decide_true by eauto. run.
      destruct (os_remove env f) as [[]|e] eqn:Hrm; run.
      * match goal with |- context [remove_existing env rest ?s1] =>
          destruct (IH s1) as (s' & evs & -> & Hg & Hd & Ht & Hfs & Hev) end.
        revert Hg Hd Ht Hfs Hev. run. intros Hg Hd Ht Hfs Hev.
        eexists _, _. split_and!; [reflexivity|done|done|..].
        -- rewrite Ht, <- !app_assoc. reflexivity.
        -- intros p. rewrite Hfs. destruct (decide (p = f)) as [->|Hne].
           ++ unfold removable.
              rewrite Hrm, lookup_delete_eq, (bool_decide_true (f ∈ f :: rest)) by left.
              simpl. by destruct (bool_decide _).
           ++ rewrite lookup_delete_ne by done.
              by rewrite (bool_decide_ext (p ∈ rest) (p ∈ f :: rest)) by set_solver.
        -- intros p Hp. simpl in Hp.
           repeat (apply elem_of_cons in Hp as [Hp|Hp]; [simplify_eq|]).
           ++ split; [left|eauto].
           ++ apply Hev in Hp as [Hin [x Hx]]. split; [by right|].
              apply lookup_delete_Some in Hx as [_ Hx]. eauto.
      * match goal with |- context [remove_existing env rest ?s1] =>
          destruct (IH s1) as (s' & evs & -> & Hg & Hd & Ht & Hfs & Hev) end.
        revert Hg Hd Ht Hfs Hev. run. intros Hg Hd Ht Hfs Hev.
        eexists _, _. split_and!; [reflexivity|done|done|..].
        -- rewrite Ht, <- !app_assoc. reflexivity.
        -- intros p. rewrite Hfs. destruct (decide (p = f)) as [->|Hne].
           ++ unfold removable. rewrite Hrm, andb_false_r. by rewrite andb_false_r.
           ++ by rewrite (bool_decide_ext (p ∈ rest) (p ∈ f :: rest)) by set_solver.
        -- intros p Hp. simpl in Hp.
           repeat (apply elem_of_cons in Hp as [Hp|Hp]; [simplify_eq|]).
           ++ split; [left|eauto].
           ++ apply Hev in Hp as [Hin Hx]. split; [by right|done].
    + rewrite bool_decide_false by (by intros [? ?]). run.
      match goal with |- context [remove_existing env rest ?s1] =>
        destruct (IH s1) as (s' & evs & -> & Hg & Hd & Ht & Hfs & Hev) end.
      revert Hg Hd Ht Hfs Hev. run. intros Hg Hd Ht Hfs Hev.
      eexists _, _. split_and!; [reflexivity|done|done|..].
      * rewrite Ht, <- !app_assoc. reflexivity.
      * intros p. rewrite Hfs. destruct (decide (p = f)) as [->|Hne].
        -- rewrite Hf. by destruct (_ && _), (_ && _).
        -- by rewrite (bool_decide_ext (p ∈ rest) (p ∈ f :: rest)) by set_solver.
      * intros p Hp. simpl in Hp.
        repeat (apply elem_of_cons in Hp as [Hp|Hp]; [simplify_eq|]).
        apply Hev in Hp as [Hin Hx]. split; [by right|done].
Qed.




(** ** The statistics computation *)

(** With the force flag on, or nothing in the cache, [analyze_connectivity]
    is [compute_stats] run a little later. *)
Lemma analyze_computes env force_analysis s :
  road_graph s ≠ PyNone →
  force_analysis = true ∨ fs s !! stats_cache_file = None →
  ∃ s0 evs, analyze_connectivity env force_analysis s = compute_stats env s0 ∧
            road_graph s0 = road_graph s ∧ districts_gdf s0 = districts_gdf s ∧
            fs s0 = fs s ∧ trace s0 = trace s ++ evs ∧
            (∀ e, e ∈ evs → e = FsExists stats_cache_file).
Proof.
  intros Hg Hmiss. unfold analyze_connectivity, load_cached_stats. run.
  destruct (road_graph s) eqn:Hrg; [done|..]; run;
    (destruct force_analysis; run;
     [exists s, []; rewrite app_nil_r; split_and!; try done;
      by intros ? ?%elem_of_nil
     |destruct Hmiss as [|Hnone]; [done|];
      rewrite (exists_false _ Hnone); run;
      eexists _, [_]; split_and!; try done; run; try done;
      by intros ? ->%list_elem_of_singleton]).
Qed.

Lemma compute_stats_result env s G c :
  road_graph s = PyGraph G →
  nx.is_connected (nx.to_undirected G) = Ok c →
  ∃ st s', compute_stats env s = (Ok (PyStats st), s') ∧
           total_nodes st = length (nx.nodes G) ∧
           total_edges st = length (nx.edges G) ∧
           is_connected st = c ∧
           number_of_components st = nx.number_connected_components (nx.to_undirected G) ∧
           analysis_date st = Some (now env) ∧
           road_graph s' = road_graph s ∧ districts_gdf s' = districts_gdf s ∧
           (∀ p, p ≠ stats_cache_file → fs s' !! p = fs s !! p).
Proof.
  intros Hg Hc. unfold compute_stats, centrality_measures, save_stats_to_cache. run.
  rewrite Hg. run. rewrite Hc.
  split_world; eexists _, _; (split; [reflexivity|]); run; split_and!; try done;
    intros p Hp; by rewrite ?lookup_insert_ne.
Qed.

Lemma nonempty_is_connected (G : nx.MultiDiGraph) :
  nx.nodes G ≠ [] →
  ∃ c, nx.is_connected (nx.to_undirected G) = Ok c ∧
       (c = true ↔ has_components (nx.to_undirected G) 1).
Proof.
  intros Hne. destruct (nx.nodes G) as [|v l] eqn:Hn; [done|].
  apply (is_connected_spec _ v l); [apply to_undirected_closed|apply NoDup_nodes|done].
Qed.

(** ** C2: the connectivity flag and the component count *)

(** C2 (as stated): on the graph without nodes the computation stores no
    flag and no count; [nx.is_connected] raises and the exception leaves
    [analyze_connectivity]. *)
Lemma null_graph_has_no_stats :
  road_graph (s_loaded null_graph) = PyGraph null_graph ∧
  (analyze_connectivity env_ok true (s_loaded null_graph)).1
  = Raise (Exception "Connectivity is undefined for the null graph.").
Proof. vm_compute. split; reflexivity. Qed.

(** C2 (amended): for every road network with at least one node, a run of
    the computation (forced, or with no cached statistics) returns a mapping
    whose [is_connected] is true exactly when the undirected projection has
    one connected component and whose [number_of_components] is the number
    of its connected components; with two components the flag is false and
    the count is 2. *)
Theorem connectivity_flags env force_analysis s G :
  road_graph s = PyGraph G →
  nx.nodes G ≠ [] →
  force_analysis = true ∨ fs s !! stats_cache_file = None →
  ∃ st s', analyze_connectivity env force_analysis s = (Ok (PyStats st), s') ∧
           (is_connected st = true ↔ has_components (nx.to_undirected G) 1) ∧
           has_components (nx.to_undirected G) (number_of_components st) ∧
           (∀ n, has_components (nx.to_undirected G) n → number_of_components st = n) ∧
           (has_components (nx.to_undirected G) 2 →
            is_connected st = false ∧ number_of_components st = 2).
Proof.
  intros Hg Hne Hmiss.
  destruct (analyze_computes env force_analysis s) as (s0 & evs & -> & Hg0 & _);
    [by rewrite Hg|done|].
  destruct (nonempty_is_connected G Hne) as (c & Hc & Hciff).
  destruct (compute_stats_result env s0 G c) as (st & s' & -> & _ & _ & Hflag & Hnum & _);
    [congruence|done|].
  assert (Hcount : has_components (nx.to_undirected G) (number_of_components st)).
  { rewrite Hnum. apply connected_components_spec;
      [apply to_undirected_closed|apply NoDup_nodes]. }
  exists st, s'. split_and!; [done|by rewrite Hflag|done|..].
  - intros n Hn. by eapply has_components_unique.
  - intros H2. split; [|by eapply has_components_unique].
    destruct (is_connected st) eqn:Hst; [|done].
    assert (has_components (nx.to_undirected G) 1) as H1 by (apply Hciff; congruence).
    by pose proof (has_components_unique _ _ _ H1 H2).
Qed.

Lemma connectivity_flags_witness :
  ∃ st s', analyze_connectivity env_ok true (s_loaded two_islands) = (Ok (PyStats st), s') ∧
           (is_connected st = true ↔ has_components (nx.to_undirected two_islands) 1) ∧
           has_components (nx.to_undirected two_islands) (number_of_components st) ∧
           is_connected st = false ∧ number_of_components st = 2.
Proof.
  destruct (connectivity_flags env_ok true (s_loaded two_islands) two_islands)
    as (st & s' & Hrun & Hflag & Hcount & _ & _); [reflexivity|discriminate|by left|].
  exists st, s'. split_and!; [done..| |];
    vm_compute in Hrun; injection Hrun as <- _; reflexivity.
Defined.

(** ** The cache test of the analysis and its betweenness calls *)

Lemma filter_ext_elem {A} (P Q : A → Prop) `{!∀ x, Decision (P x)} `{!∀ x, Decision (Q x)}
    (l : list A) :
  (∀ x, x ∈ l → P x ↔ Q x) → filter P l = filter Q l.
Proof.
  induction l as [|x l IH]; intros Hext; [done|].
  rewrite !filter_cons. rewrite IH by (intros y Hy; apply Hext; by right).
  destruct (decide (P x)) as [HP|HP], (decide (Q x)) as [HQ|HQ]; try done;
    exfalso; apply (Hext x) in HP || apply (Hext x) in HQ; done || by left.
Qed.

Lemma filter_take_NoDup (l : list Z) (n : nat) :
  NoDup l → filter (λ x, x ∈ take n l) l = take n l.
Proof.
  revert n. induction l as [|x l IH]; intros n Hnd; [by destruct n|].
  apply NoDup_cons in Hnd as [Hx Hnd]. destruct n as [|n]; simpl.
  - rewrite (filter_ext_elem _ (λ _, False)) by (intros y _; by rewrite elem_of_nil).
    clear. induction l as [|y l IH]; [done|]. by rewrite filter_cons_False by tauto.
  - rewrite filter_cons_True by left. f_equal.
    etrans; [|exact (IH n Hnd)]. apply filter_ext_elem.
    intros y Hy. rewrite elem_of_cons. split; [|tauto].
    intros [->|?]; done.
Qed.

(** After the graph test, [analyze_connectivity] either hands back what the
    cache holds or runs [compute_stats]; up to there it has made no library
    call and changed nothing but the log. *)
Lemma analyze_cases env force_analysis s :
  road_graph s ≠ PyNone →
  ∃ pre s0,
    road_graph s0 = road_graph s ∧ districts_gdf s0 = districts_gdf s ∧ fs s0 = fs s ∧
    trace s0 = trace s ++ pre ∧
    (∀ e, e ∈ pre → is_library_call e = false) ∧
    (analyze_connectivity env force_analysis s = compute_stats env s0
     ∨ ∃ o, force_analysis = false ∧ fs s !! stats_cache_file = Some (Pickled o) ∧
            o ≠ PyNone ∧ analyze_connectivity env force_analysis s = (Ok o, s0)).
Proof.
  intros Hg. unfold analyze_connectivity, load_cached_stats. run.
  destruct (road_graph s) eqn:Hrg; [done|..]; run;
    (destruct force_analysis; run;
     [exists [], s; rewrite app_nil_r; split_and!; try done;
      [by intros ? ?%elem_of_nil|by left]|]);
    (destruct (fs s !! stats_cache_file) as [[o| |]|] eqn:Hf;
     rewrite ?(exists_true (Some _) _ eq_refl), ?(exists_false None eq_refl); run;
     rewrite ?Hf; run; try (destruct o eqn:Ho; run);
     eexists _, _; (split_and!; [..|first [by left|right; eexists; by split_and!]]);
     run; try done; try (rewrite <- ?app_assoc; reflexivity);
     intros e He; cbn [app] in He;
     repeat (apply elem_of_cons in He as [->|He]; [done|]);
     by apply elem_of_nil in He).
Qed.

Ltac in_trace H :=
  cbn [app] in H;
  repeat (apply elem_of_cons in H as [H|H]; [try discriminate; simplify_eq|]);
  try (by apply elem_of_nil in H).

(** The betweenness calls of [compute_stats] *)
Lemma compute_stats_betweenness env s G :
  road_graph s = PyGraph G →
  ∃ evs, trace (compute_stats env s).2 = trace s ++ evs ∧
    (∀ H, CallBetweennessCentrality H ∈ evs →
          H = if (5000 <? length (nx.ug_nodes (nx.to_undirected G)))%nat
              then nx.subgraph (nx.to_undirected G)
                     (take 1000 (nx.ug_nodes (nx.to_undirected G)))
              else nx.to_undirected G) ∧
    (∀ c d, nx.is_connected (nx.to_undirected G) = Ok c →
            degree_centrality env (nx.to_undirected G) = Ok d →
            ∃ H, CallBetweennessCentrality H ∈ evs).
Proof.
  intros Hg. unfold compute_stats, centrality_measures, save_stats_to_cache. run.
  rewrite Hg.
  split_world; (eexists; split; [rewrite <- ?app_assoc; reflexivity|]);
    (split; [intros H Hin; by in_trace Hin|]);
    intros c d Hc Hd; try discriminate;
    eexists; cbn [app]; do 3 right; left.
Qed.

(** ** C4: a failed save is logged and nothing else *)

Ltac run_env :=
  cbn [with_write_outcome graph_from_place geocode_to_gdf geocode graph_to_gdfs
       degree_centrality betweenness_centrality np_mean series_mean now
       write_outcome os_remove file_info format_4f format_0f].

Lemma save_graph_to_cache_spec env s :
  ∃ s', save_graph_to_cache env s = (Ok tt, s') ∧
        road_graph s' = road_graph s ∧ districts_gdf s' = districts_gdf s ∧
        (∀ e, write_error (write_outcome env graph_cache_file) = Some e →
              last (trace s') = Some (Print ("Error saving graph to cache: " +:+ exn_msg e))).
Proof.
  unfold save_graph_to_cache. split_world; eexists; (split; [reflexivity|]); run;
    split_and!; try done; intros e' [= <-]; by rewrite last_snoc.
Qed.

Lemma save_districts_to_cache_spec env s :
  ∃ s', save_districts_to_cache env s = (Ok tt, s') ∧
        road_graph s' = road_graph s ∧ districts_gdf s' = districts_gdf s ∧
        (∀ e, write_error (write_outcome env districts_cache_file) = Some e →
              last (trace s')
              = Some (Print ("Error saving districts to cache: " +:+ exn_msg e))).
Proof.
  unfold save_districts_to_cache. split_world; eexists; (split; [reflexivity|]); run;
    split_and!; try done; intros e' [= <-]; by rewrite last_snoc.
Qed.

Lemma save_stats_to_cache_spec env stats s :
  ∃ s', save_stats_to_cache env stats s = (Ok tt, s') ∧
        road_graph s' = road_graph s ∧ districts_gdf s' = districts_gdf s ∧
        (∀ e, write_error (write_outcome env stats_cache_file) = Some e →
              last (trace s') = Some (Print ("Error saving stats to cache: " +:+ exn_msg e))).
Proof.
  unfold save_stats_to_cache. split_world; eexists; (split; [reflexivity|]); run;
    split_and!; try done; intros e' [= <-]; by rewrite last_snoc.
Qed.

Lemma download_road_network_any_write env w network_type force_download s :
  same_memory (download_road_network (with_write_outcome w env) network_type force_download s)
              (download_road_network env network_type force_download s).
Proof.
  unfold same_memory, download_road_network, load_cached_graph, save_graph_to_cache.
  run. run_env. split_world; simplify_eq; finish.
Qed.

Lemma download_districts_any_write env w force_download s :
  same_memory (download_districts (with_write_outcome w env) force_download s)
              (download_districts env force_download s).
Proof.
  unfold same_memory, download_districts, load_cached_districts, save_districts_to_cache.
  run. run_env. split_world; simplify_eq; finish.
Qed.

Lemma compute_stats_any_write env w s :
  same_memory (compute_stats (with_write_outcome w env) s) (compute_stats env s).
Proof.
  unfold same_memory, compute_stats, centrality_measures, save_stats_to_cache.
  run. run_env. split_world; simplify_eq; finish.
Qed.

Lemma analyze_connectivity_any_write env w force_analysis s :
  same_memory (analyze_connectivity (with_write_outcome w env) force_analysis s)
              (analyze_connectivity env force_analysis s).
Proof.
  unfold analyze_connectivity, load_cached_stats.
  split_world; try apply compute_stats_any_write; by unfold same_memory.
Qed.

Lemma download_road_network_fresh env network_type force_download s G :
  force_download = true ∨ fs s !! graph_cache_file = None →
  graph_from_place env country_name network_type = Ok G →
  ∃ s', download_road_network env network_type force_download s = (Ok true, s') ∧
        road_graph s' = PyGraph G ∧ districts_gdf s' = districts_gdf s.
Proof.
  intros Hmiss HG. unfold download_road_network, load_cached_graph, save_graph_to_cache. run.
  destruct force_download; run.
  - rewrite HG. split_world; eexists; by split_and!.
  - destruct Hmiss as [|Hnone]; [done|]. rewrite (exists_false _ Hnone). run.
    rewrite HG. split_world; eexists; by split_and!.
Qed.

Lemma download_districts_fresh env force_download s d :
  force_download = true ∨ fs s !! districts_cache_file = None →
  geocode_to_gdf env "Bangladesh" = Ok d →
  ∃ s', download_districts env force_download s = (Ok true, s') ∧
        districts_gdf s' = PyGdf d ∧ road_graph s' = road_graph s.
Proof.
  intros Hmiss Hd. unfold download_districts, load_cached_districts, save_districts_to_cache.
  run. destruct force_download; run.
  - rewrite Hd. split_world; eexists; by split_and!.
  - destruct Hmiss as [|Hnone]; [done|]. rewrite (exists_false _ Hnone). run.
    rewrite Hd. split_world; eexists; by split_and!.
Qed.

Lemma analyze_connectivity_fresh env force_analysis s G :
  road_graph s = PyGraph G → nx.nodes G ≠ [] →
  force_analysis = true ∨ fs s !! stats_cache_file = None →
  ∃ st s', analyze_connectivity env force_analysis s = (Ok (PyStats st), s') ∧
           total_nodes st = length (nx.nodes G) ∧
           total_edges st = length (nx.edges G) ∧
           road_graph s' = road_graph s ∧ districts_gdf s' = districts_gdf s.
Proof.
  intros Hg Hne Hmiss.
  destruct (analyze_computes env force_analysis s) as (s0 & evs & -> & Hg0 & Hd0 & _);
    [by rewrite Hg|done|].
  destruct (nonempty_is_connected G Hne) as (c & Hc & _).
  destruct (compute_stats_result env s0 G c) as (st & s' & -> & Hn & He & _ & _ & _ & Hg' & Hd' & _);
    [congruence|done|].
  exists st, s'. split_and!; try done; congruence.
Qed.

(** C4: each of the three save functions returns normally whatever the
    write does, leaves the analyzer's attributes as they were, and on a
    failed write ends by printing the error.  Consequently the value a
    producer returns, the attributes it leaves and the library calls it makes
    are the same whether writes succeed or fail; in particular a producer
    that ran its provider successfully returns the fresh artifact. *)
Theorem save_failure_is_not_fatal env w network_type force s :
  (∃ s', save_graph_to_cache env s = (Ok tt, s') ∧
         road_graph s' = road_graph s ∧ districts_gdf s' = districts_gdf s ∧
         (∀ e, write_error (write_outcome env graph_cache_file) = Some e →
               last (trace s') = Some (Print ("Error saving graph to cache: " +:+ exn_msg e)))) ∧
  (∃ s', save_districts_to_cache env s = (Ok tt, s') ∧
         road_graph s' = road_graph s ∧ districts_gdf s' = districts_gdf s ∧
         (∀ e, write_error (write_outcome env districts_cache_file) = Some e →
               last (trace s')
               = Some (Print ("Error saving districts to cache: " +:+ exn_msg e)))) ∧
  (∀ stats, ∃ s', save_stats_to_cache env stats s = (Ok tt, s') ∧
         road_graph s' = road_graph s ∧ districts_gdf s' = districts_gdf s ∧
         (∀ e, write_error (write_outcome env stats_cache_file) = Some e →
               last (trace s') = Some (Print ("Error saving stats to cache: " +:+ exn_msg e)))) ∧
  same_memory (download_road_network (with_write_outcome w env) network_type force s)
              (download_road_network env network_type force s) ∧
  same_memory (download_districts (with_write_outcome w env) force s)
              (download_districts env force s) ∧
  same_memory (analyze_connectivity (with_write_outcome w env) force s)
              (analyze_connectivity env force s) ∧
  (∀ G, force = true ∨ fs s !! graph_cache_file = None →
        graph_from_place env country_name network_type = Ok G →
        ∃ s', download_road_network env network_type force s = (Ok true, s') ∧
              road_graph s' = PyGraph G ∧ districts_gdf s' = districts_gdf s) ∧
  (∀ d, force = true ∨ fs s !! districts_cache_file = None →
        geocode_to_gdf env "Bangladesh" = Ok d →
        ∃ s', download_districts env force s = (Ok true, s') ∧
              districts_gdf s' = PyGdf d ∧ road_graph s' = road_graph s) ∧
  (∀ G, road_graph s = PyGraph G → nx.nodes G ≠ [] →
        force = true ∨ fs s !! stats_cache_file = None →
        ∃ st s', analyze_connectivity env force s = (Ok (PyStats st), s') ∧
                 total_nodes st = length (nx.nodes G) ∧
                 total_edges st = length (nx.edges G) ∧
                 road_graph s' = road_graph s ∧ districts_gdf s' = districts_gdf s).
Proof.
  split_and!.
  - apply save_graph_to_cache_spec.
  - apply save_districts_to_cache_spec.
  - intros stats. apply save_stats_to_cache_spec.
  - apply download_road_network_any_write.
  - apply download_districts_any_write.
  - apply analyze_connectivity_any_write.
  - intros G. apply download_road_network_fresh.
  - intros d. apply download_districts_fresh.
  - intros G. apply analyze_connectivity_fresh.
Qed.

Lemma save_failure_is_not_fatal_witness :
  (∃ s', save_graph_to_cache env_down (s_loaded two_islands) = (Ok tt, s') ∧
         road_graph s' = PyGraph two_islands ∧
         last (trace s')
         = Some (Print "Error saving graph to cache: [Errno 13] Permission denied")) ∧
  (∃ s', download_road_network (with_write_outcome (write_outcome env_down) env_ok)
           "drive" true (init ∅) = (Ok true, s') ∧
         road_graph s' = PyGraph two_islands) ∧
  (∃ st s', analyze_connectivity (with_write_outcome (write_outcome env_down) env_ok)
              true (s_loaded two_islands) = (Ok (PyStats st), s') ∧
            total_nodes st = 5 ∧ road_graph s' = PyGraph two_islands).
Proof.
  split_and!.
  - destruct (save_failure_is_not_fatal env_down (write_outcome env_down) "drive" true
                (s_loaded two_islands)) as ((s' & Hrun & Hg & _ & Hlog) & _).
    exists s'. split_and!; [done|done|].
    apply (Hlog (Exception "[Errno 13] Permission denied")). reflexivity.
  - destruct (save_failure_is_not_fatal (with_write_outcome (write_outcome env_down) env_ok)
                (write_outcome env_down) "drive" true (init ∅))
      as (_ & _ & _ & _ & _ & _ & Hfresh & _).
    destruct (Hfresh two_islands) as (s' & Hrun & Hg & _); [by left|reflexivity|].
    by exists s'.
  - destruct (save_failure_is_not_fatal (with_write_outcome (write_outcome env_down) env_ok)
                (write_outcome env_down) "drive" true (s_loaded two_islands))
      as (_ & _ & _ & _ & _ & _ & _ & _ & Hfresh).
    destruct (Hfresh two_islands) as (st & s' & Hrun & Hn & _ & Hg & _);
      [reflexivity|discriminate|by left|].
    exists st, s'. split_and!; [done| |done]. rewrite Hn. reflexivity.
Defined.

(** ** C10: statistics without the centralities *)

Lemma compute_stats_partial env s G c e :
  road_graph s = PyGraph G →
  nx.is_connected (nx.to_undirected G) = Ok c →
  centrality_fails env G e →
  ∃ s' evs, compute_stats env s = (Ok (PyStats (basic_stats env G c)), s') ∧
    road_graph s' = road_graph s ∧ districts_gdf s' = districts_gdf s ∧
    trace s' = trace s ++ evs ∧
    Print ("Error calculating centrality measures: " +:+ exn_msg e) ∈ evs ∧
    FsWrite stats_cache_file (Pickled (PyStats (basic_stats env G c))) ∈ evs ∧
    (write_outcome env stats_cache_file = WriteOk →
     fs s' !! stats_cache_file = Some (Pickled (PyStats (basic_stats env G c)))).
Proof.
  intros Hg Hc Hfail.
  unfold compute_stats, centrality_measures, save_stats_to_cache. run.
  rewrite Hg. run. rewrite Hc. unfold centrality_fails, betweenness_input in Hfail.
  fold (basic_stats env G c).
  destruct Hfail as [Hd|[[d Hd] Hb]]; rewrite Hd; run.
  - split_world; eexists _, _; (split; [reflexivity|]); run;
      (split_and!; [done|done|rewrite <- ?app_assoc; reflexivity|..]);
      cbn [app]; try (intros; by rewrite ?lookup_insert_eq);
      repeat first [by left|right].
  - destruct (5000 <? length _)%nat; rewrite Hb; run;
      split_world; eexists _, _; (split; [reflexivity|]); run;
      (split_and!; [done|done|rewrite <- ?app_assoc; reflexivity|..]);
      cbn [app]; try (intros; by rewrite ?lookup_insert_eq);
      repeat first [by left|right].
Qed.

Lemma analyze_cache_hit env s o :
  road_graph s ≠ PyNone → o ≠ PyNone →
  fs s !! stats_cache_file = Some (Pickled o) →
  ∃ s', analyze_connectivity env false s = (Ok o, s') ∧
        road_graph s' = road_graph s ∧ fs s' = fs s ∧
        library_calls (trace s') = library_calls (trace s).
Proof.
  intros Hg Ho Hf. unfold analyze_connectivity, load_cached_stats. run.
  destruct (road_graph s) eqn:Hrg; [done|..]; run;
    rewrite (exists_true _ _ Hf); run; rewrite Hf; run;
    (destruct o; [done|..]); run;
    (eexists; split; [reflexivity|]); run; by finish.
Qed.

(** C10 (as stated): when the save fails as well, the partial mapping is
    not in the cache, and the next call with [force_analysis] false, made
    once the centralities work again, returns a different mapping. *)
Lemma partial_stats_lost_when_save_fails :
  let first := analyze_connectivity env_down false (s_loaded two_islands) in
  let second := analyze_connectivity env_ok false first.2 in
  first.1 = Ok (PyStats (basic_stats env_down two_islands false)) ∧
  fs first.2 !! stats_cache_file = None ∧
  second.1 ≠ first.1 ∧
  ∃ st, second.1 = Ok (PyStats st) ∧ avg_degree_centrality st = Some (Float 9).
Proof.
  vm_compute. split_and!; [reflexivity|reflexivity|discriminate|].
  eexists. split; reflexivity.
Qed.

(** C10 (amended): when one of the centrality calls raises, the computation
    prints the error, returns the mapping with the two counts, the flag, the
    component count and the date and without the two averages, and writes
    that mapping to the statistics cache; if the write succeeds, the file
    holds it, and every later call with [force_analysis] false made with a
    road network loaded and that file in place returns it without any
    library call. *)
Theorem partial_stats_are_cached env force_analysis s G c e :
  road_graph s = PyGraph G →
  force_analysis = true ∨ fs s !! stats_cache_file = None →
  nx.is_connected (nx.to_undirected G) = Ok c →
  centrality_fails env G e →
  let partial := basic_stats env G c in
  ∃ s', analyze_connectivity env force_analysis s = (Ok (PyStats partial), s') ∧
        avg_degree_centrality partial = None ∧
        avg_betweenness_centrality partial = None ∧
        road_graph s' = road_graph s ∧
        Print ("Error calculating centrality measures: " +:+ exn_msg e) ∈ new_events s s' ∧
        FsWrite stats_cache_file (Pickled (PyStats partial)) ∈ new_events s s' ∧
        (write_outcome env stats_cache_file = WriteOk →
         fs s' !! stats_cache_file = Some (Pickled (PyStats partial)) ∧
         ∀ env2 s2, road_graph s2 ≠ PyNone →
                    fs s2 !! stats_cache_file = fs s' !! stats_cache_file →
                    ∃ s2', analyze_connectivity env2 false s2 = (Ok (PyStats partial), s2') ∧
                           fs s2' = fs s2 ∧
                           library_calls (trace s2') = library_calls (trace s2)).
Proof.
  intros Hg Hmiss Hc Hfail partial.
  destruct (analyze_computes env force_analysis s) as (s0 & pre & -> & Hg0 & _ & _ & Ht0 & _);
    [by rewrite Hg|done|].
  destruct (compute_stats_partial env s0 G c e) as (s' & evs & -> & Hg' & _ & Ht & Hp & Hw & Hfs);
    [congruence|done|done|].
  exists s'. rewrite (new_events_app s s' (pre ++ evs)) by (by rewrite Ht, Ht0, app_assoc).
  split_and!; try done; try congruence; try (apply elem_of_app; by right).
  intros Hok. split; [by apply Hfs|].
  intros env2 s2 Hg2 Hf2. rewrite (Hfs Hok) in Hf2.
  destruct (analyze_cache_hit env2 s2 (PyStats partial)) as (s2' & Hrun & _ & Hfs2 & Hcalls);
    [done|done|done|]. by exists s2'.
Qed.

Lemma partial_stats_are_cached_witness :
  ∃ s', analyze_connectivity env_degraded true (s_loaded two_islands)
        = (Ok (PyStats (basic_stats env_degraded two_islands false)), s') ∧
        fs s' !! stats_cache_file
        = Some (Pickled (PyStats (basic_stats env_degraded two_islands false))) ∧
        ∃ s2', analyze_connectivity env_ok false s'
               = (Ok (PyStats (basic_stats env_degraded two_islands false)), s2').
Proof.
  destruct (partial_stats_are_cached env_degraded true (s_loaded two_islands) two_islands
              false (Exception "out of memory"))
    as (s' & Hrun & _ & _ & Hg & _ & _ & Hok);
    [reflexivity|by left|vm_compute; reflexivity|left; reflexivity|].
  destruct (Hok eq_refl) as [Hfs Hnext].
  exists s'. split_and!; [done|done|].
  destruct (Hnext env_ok s') as (s2' & Hrun2 & _); [by rewrite Hg|done|].
  by exists s2'.
Defined.

(** ** C6: the report *)

Lemma printed_log line l s : printed l (log (Print line) s) = printed (line :: l) s.
Proof. unfold printed, log. cbn. f_equal. by rewrite <- app_assoc. Qed.

Lemma printed_nil_log e s : printed [] (log e s) = log e s.
Proof. unfold printed, log. cbn. f_equal. by rewrite app_nil_r. Qed.

Lemma generate_report_stats env force_analysis s st s1 :
  analyze_connectivity env force_analysis s = (Ok (PyStats st), s1) →
  generate_report env force_analysis s = (Ok tt, printed (report_block env st) s1).
Proof.
  intros Hrun. unfold generate_report. run. rewrite Hrun. run.
  unfold report_block.
  destruct (avg_degree_centrality st), (avg_betweenness_centrality st), (analysis_date st);
    run; unfold option_list; cbn [fmap option_fmap option_map option_rect app];
    f_equal; symmetry; rewrite <- !printed_log; apply printed_nil_log.
Qed.

Lemma generate_report_none env force_analysis s s1 :
  analyze_connectivity env force_analysis s = (Ok PyNone, s1) →
  generate_report env force_analysis s = (Ok tt, s1).
Proof. intros Hrun. unfold generate_report. run. rewrite Hrun. by run. Qed.

(** C6 (as stated): [generate_report] is handed no statistics and returns no
    text; it runs the analysis itself, which here writes the statistics
    cache, and prints the lines. *)
Lemma report_is_not_pure :
  let r := generate_report env_ok true (s_loaded two_islands) in
  r.1 = Ok tt ∧
  fs (s_loaded two_islands) !! stats_cache_file = None ∧
  is_Some (fs r.2 !! stats_cache_file) ∧
  Print "Network Connected: No" ∈ trace r.2.
Proof.
  vm_compute. split_and!; [reflexivity|reflexivity|by eexists|].
  repeat first [by left|right].
Qed.

(** C6 (amended): [generate_report] runs [analyze_connectivity]; when that
    returns a statistics mapping it prints, after whatever the analysis did,
    exactly the lines of the report in their fixed order (node count, edge
    count, Yes/No, component count, the averages and the date that are
    present, between rules) and returns nothing; when the analysis returns
    [None] it prints nothing more. *)
Theorem report_lines env force_analysis s s1 :
  (∀ st, analyze_connectivity env force_analysis s = (Ok (PyStats st), s1) →
         generate_report env force_analysis s = (Ok tt, printed (report_block env st) s1) ∧
         new_events s1 (printed (report_block env st) s1) = Print <$> report_block env st ∧
         ∃ rest, report_block env st =
           [nl +:+ rule50; "BANGLADESH ROAD CONNECTIVITY REPORT"; rule50;
            "Total Road Nodes: " +:+ format_comma (total_nodes st);
            "Total Road Segments: " +:+ format_comma (total_edges st);
            "Network Connected: " +:+ (if is_connected st then "Yes" else "No");
            "Number of Components: " +:+ pretty (number_of_components st)] ++ rest) ∧
  (analyze_connectivity env force_analysis s = (Ok PyNone, s1) →
   generate_report env force_analysis s = (Ok tt, s1)).
Proof.
  split.
  - intros st Hrun. split_and!.
    + by apply generate_report_stats.
    + by apply new_events_app.
    + eexists. reflexivity.
  - apply generate_report_none.
Qed.

Lemma report_lines_witness :
  let s := set_road_graph (PyGraph two_islands) s_stats_only in
  ∃ s1, analyze_connectivity env_ok false s = (Ok (PyStats some_stats), s1) ∧
        generate_report env_ok false s = (Ok tt, printed (report_block env_ok some_stats) s1) ∧
        report_block env_ok some_stats =
          [nl +:+ rule50; "BANGLADESH ROAD CONNECTIVITY REPORT"; rule50;
           "Total Road Nodes: 4,321"; "Total Road Segments: 89";
           "Network Connected: Yes"; "Number of Components: 1";
           "Average Degree Centrality: 0.5000";
           "Analysis Date: 2023-12-31 23:59:59"; rule50].
Proof.
  intros s. exists (analyze_connectivity env_ok false s).2.
  destruct (report_lines env_ok false s (analyze_connectivity env_ok false s).2) as [Hst _].
  destruct (Hst some_stats) as (Hgen & _ & _); [vm_compute; reflexivity|].
  split_and!; [vm_compute; reflexivity|exact Hgen|vm_compute; reflexivity].
Defined.

(** ** The steps of the pipeline *)

Lemma preamble_spec env force_download s :
  ∃ s0 evs, preamble env force_download s = (Ok tt, s0) ∧
    road_graph s0 = road_graph s ∧ districts_gdf s0 = districts_gdf s ∧ fs s0 = fs s ∧
    trace s0 = trace s ++ evs ∧ library_calls evs = [].
Proof.
  unfold preamble, get_cache_info. cbn [cache_info_lines].
  split_world; eexists _, _; (split; [reflexivity|]); run;
    (split_and!; [done|done|done|rewrite <- ?app_assoc; reflexivity|reflexivity]).
Qed.

Lemma run_complete_analysis_steps env force_download force_analysis s :
  run_complete_analysis env force_download force_analysis s
  = match download_road_network env "drive" force_download
            (preamble env force_download s).2 with
    | (Ok true, s1) => after_download env force_download force_analysis s1
    | (Ok false, s1) => (Ok None, log (Print "Failed to download road network. Exiting.") s1)
    | (Raise e, s1) => (Raise e, s1)
    end.
Proof.
  unfold run_complete_analysis, preamble, after_download, get_cache_info.
  cbn [cache_info_lines].
  run. repeat (destruct (bool_decide _); run); destruct force_download; run;
    destruct (download_road_network _ _ _ _) as [[[|]|] ?]; reflexivity.
Qed.

Lemma download_districts_frame env force_download s :
  ∃ b s', download_districts env force_download s = (Ok b, s') ∧
          road_graph s' = road_graph s ∧
          (∀ p, p ≠ districts_cache_file → fs s' !! p = fs s !! p).
Proof.
  unfold download_districts, load_cached_districts, save_districts_to_cache.
  split_world; eexists _, _; (split; [reflexivity|]); run;
    (split; [done|]); intros p Hp; by rewrite ?lookup_insert_ne.
Qed.

Lemma add_roads_ok env rows : ∀ road_groups,
  Forall (λ row, is_Some (row_length row)) rows →
  ∃ road_groups', add_roads env road_groups rows = Ok road_groups'.
Proof.
  induction rows as [|row rows IH]; intros road_groups Hrows; cbn [add_roads]; [by eexists|].
  apply Forall_cons in Hrows as [[len Hlen] Hrows].
  unfold add_road, format_length. rewrite Hlen. by apply IH.
Qed.

(** The city loop adds the marker of every city the geocoder finds, in the
    order of the list, and nothing for the others. *)
Lemma add_cities_spec env cities : ∀ cities_group s,
  ∃ s', add_cities env cities cities_group s
        = (Ok (cities_group ++ omap (city_marker env) cities), s') ∧
        road_graph s' = road_graph s ∧ districts_gdf s' = districts_gdf s ∧ fs s' = fs s.
Proof.
  induction cities as [|city cities IH]; intros cities_group s; cbn [add_cities omap list_omap].
  - run. rewrite app_nil_r. by eexists.
  - run. unfold city_marker at 1.
    destruct (geocode env (city +:+ ", Bangladesh")) as [loc|e]; run.
    + match goal with |- context [add_cities env cities ?acc ?s1] =>
        destruct (IH acc s1) as (s' & -> & Hg & Hd & Hf) end.
      exists s'. rewrite <- app_assoc. by split_and!.
    + match goal with |- context [add_cities env cities ?acc ?s1] =>
        destruct (IH acc s1) as (s' & -> & Hg & Hd & Hf) end.
      exists s'. by split_and!.
Qed.

Lemma create_interactive_map_ok env save_path s G gdfs :
  road_graph s = PyGraph G →
  graph_to_gdfs env G = Ok gdfs →
  Forall (λ row, is_Some (row_length row)) gdfs.2 →
  write_outcome env save_path = WriteOk →
  ∃ m s', create_interactive_map env save_path s = (Ok (Some m), s') ∧
          map_cities m = omap (city_marker env) major_cities ∧
          fs s' !! save_path = Some (Html m) ∧
          road_graph s' = road_graph s ∧
          last (trace s') = Some (Print ("Interactive map saved to " +:+ save_path)).
Proof.
  intros Hg Hgdfs Hrows Hw. unfold create_interactive_map. run. rewrite Hg. run.
  rewrite Hgdfs. run.
  destruct (add_roads_ok env gdfs.2 [] Hrows) as (road_groups & ->). run.
  match goal with |- context [add_cities env major_cities [] ?s1] =>
    destruct (add_cities_spec env major_cities [] s1) as (s2 & -> & Hg2 & Hd2 & Hf2) end.
  run. rewrite Hw. run. eexists _, _. split; [reflexivity|]. run.
  split_and!; [done|by rewrite lookup_insert_eq|by rewrite Hg2|by rewrite last_snoc].
Qed.

(** ** The cache files: round trips and reuse *)

Lemma save_graph_to_cache_ok env s :
  write_outcome env graph_cache_file = WriteOk →
  ∃ s', save_graph_to_cache env s = (Ok tt, s') ∧
        road_graph s' = road_graph s ∧ districts_gdf s' = districts_gdf s ∧
        fs s' = <[graph_cache_file := Pickled (road_graph s)]> (fs s) ∧
        library_calls (trace s') = library_calls (trace s).
Proof.
  intros Hw. unfold save_graph_to_cache. run. rewrite Hw. run.
  eexists. split; [reflexivity|]. run. by finish.
Qed.

Lemma save_districts_to_cache_ok env s :
  write_outcome env districts_cache_file = WriteOk →
  ∃ s', save_districts_to_cache env s = (Ok tt, s') ∧
        road_graph s' = road_graph s ∧ districts_gdf s' = districts_gdf s ∧
        fs s' = <[districts_cache_file := Pickled (districts_gdf s)]> (fs s) ∧
        library_calls (trace s') = library_calls (trace s).
Proof.
  intros Hw. unfold save_districts_to_cache. run. rewrite Hw. run.
  eexists. split; [reflexivity|]. run. by finish.
Qed.

Lemma save_stats_to_cache_ok env stats s :
  write_outcome env stats_cache_file = WriteOk →
  ∃ s', save_stats_to_cache env stats s = (Ok tt, s') ∧
        road_graph s' = road_graph s ∧ districts_gdf s' = districts_gdf s ∧
        fs s' = <[stats_cache_file := Pickled stats]> (fs s) ∧
        library_calls (trace s') = library_calls (trace s).
Proof.
  intros Hw. unfold save_stats_to_cache. run. rewrite Hw. run.
  eexists. split; [reflexivity|]. run. by finish.
Qed.

Lemma load_cached_districts_hit s o :
  fs s !! districts_cache_file = Some (Pickled o) →
  ∃ s', load_cached_districts s = (Ok true, s') ∧
        districts_gdf s' = o ∧ road_graph s' = road_graph s ∧ fs s' = fs s ∧
        library_calls (trace s') = library_calls (trace s).
Proof.
  intros Hf. unfold load_cached_districts. run.
  rewrite (exists_true _ _ Hf). run. rewrite Hf. run.
  eexists. split; [reflexivity|]. run. by finish.
Qed.

Lemma load_cached_stats_hit s o :
  fs s !! stats_cache_file = Some (Pickled o) →
  ∃ s', load_cached_stats s = (Ok o, s') ∧
        districts_gdf s' = districts_gdf s ∧ road_graph s' = road_graph s ∧ fs s' = fs s ∧
        library_calls (trace s') = library_calls (trace s).
Proof.
  intros Hf. unfold load_cached_stats. run.
  rewrite (exists_true _ _ Hf). run. rewrite Hf. run.
  eexists. split; [reflexivity|]. run. by finish.
Qed.

(** X1: saving an artifact and loading it again gives it back: a road graph
    comes back into [road_graph] whatever the attribute held in between, so
    do the district boundaries, and the statistics are returned as saved. *)
Theorem cache_round_trip env s :
  (∀ G o, road_graph s = PyGraph G →
          write_outcome env graph_cache_file = WriteOk →
          ∃ s', load_cached_graph (set_road_graph o (save_graph_to_cache env s).2)
                = (Ok true, s') ∧
                road_graph s' = PyGraph G) ∧
  (∀ o, write_outcome env districts_cache_file = WriteOk →
        ∃ s', load_cached_districts (set_districts_gdf o (save_districts_to_cache env s).2)
              = (Ok true, s') ∧
              districts_gdf s' = districts_gdf s) ∧
  (∀ stats, write_outcome env stats_cache_file = WriteOk →
            (load_cached_stats (save_stats_to_cache env stats s).2).1 = Ok stats).
Proof.
  split_and!.
  - intros G o Hg Hw.
    destruct (save_graph_to_cache_ok env s Hw) as (s1 & -> & _ & _ & Hf & _). cbn [snd].
    destruct (load_cached_graph_hit (set_road_graph o s1) G) as (s' & -> & Hg' & _).
    { run. by rewrite Hf, lookup_insert_eq, Hg. }
    by exists s'.
  - intros o Hw.
    destruct (save_districts_to_cache_ok env s Hw) as (s1 & -> & _ & _ & Hf & _). cbn [snd].
    destruct (load_cached_districts_hit (set_districts_gdf o s1) (districts_gdf s))
      as (s' & -> & Hd' & _).
    { run. by rewrite Hf, lookup_insert_eq. }
    by exists s'.
  - intros stats Hw.
    destruct (save_stats_to_cache_ok env stats s Hw) as (s1 & -> & _ & _ & Hf & _). cbn [snd].
    destruct (load_cached_stats_hit s1 stats) as (s' & -> & _).
    { by rewrite Hf, lookup_insert_eq. }
    done.
Qed.

Lemma cache_round_trip_witness :
  (∃ s', load_cached_graph
           (set_road_graph PyNone (save_graph_to_cache env_ok (s_loaded two_islands)).2)
         = (Ok true, s') ∧
         road_graph s' = PyGraph two_islands) ∧
  (load_cached_stats (save_stats_to_cache env_ok (PyStats some_stats) (init ∅)).2).1
  = Ok (PyStats some_stats).
Proof.
  split.
  - destruct (cache_round_trip env_ok (s_loaded two_islands)) as (Hgraph & _ & _).
    apply (Hgraph two_islands PyNone); reflexivity.
  - destruct (cache_round_trip env_ok (init ∅)) as (_ & _ & Hstats).
    apply (Hstats (PyStats some_stats)). reflexivity.
Defined.

Lemma download_road_network_fresh_cached env network_type force_download s G :
  force_download = true ∨ fs s !! graph_cache_file = None →
  graph_from_place env country_name network_type = Ok G →
  write_outcome env graph_cache_file = WriteOk →
  ∃ s', download_road_network env network_type force_download s = (Ok true, s') ∧
        road_graph s' = PyGraph G ∧
        fs s' !! graph_cache_file = Some (Pickled (PyGraph G)).
Proof.
  intros Hmiss HG Hw. unfold download_road_network, load_cached_graph, save_graph_to_cache. run.
  destruct force_download; run.
  - rewrite HG. run. rewrite Hw. run. eexists. split; [reflexivity|]. run.
    by rewrite lookup_insert_eq.
  - destruct Hmiss as [|Hnone]; [done|]. rewrite (exists_false _ Hnone). run.
    rewrite HG. run. rewrite Hw. run. eexists. split; [reflexivity|]. run.
    by rewrite lookup_insert_eq.
Qed.

Lemma download_districts_fresh_cached env force_download s d :
  force_download = true ∨ fs s !! districts_cache_file = None →
  geocode_to_gdf env "Bangladesh" = Ok d →
  write_outcome env districts_cache_file = WriteOk →
  ∃ s', download_districts env force_download s = (Ok true, s') ∧
        districts_gdf s' = PyGdf d ∧
        fs s' !! districts_cache_file = Some (Pickled (PyGdf d)).
Proof.
  intros Hmiss Hd Hw. unfold download_districts, load_cached_districts, save_districts_to_cache.
  run. destruct force_download; run.
  - rewrite Hd. run. rewrite Hw. run. eexists. split; [reflexivity|]. run.
    by rewrite lookup_insert_eq.
  - destruct Hmiss as [|Hnone]; [done|]. rewrite (exists_false _ Hnone). run.
    rewrite Hd. run. rewrite Hw. run. eexists. split; [reflexivity|]. run.
    by rewrite lookup_insert_eq.
Qed.

Lemma compute_stats_cached env s G c :
  road_graph s = PyGraph G →
  nx.is_connected (nx.to_undirected G) = Ok c →
  write_outcome env stats_cache_file = WriteOk →
  ∃ st s', compute_stats env s = (Ok (PyStats st), s') ∧
           road_graph s' = road_graph s ∧
           fs s' !! stats_cache_file = Some (Pickled (PyStats st)).
Proof.
  intros Hg Hc Hw. unfold compute_stats, centrality_measures, save_stats_to_cache. run.
  rewrite Hg. run. rewrite Hc.
  split_world; simplify_eq; eexists _, _; (split; [reflexivity|]); run;
    by rewrite lookup_insert_eq.
Qed.

Lemma download_road_network_hit env network_type s G :
  fs s !! graph_cache_file = Some (Pickled (PyGraph G)) →
  ∃ s', download_road_network env network_type false s = (Ok true, s') ∧
        road_graph s' = PyGraph G ∧ districts_gdf s' = districts_gdf s ∧ fs s' = fs s ∧
        library_calls (trace s') = library_calls (trace s).
Proof.
  intros Hf. unfold download_road_network. run.
  destruct (load_cached_graph_hit s G Hf) as (s' & -> & ?). run. by exists s'.
Qed.

Lemma download_districts_hit env s o :
  fs s !! districts_cache_file = Some (Pickled o) →
  ∃ s', download_districts env false s = (Ok true, s') ∧
        districts_gdf s' = o ∧ road_graph s' = road_graph s ∧ fs s' = fs s ∧
        library_calls (trace s') = library_calls (trace s).
Proof.
  intros Hf. unfold download_districts. run.
  destruct (load_cached_districts_hit s o Hf) as (s' & -> & ?). run. by exists s'.
Qed.

(** X2: what a producer fetched or computed and saved is what the next
    unforced call returns, without any library call, whatever the outside
    world has become; for the road network, whatever network type that call
    asks for. *)
Theorem second_call_reuses_cache env env2 s :
  (∀ network_type network_type2 force G,
     force = true ∨ fs s !! graph_cache_file = None →
     graph_from_place env country_name network_type = Ok G →
     write_outcome env graph_cache_file = WriteOk →
     let s1 := (download_road_network env network_type force s).2 in
     ∃ s2, download_road_network env2 network_type2 false s1 = (Ok true, s2) ∧
           road_graph s1 = PyGraph G ∧ road_graph s2 = PyGraph G ∧
           library_calls (trace s2) = library_calls (trace s1)) ∧
  (∀ force d,
     force = true ∨ fs s !! districts_cache_file = None →
     geocode_to_gdf env "Bangladesh" = Ok d →
     write_outcome env districts_cache_file = WriteOk →
     let s1 := (download_districts env force s).2 in
     ∃ s2, download_districts env2 false s1 = (Ok true, s2) ∧
           districts_gdf s1 = PyGdf d ∧ districts_gdf s2 = PyGdf d ∧
           library_calls (trace s2) = library_calls (trace s1)) ∧
  (∀ force G,
     road_graph s = PyGraph G → nx.nodes G ≠ [] →
     force = true ∨ fs s !! stats_cache_file = None →
     write_outcome env stats_cache_file = WriteOk →
     let first := analyze_connectivity env force s in
     ∃ st s2, first.1 = Ok (PyStats st) ∧
              analyze_connectivity env2 false first.2 = (Ok (PyStats st), s2) ∧
              library_calls (trace s2) = library_calls (trace first.2)).
Proof.
  split_and!.
  - intros nt nt2 force G Hmiss HG Hw s1. subst s1.
    destruct (download_road_network_fresh_cached env nt force s G) as (s1 & -> & Hg & Hf);
      [done..|]. cbn [snd].
    destruct (download_road_network_hit env2 nt2 s1 G Hf) as (s2 & -> & Hg2 & _ & _ & Hc).
    by exists s2.
  - intros force d Hmiss Hd Hw s1. subst s1.
    destruct (download_districts_fresh_cached env force s d) as (s1 & -> & Hg & Hf);
      [done..|]. cbn [snd].
    destruct (download_districts_hit env2 s1 (PyGdf d) Hf) as (s2 & -> & Hd2 & _ & _ & Hc).
    by exists s2.
  - intros force G Hg Hne Hmiss Hw first. subst first.
    destruct (analyze_computes env force s) as (s0 & pre & -> & Hg0 & _);
      [by rewrite Hg|done|].
    destruct (nonempty_is_connected G Hne) as (c & Hc & _).
    destruct (compute_stats_cached env s0 G c) as (st & s1 & -> & Hg1 & Hf);
      [congruence|done|done|]. cbn [fst snd].
    destruct (analyze_cache_hit env2 s1 (PyStats st)) as (s2 & -> & _ & _ & Hcalls);
      [congruence|done|done|].
    by exists st, s2.
Qed.

Lemma second_call_reuses_cache_witness :
  (∃ s2, download_road_network env_down "walk" false
           (download_road_network env_ok "drive" true (init ∅)).2 = (Ok true, s2) ∧
         road_graph s2 = PyGraph two_islands) ∧
  (∃ st s2, (analyze_connectivity env_ok true (s_loaded two_islands)).1 = Ok (PyStats st) ∧
            analyze_connectivity env_down false
              (analyze_connectivity env_ok true (s_loaded two_islands)).2
            = (Ok (PyStats st), s2)).
Proof.
  destruct (second_call_reuses_cache env_ok env_down (init ∅)) as (Hgraph & _ & _).
  destruct (second_call_reuses_cache env_ok env_down (s_loaded two_islands)) as (_ & _ & Hstats).
  split.
  - destruct (Hgraph "drive" "walk" true two_islands) as (s2 & Hrun & _ & Hg & _);
      [by left|reflexivity|reflexivity|].
    by exists s2.
  - destruct (Hstats true two_islands) as (st & s2 & Hfirst & Hrun & _);
      [reflexivity|discriminate|by left|reflexivity|].
    by exists st, s2.
Defined.

(** ** Loading the road graph: the ways it can fail *)

(** X3: [load_cached_graph] returns [False] in three ways.  With no cache file
    it reads nothing and leaves [road_graph] alone; with a file that cannot
    be decoded it prints the error and leaves [road_graph] alone; with a file
    that decodes to something other than a graph it prints the error with
    [road_graph] already set to that object. *)
Theorem load_cached_graph_failures s :
  (fs s !! graph_cache_file = None →
   load_cached_graph s = (Ok false, log (FsExists graph_cache_file) s)) ∧
  (∀ err, fs s !! graph_cache_file = Some (Garbage err) →
          ∃ s', load_cached_graph s = (Ok false, s') ∧
                road_graph s' = road_graph s ∧ fs s' = fs s ∧
                last (trace s') = Some (Print ("Error loading cached graph: " +:+ err))) ∧
  (∀ o, fs s !! graph_cache_file = Some (Pickled o) →
        (∀ G, o ≠ PyGraph G) →
        ∃ s', load_cached_graph s = (Ok false, s') ∧
              road_graph s' = o ∧ fs s' = fs s ∧
              last (trace s')
              = Some (Print ("Error loading cached graph: '" +:+ type_name o
                             +:+ "' object has no attribute 'nodes'"))).
Proof.
  split_and!.
  - intros Hf. unfold load_cached_graph. run. by rewrite (exists_false _ Hf).
  - intros err Hf. unfold load_cached_graph. run.
    rewrite (exists_true _ _ Hf). run. rewrite Hf. run.
    eexists. split; [reflexivity|]. run. by rewrite last_snoc.
  - intros o Hf Ho. unfold load_cached_graph. run.
    rewrite (exists_true _ _ Hf). run. rewrite Hf. run.
    destruct o; try (by destruct (Ho G)); run;
      (eexists; split; [reflexivity|]); run; by rewrite last_snoc.
Qed.

Lemma load_cached_graph_failures_witness :
  ∃ s', load_cached_graph
          (init {[ graph_cache_file := Pickled (PyStats some_stats) ]}) = (Ok false, s') ∧
        road_graph s' = PyStats some_stats ∧
        last (trace s')
        = Some (Print "Error loading cached graph: 'dict' object has no attribute 'nodes'").
Proof.
  destruct (load_cached_graph_failures
              (init {[ graph_cache_file := Pickled (PyStats some_stats) ]})) as (_ & _ & Hobj).
  destruct (Hobj (PyStats some_stats)) as (s' & Hrun & Hg & _ & Hlast);
    [reflexivity|discriminate|].
  by exists s'.
Defined.

(** ** What a download leaves behind *)

Lemma as_graph_Ok o G : as_graph o = Ok G → o = PyGraph G.
Proof. destruct o; cbn; congruence. Qed.

Ltac graphs :=
  repeat match goal with
         | H : as_graph _ = Ok _ |- _ => apply as_graph_Ok in H; try subst
         end.

Lemma download_road_network_outcome env network_type force_download s :
  ∃ b s' evs, download_road_network env network_type force_download s = (Ok b, s') ∧
    trace s' = trace s ++ evs ∧
    districts_gdf s' = districts_gdf s ∧
    (∀ p, p ≠ graph_cache_file → fs s' !! p = fs s !! p) ∧
    (b = true → ∃ G, road_graph s' = PyGraph G) ∧
    (b = false → ∃ e, graph_from_place env country_name network_type = Raise e ∧
                      CallGraphFromPlace country_name network_type ∈ evs ∧
                      last evs = Some (Print ("Error downloading road network: "
                                              +:+ exn_msg e))).
Proof.
  unfold download_road_network, load_cached_graph, save_graph_to_cache.
  split_world; simplify_eq; graphs; eexists _, _, _; (split; [reflexivity|]); run;
    (split; [rewrite <- ?app_assoc; reflexivity|]);
    (split_and!; [done|intros p Hp; by rewrite ?lookup_insert_ne|..]);
    try (by intros [=]); try (intros _; by eexists);
    intros _; eexists; (split; [done|]); cbn [app];
    (split; [repeat first [by left|right]|reflexivity]).
Qed.

(** X4: [download_road_network] never raises.  When it returns [True],
    [road_graph] holds a graph; it returns [False] only after the provider
    was called and raised, and its last line then reports that error.  It
    never touches [districts_gdf]. *)
Theorem download_road_network_result env network_type force_download s :
  ∃ b s', download_road_network env network_type force_download s = (Ok b, s') ∧
    districts_gdf s' = districts_gdf s ∧
    (b = true → ∃ G, road_graph s' = PyGraph G) ∧
    (b = false → ∃ e, graph_from_place env country_name network_type = Raise e ∧
                      CallGraphFromPlace country_name network_type ∈ new_events s s' ∧
                      last (trace s') = Some (Print ("Error downloading road network: "
                                                     +:+ exn_msg e))).
Proof.
  destruct (download_road_network_outcome env network_type force_download s)
    as (b & s' & evs & Hrun & Ht & Hd & Hfs & Htrue & Hfalse).
  exists b, s'. split_and!; try done.
  intros Hb. destruct (Hfalse Hb) as (e & He & Hcall & Hlast).
  exists e. rewrite (new_events_app s s' evs Ht). split_and!; try done.
  rewrite Ht. destruct evs as [|ev evs] using rev_ind; [done|].
  by rewrite app_assoc, !last_snoc in *.
Qed.

Lemma download_road_network_result_witness :
  ∃ s', download_road_network env_down "drive" false s_corrupt = (Ok false, s') ∧
        last (trace s')
        = Some (Print "Error downloading road network: no route to host") ∧
        districts_gdf s' = PyNone.
Proof.
  destruct (download_road_network_result env_down "drive" false s_corrupt)
    as (b & s' & Hrun & Hd & _ & Hfalse).
  assert (Hb : b = false).
  { vm_compute in Hrun. by injection Hrun as <- _. }
  subst b. exists s'. split; [done|]. split; [|done].
  destruct (Hfalse eq_refl) as (e & He & _ & Hlast).
  rewrite Hlast. by injection He as <-.
Defined.

Lemma download_districts_outcome env force_download s :
  ∃ b s' evs, download_districts env force_download s = (Ok b, s') ∧
    trace s' = trace s ++ evs ∧
    road_graph s' = road_graph s ∧
    (∀ p, p ≠ districts_cache_file → fs s' !! p = fs s !! p) ∧
    (b = false → districts_gdf s' = districts_gdf s ∧
                 ∃ e, geocode_to_gdf env "Bangladesh" = Raise e ∧
                      CallGeocodeToGdf "Bangladesh" ∈ evs ∧
                      last evs = Some (Print ("Error downloading districts: " +:+ exn_msg e))).
Proof.
  unfold download_districts, load_cached_districts, save_districts_to_cache.
  split_world; simplify_eq; eexists _, _, _; (split; [reflexivity|]); run;
    (split; [rewrite <- ?app_assoc; reflexivity|]);
    (split_and!; [done|intros p Hp; by rewrite ?lookup_insert_ne|..]);
    try (by intros [=]);
    intros _; (split; [done|]); eexists; (split; [done|]); cbn [app];
    (split; [repeat first [by left|right]|reflexivity]).
Qed.

(** X5: [download_districts] never raises and never touches [road_graph];
    it returns [False] only after the geocoder was called and raised, and
    then [districts_gdf] is what it was. *)
Theorem download_districts_result env force_download s :
  ∃ b s', download_districts env force_download s = (Ok b, s') ∧
    road_graph s' = road_graph s ∧
    (b = false → districts_gdf s' = districts_gdf s ∧
                 ∃ e, geocode_to_gdf env "Bangladesh" = Raise e ∧
                      CallGeocodeToGdf "Bangladesh" ∈ new_events s s').
Proof.
  destruct (download_districts_outcome env force_download s)
    as (b & s' & evs & Hrun & Ht & Hg & Hfs & Hfalse).
  exists b, s'. split_and!; try done.
  intros Hb. destruct (Hfalse Hb) as (Hd & e & He & Hcall & _).
  split; [done|]. exists e. by rewrite (new_events_app s s' evs Ht).
Qed.

Lemma download_districts_result_witness :
  ∃ s', download_districts env_down false (s_loaded two_islands) = (Ok false, s') ∧
        districts_gdf s' = PyNone ∧ road_graph s' = PyGraph two_islands.
Proof.
  destruct (download_districts_result env_down false (s_loaded two_islands))
    as (b & s' & Hrun & Hg & Hfalse).
  assert (Hb : b = false).
  { vm_compute in Hrun. by injection Hrun as <- _. }
  subst b. exists s'. destruct (Hfalse eq_refl) as (Hd & _). by split_and!.
Defined.

(** ** A forced refresh does not look at the cache *)

Lemma forced_download_events env network_type s :
  ∃ evs, trace (download_road_network env network_type true s).2 = trace s ++ evs ∧
         Forall (λ e, is_cache_read e = false) evs ∧
         library_calls evs = [CallGraphFromPlace country_name network_type].
Proof.
  unfold download_road_network, save_graph_to_cache.
  split_world; eexists; (split; [rewrite <- ?app_assoc; reflexivity|]);
    cbn [app]; (split; [by repeat constructor|reflexivity]).
Qed.

Lemma forced_districts_events env s :
  ∃ evs, trace (download_districts env true s).2 = trace s ++ evs ∧
         Forall (λ e, is_cache_read e = false) evs ∧
         library_calls evs = [CallGeocodeToGdf "Bangladesh"].
Proof.
  unfold download_districts, save_districts_to_cache.
  split_world; eexists; (split; [rewrite <- ?app_assoc; reflexivity|]);
    cbn [app]; (split; [by repeat constructor|reflexivity]).
Qed.

Lemma forced_analysis_events env s :
  ∃ evs, trace (analyze_connectivity env true s).2 = trace s ++ evs ∧
         Forall (λ e, is_cache_read e = false) evs.
Proof.
  unfold analyze_connectivity, compute_stats, centrality_measures, save_stats_to_cache.
  split_world; eexists; (split; [rewrite <- ?app_assoc; reflexivity|]);
    cbn [app]; by repeat constructor.
Qed.

(** X6: with the force flag on, a producer neither tests for its cache file nor
    reads it; the two downloads call their provider exactly once, whatever
    the cache holds. *)
Theorem forced_refresh_skips_cache env network_type s :
  (Forall (λ e, is_cache_read e = false)
     (new_events s (download_road_network env network_type true s).2) ∧
   library_calls (new_events s (download_road_network env network_type true s).2)
   = [CallGraphFromPlace country_name network_type]) ∧
  (Forall (λ e, is_cache_read e = false)
     (new_events s (download_districts env true s).2) ∧
   library_calls (new_events s (download_districts env true s).2)
   = [CallGeocodeToGdf "Bangladesh"]) ∧
  Forall (λ e, is_cache_read e = false)
    (new_events s (analyze_connectivity env true s).2).
Proof.
  destruct (forced_download_events env network_type s) as (evs1 & Ht1 & Hr1 & Hc1).
  destruct (forced_districts_events env s) as (evs2 & Ht2 & Hr2 & Hc2).
  destruct (forced_analysis_events env s) as (evs3 & Ht3 & Hr3).
  by rewrite (new_events_app _ _ _ Ht1), (new_events_app _ _ _ Ht2),
    (new_events_app _ _ _ Ht3).
Qed.

(** ** What the analysis touches *)

Lemma compute_stats_footprint env s G :
  road_graph s = PyGraph G →
  ∃ evs, trace (compute_stats env s).2 = trace s ++ evs ∧
    road_graph (compute_stats env s).2 = road_graph s ∧
    districts_gdf (compute_stats env s).2 = districts_gdf s ∧
    (∀ p, p ≠ stats_cache_file → fs (compute_stats env s).2 !! p = fs s !! p) ∧
    (library_calls evs = []
     ∨ library_calls evs = [CallDegreeCentrality (nx.to_undirected G)]
     ∨ library_calls evs = [CallDegreeCentrality (nx.to_undirected G);
                            CallBetweennessCentrality (betweenness_input G)]).
Proof.
  intros Hg. unfold compute_stats, centrality_measures, save_stats_to_cache, betweenness_input.
  run. rewrite Hg.
  split_world; (eexists; split; [rewrite <- ?app_assoc; reflexivity|]);
    (split_and!; [done|done|intros p Hp; by rewrite ?lookup_insert_ne|]);
    cbn [app library_calls is_library_call]; auto.
Qed.

Lemma analyze_connectivity_effects env force_analysis s :
  let s' := (analyze_connectivity env force_analysis s).2 in
  road_graph s' = road_graph s ∧ districts_gdf s' = districts_gdf s ∧
  (∀ p, p ≠ stats_cache_file → fs s' !! p = fs s !! p) ∧
  (∀ G, road_graph s = PyGraph G →
        library_calls (new_events s s') = []
        ∨ library_calls (new_events s s') = [CallDegreeCentrality (nx.to_undirected G)]
        ∨ library_calls (new_events s s')
          = [CallDegreeCentrality (nx.to_undirected G);
             CallBetweennessCentrality (betweenness_input G)]).
Proof.
  intros s'. subst s'.
  assert (Hcases : road_graph s = PyNone ∨ road_graph s ≠ PyNone)
    by (destruct (road_graph s); auto).
  destruct Hcases as [Hnone|Hsome].
  - unfold analyze_connectivity. run. rewrite Hnone. run.
    by split_and!.
  - destruct (analyze_cases env force_analysis s Hsome)
      as (pre & s0 & Hg0 & Hd0 & Hf0 & Ht0 & Hpre & Hrun).
    assert (Hcalls : library_calls pre = []).
    { clear -Hpre. induction pre as [|e pre IH]; [done|]. cbn.
      rewrite (Hpre e) by left. apply IH. intros e' He'. apply Hpre. by right. }
    destruct Hrun as [->|(o & _ & _ & _ & ->)]; cbn [snd].
    + assert (Hgraph : (∃ G, road_graph s = PyGraph G) ∨ ∀ G, road_graph s ≠ PyGraph G)
        by (destruct (road_graph s); eauto).
      destruct Hgraph as [[G Hg]|Hng].
      * destruct (compute_stats_footprint env s0 G) as (evs & Ht & Hg' & Hd' & Hfs & Hlib);
          [congruence|].
        split_and!; try congruence.
        -- intros p Hp. by rewrite Hfs, Hf0.
        -- intros G' HG'. assert (G' = G) as -> by congruence.
           rewrite (new_events_app s _ (pre ++ evs)) by (by rewrite Ht, Ht0, app_assoc).
           by rewrite library_calls_app, Hcalls.
      * unfold compute_stats. run. rewrite Hg0.
        destruct (road_graph s) eqn:Hg; try done;
          try (exfalso; eapply Hng; reflexivity); run;
          split_and!; try done; try (intros p Hp; by rewrite Hf0); intros G' [=].
    + split_and!; try done; [congruence|].
      intros G HG. left. by rewrite (new_events_app s s0 pre Ht0).
Qed.

Lemma centrality_calls_library t : centrality_calls t = centrality_calls (library_calls t).
Proof.
  unfold centrality_calls. induction t as [|e t IH]; [done|].
  cbn [library_calls]. destruct e; cbn [is_library_call];
    rewrite ?filter_cons; cbn [is_centrality_call]; by rewrite IH.
Qed.

(** X7: [analyze_connectivity] leaves both attributes of the analyzer alone and
    changes no file but the statistics cache.  With a graph loaded, the
    centrality calls it makes are none, or the degree centrality of the
    undirected graph alone, or that call followed by one betweenness call. *)
Theorem analyze_connectivity_footprint env force_analysis s :
  let s' := (analyze_connectivity env force_analysis s).2 in
  road_graph s' = road_graph s ∧ districts_gdf s' = districts_gdf s ∧
  (∀ p, p ≠ stats_cache_file → fs s' !! p = fs s !! p) ∧
  (∀ G, road_graph s = PyGraph G →
        centrality_calls (new_events s s') = []
        ∨ centrality_calls (new_events s s') = [CallDegreeCentrality (nx.to_undirected G)]
        ∨ centrality_calls (new_events s s')
          = [CallDegreeCentrality (nx.to_undirected G);
             CallBetweennessCentrality (betweenness_input G)]).
Proof.
  intros s'. subst s'. destruct (analyze_connectivity_effects env force_analysis s)
    as (Hg & Hd & Hfs & Hcalls).
  split_and!; [done..|]. intros G HG. rewrite centrality_calls_library.
  destruct (Hcalls G HG) as [-> |[-> | ->]]; auto.
Qed.

Lemma analyze_connectivity_footprint_witness :
  centrality_calls (new_events (s_loaded two_islands)
                      (analyze_connectivity env_ok true (s_loaded two_islands)).2)
  = [CallDegreeCentrality (nx.to_undirected two_islands);
     CallBetweennessCentrality (nx.to_undirected two_islands)] ∧
  fs (analyze_connectivity env_ok true (s_loaded two_islands)).2 !! graph_cache_file = None.
Proof.
  destruct (analyze_connectivity_footprint env_ok true (s_loaded two_islands))
    as (_ & _ & Hfs & Hcalls).
  split.
  - destruct (Hcalls two_islands eq_refl) as [H|[H|H]];
      [vm_compute in H; discriminate..|].
    rewrite H. reflexivity.
  - rewrite Hfs by discriminate. reflexivity.
Defined.

(** ** The flag and the count agree *)

Lemma has_components_bounds (G : nx.MultiGraph) n :
  NoDup (nx.ug_nodes G) → nx.ug_nodes G ≠ [] → has_components G n →
  1 ≤ n ≤ length (nx.ug_nodes G).
Proof.
  intros Hnd Hne (reps & (Hndr & Hin & _ & Hcov) & <-). split.
  - destruct (nx.ug_nodes G) as [|v l] eqn:Hn; [done|].
    destruct (Hcov v) as (r & Hr & _); [left|].
    destruct reps; [by apply elem_of_nil in Hr|]. simpl. lia.
  - apply submseteq_length, NoDup_submseteq; [done|]. intros x Hx. by apply Hin.
Qed.

(** X8: on a graph with at least one node, the statistics a computation returns
    have [is_connected] true exactly when [number_of_components] is 1, and
    the count lies between 1 and [total_nodes]. *)
Theorem flag_agrees_with_count env force_analysis s G :
  road_graph s = PyGraph G →
  nx.nodes G ≠ [] →
  force_analysis = true ∨ fs s !! stats_cache_file = None →
  ∃ st s', analyze_connectivity env force_analysis s = (Ok (PyStats st), s') ∧
           (is_connected st = true ↔ number_of_components st = 1) ∧
           1 ≤ number_of_components st ≤ total_nodes st.
Proof.
  intros Hg Hne Hmiss.
  destruct (analyze_computes env force_analysis s) as (s0 & evs & -> & Hg0 & _);
    [by rewrite Hg|done|].
  destruct (nonempty_is_connected G Hne) as (c & Hc & Hciff).
  destruct (compute_stats_result env s0 G c) as (st & s' & -> & Hn & _ & Hflag & Hnum & _);
    [congruence|done|].
  assert (Hcount : has_components (nx.to_undirected G) (number_of_components st)).
  { rewrite Hnum. apply connected_components_spec;
      [apply to_undirected_closed|apply NoDup_nodes]. }
  exists st, s'. split; [done|]. split.
  - rewrite Hflag, Hciff. split.
    + intros H1. by eapply has_components_unique.
    + by intros <-.
  - rewrite Hn. apply (has_components_bounds (nx.to_undirected G));
      [apply NoDup_nodes|done|done].
Qed.

Lemma flag_agrees_with_count_witness :
  ∃ st s', analyze_connectivity env_ok true (s_loaded two_islands) = (Ok (PyStats st), s') ∧
           (is_connected st = true ↔ number_of_components st = 1) ∧
           1 ≤ number_of_components st ≤ total_nodes st.
Proof.
  apply (flag_agrees_with_count env_ok true (s_loaded two_islands) two_islands);
    [reflexivity|discriminate|by left].
Defined.

(** ** The cache report *)

Lemma get_cache_info_spec env s :
  ∃ s' evs, get_cache_info env s = (Ok tt, s') ∧
    road_graph s' = road_graph s ∧ districts_gdf s' = districts_gdf s ∧ fs s' = fs s ∧
    trace s' = trace s ++ evs ∧
    printed_lines evs
    = [nl +:+ "=== CACHE INFORMATION ===";
       cache_line env "Road Network" graph_cache_file (fs s);
       cache_line env "District Boundaries" districts_cache_file (fs s);
       cache_line env "Connectivity Stats" stats_cache_file (fs s);
       "========================" +:+ nl] ∧
    Forall (λ e, is_look e = true) evs.
Proof.
  unfold get_cache_info, cache_line. cbn [cache_info_lines].
  split_world; eexists _, _; (split; [reflexivity|]); run;
    (split_and!; [done|done|done|rewrite <- ?app_assoc; reflexivity|reflexivity|]);
    cbn [app]; by repeat constructor.
Qed.

(** X9: [get_cache_info] never raises and changes nothing; all it does is test
    the three cache files for existence and print five lines: a header, one
    line per artifact in the order road network, district boundaries,
    statistics, saying [Cached] exactly when the file exists, and a footer. *)
Theorem get_cache_info_report env s :
  ∃ s', get_cache_info env s = (Ok tt, s') ∧
    road_graph s' = road_graph s ∧ districts_gdf s' = districts_gdf s ∧ fs s' = fs s ∧
    printed_lines (new_events s s')
    = [nl +:+ "=== CACHE INFORMATION ===";
       cache_line env "Road Network" graph_cache_file (fs s);
       cache_line env "District Boundaries" districts_cache_file (fs s);
       cache_line env "Connectivity Stats" stats_cache_file (fs s);
       "========================" +:+ nl] ∧
    Forall (λ e, is_look e = true) (new_events s s').
Proof.
  destruct (get_cache_info_spec env s) as (s' & evs & Hrun & Hg & Hd & Hf & Ht & Hl & Hlook).
  exists s'. by rewrite (new_events_app s s' evs Ht).
Qed.

(** X10: after [clear_cache] in a world where the three removals succeed,
    [get_cache_info] reports every artifact as not cached. *)
Theorem cleared_cache_is_reported_empty env s :
  (∀ p, p ∈ cache_files → os_remove env p = Ok tt) →
  let s1 := (clear_cache env s).2 in
  printed_lines (new_events s1 (get_cache_info env s1).2)
  = [nl +:+ "=== CACHE INFORMATION ===";
     "Road Network: Not cached";
     "District Boundaries: Not cached";
     "Connectivity Stats: Not cached";
     "========================" +:+ nl].
Proof.
  intros Hrm s1. subst s1. unfold clear_cache. run.
  destruct (remove_existing_spec env cache_files s) as (s1 & evs & -> & _ & _ & _ & Hfs & _).
  run.
  assert (Hgone : ∀ p, p ∈ cache_files → fs s1 !! p = None).
  { intros p Hp. rewrite Hfs. unfold removable. rewrite (Hrm p Hp).
    by rewrite bool_decide_true. }
  destruct (get_cache_info_spec env (log (Print "Cache cleared successfully!") s1))
    as (s2 & evs2 & -> & _ & _ & _ & Ht & Hl & _).
  cbn [snd]. rewrite (new_events_app _ s2 evs2 Ht), Hl. unfold cache_line. run.
  rewrite !Hgone by (unfold cache_files; set_solver).
  reflexivity.
Qed.

Lemma cleared_cache_is_reported_empty_witness :
  printed_lines
    (new_events (clear_cache env_ok s_cached).2
       (get_cache_info env_ok (clear_cache env_ok s_cached).2).2)
  = [nl +:+ "=== CACHE INFORMATION ===";
     "Road Network: Not cached";
     "District Boundaries: Not cached";
     "Connectivity Stats: Not cached";
     "========================" +:+ nl].
Proof. apply (cleared_cache_is_reported_empty env_ok s_cached). reflexivity. Defined.

(** ** A small logic of effects: what a method may add to the log *)

Section emits.
Context {P : Event → Prop}.

Lemma emits_pure {A} (m : M A) : (∀ s, (m s).2 = s) → emits P m.
Proof. intros Hm s. exists []. rewrite Hm. by rewrite app_nil_r. Qed.

Lemma emits_ret {A} (a : A) : emits P (ret a).
Proof. by apply emits_pure. Qed.

Lemma emits_raise {A} e : emits P (@raise A e).
Proof. by apply emits_pure. Qed.

Lemma emits_lift {A} (r : Result A) : emits P (lift r).
Proof. by apply emits_pure. Qed.

Lemma emits_gets {A} (f : State → A) : emits P (gets f).
Proof. by apply emits_pure. Qed.

Lemma emits_modify f : (∀ s, trace (f s) = trace s ∧ fs (f s) = fs s) → emits P (modify f).
Proof.
  intros Hf s. exists []. run. destruct (Hf s) as [-> ->]. by rewrite app_nil_r.
Qed.

Lemma emits_emit e : P e → emits P (emit e).
Proof. intros He s. exists [e]. run. split_and!; [done|by constructor|done]. Qed.

Lemma emits_print line : P (Print line) → emits P (print line).
Proof. apply emits_emit. Qed.

Lemma emits_bind {A B} (m : M A) (k : A → M B) :
  emits P m → (∀ a, emits P (k a)) → emits P (bind m k).
Proof.
  intros Hm Hk s. destruct (Hm s) as (evs1 & Ht1 & HP1 & Hf1). run.
  destruct (m s) as [[a|e] s1]; cbn [snd] in Ht1, Hf1.
  - destruct (Hk a s1) as (evs2 & Ht2 & HP2 & Hf2). exists (evs1 ++ evs2).
    rewrite Ht2, Ht1, app_assoc. split_and!; [done|by apply Forall_app|].
    intros path Hw Hr. by rewrite Hf2, Hf1.
  - by exists evs1.
Qed.

Lemma emits_try_except {A} (body : M A) handler :
  emits P body → (∀ e, emits P (handler e)) → emits P (try_except body handler).
Proof.
  intros Hm Hk s. destruct (Hm s) as (evs1 & Ht1 & HP1 & Hf1). run.
  destruct (body s) as [[a|e] s1]; cbn [snd] in Ht1, Hf1.
  - by exists evs1.
  - destruct (Hk e s1) as (evs2 & Ht2 & HP2 & Hf2). exists (evs1 ++ evs2).
    rewrite Ht2, Ht1, app_assoc. split_and!; [done|by apply Forall_app|].
    intros path Hw Hr. by rewrite Hf2, Hf1.
Qed.

Lemma emits_call {A} e (r : Result A) : P e → emits P (call e r).
Proof. intros He. apply emits_bind; [by apply emits_emit|intros _; apply emits_lift]. Qed.

End emits.

Lemma emits_new_events {A} P (m : M A) s : emits P m → Forall P (new_events s (m s).2).
Proof.
  intros Hm. destruct (Hm s) as (evs & Ht & HP & _). by rewrite (new_events_app _ _ _ Ht).
Qed.

(** Breaking a method down into its statements. *)
Ltac emits_step :=
  lazymatch goal with
  | |- emits _ (bind _ _) => apply emits_bind; [|intros ?]
  | |- emits _ (try_except _ _) => apply emits_try_except; [|intros ?]
  | |- emits _ (ret _) => apply emits_ret
  | |- emits _ (raise _) => apply emits_raise
  | |- emits _ (lift _) => apply emits_lift
  | |- emits _ (gets _) => apply emits_gets
  | |- emits _ (modify _) => apply emits_modify; intros ?; split; reflexivity
  | |- emits _ (print _) => apply emits_print
  | |- emits _ (emit _) => apply emits_emit
  | |- emits _ (call _ _) => apply emits_call
  | |- emits _ (if ?b then _ else _) => destruct b
  | |- emits _ (match ?x with _ => _ end) => destruct x
  end.

Ltac emits_all := repeat emits_step.

Section primitives.
Context {P : Event → Prop}.

Lemma emits_os_path_exists path : P (FsExists path) → emits P (os_path_exists path).
Proof. intros. unfold os_path_exists. by emits_all. Qed.

Lemma emits_pickle_load path : P (FsRead path) → emits P (pickle_load path).
Proof. intros. unfold pickle_load. by emits_all. Qed.

Lemma emits_write_file env path content :
  P (FsWrite path content) → emits P (write_file env path content).
Proof.
  intros HP s. exists [FsWrite path content]. unfold write_file. run.
  destruct (write_outcome env path); run; (split_and!; [done|by constructor|]);
    intros p Hw Hr; try done;
    (rewrite lookup_insert_ne; [done|]); intros <-; by apply (Hw content).
Qed.

Lemma emits_remove_file env path : P (FsRemove path) → emits P (remove_file env path).
Proof.
  intros HP s. exists [FsRemove path]. unfold remove_file. run.
  destruct (os_remove env path); run; (split_and!; [done|by constructor|]);
    intros p Hw Hr; try done.
  rewrite lookup_delete_ne; [done|]. by intros <-.
Qed.

End primitives.

(** ** What each method may do to the outside world *)

Lemma emits_weaken {A} (P Q : Event → Prop) (m : M A) :
  (∀ e, P e → Q e) → emits P m → emits Q m.
Proof.
  intros HPQ Hm s. destruct (Hm s) as (evs & Ht & HP & Hf). exists evs.
  split_and!; [done|by eapply Forall_impl|].
  intros path Hw Hr. apply Hf; [intros c Hc; by apply (Hw c), HPQ|intros Hc; by apply Hr, HPQ].
Qed.

Ltac emits_prim :=
  first [ apply emits_os_path_exists | apply emits_pickle_load
        | apply emits_write_file | apply emits_remove_file ].

Ltac emits_method := repeat first [emits_step | emits_prim]; try done.

Section methods.
Context (env : Env).

Lemma emits_load_cached_graph nt : emits (graph_event nt) load_cached_graph.
Proof. unfold load_cached_graph, len_nodes, len_edges. emits_method. Qed.

Lemma emits_save_graph_to_cache nt : emits (graph_event nt) (save_graph_to_cache env).
Proof. unfold save_graph_to_cache, pickle_dump. emits_method. Qed.

Lemma emits_download_road_network network_type force_download :
  emits (graph_event network_type) (download_road_network env network_type force_download).
Proof.
  unfold download_road_network.
  emits_method; first [apply emits_load_cached_graph | apply emits_save_graph_to_cache].
Qed.

Lemma emits_load_cached_districts : emits districts_event load_cached_districts.
Proof. unfold load_cached_districts. emits_method. Qed.

Lemma emits_save_districts_to_cache : emits districts_event (save_districts_to_cache env).
Proof. unfold save_districts_to_cache, pickle_dump. emits_method. Qed.

Lemma emits_download_districts force_download :
  emits districts_event (download_districts env force_download).
Proof.
  unfold download_districts.
  emits_method; first [apply emits_load_cached_districts | apply emits_save_districts_to_cache].
Qed.

Lemma emits_load_cached_stats : emits stats_event load_cached_stats.
Proof. unfold load_cached_stats. emits_method. Qed.

Lemma emits_save_stats_to_cache stats : emits stats_event (save_stats_to_cache env stats).
Proof. unfold save_stats_to_cache, pickle_dump. emits_method. Qed.

Lemma emits_compute_stats : emits stats_event (compute_stats env).
Proof.
  unfold compute_stats, centrality_measures.
  emits_method; apply emits_save_stats_to_cache.
Qed.

Lemma emits_analyze_connectivity force_analysis :
  emits stats_event (analyze_connectivity env force_analysis).
Proof.
  unfold analyze_connectivity.
  emits_method; first [apply emits_load_cached_stats | apply emits_compute_stats].
Qed.

Lemma emits_generate_report force_analysis :
  emits stats_event (generate_report env force_analysis).
Proof.
  unfold generate_report. emits_method; apply emits_analyze_connectivity.
Qed.

Lemma emits_add_cities save_path cities : ∀ cities_group,
  (∀ city, city ∈ cities → city ∈ major_cities) →
  emits (map_event save_path) (add_cities env cities cities_group).
Proof.
  induction cities as [|city cities IH]; intros cities_group Hsub; cbn [add_cities].
  - apply emits_ret.
  - emits_method.
    + exists city. split; [apply Hsub; left|done].
    + apply IH. intros c Hc. apply Hsub. by right.
Qed.

Lemma emits_create_interactive_map save_path :
  emits (map_event save_path) (create_interactive_map env save_path).
Proof.
  unfold create_interactive_map. emits_method. by apply emits_add_cities.
Qed.

Lemma emits_cache_info_lines files :
  (∀ nf, nf ∈ files → nf.2 ∈ cache_files) → emits info_event (cache_info_lines env files).
Proof.
  induction files as [|[name file_path] files IH]; intros Hsub; cbn [cache_info_lines].
  - apply emits_ret.
  - emits_method.
    + apply (Hsub (name, file_path)). left.
    + apply IH. intros nf Hnf. apply Hsub. by right.
Qed.

Lemma emits_get_cache_info : emits info_event (get_cache_info env).
Proof.
  unfold get_cache_info. emits_method. apply emits_cache_info_lines.
  intros nf Hnf. unfold cache_files.
  repeat (apply elem_of_cons in Hnf as [->|Hnf]; [set_solver|]). by apply elem_of_nil in Hnf.
Qed.

Lemma emits_remove_existing files :
  (∀ f, f ∈ files → f ∈ cache_files) → emits clear_event (remove_existing env files).
Proof.
  induction files as [|f files IH]; intros Hsub; cbn [remove_existing].
  - apply emits_ret.
  - emits_method; try (apply Hsub; left);
      apply IH; intros f' Hf'; apply Hsub; by right.
Qed.

Lemma emits_clear_cache : emits clear_event (clear_cache env).
Proof. unfold clear_cache. emits_method. by apply emits_remove_existing. Qed.

Lemma emits_run_complete_analysis force_download force_analysis :
  emits (allowed "drive" "bangladesh_road_map.html")
    (run_complete_analysis env force_download force_analysis).
Proof.
  unfold run_complete_analysis. emits_method;
    lazymatch goal with
    | |- allowed _ _ _ => unfold allowed; cbn; auto 10
    | |- emits _ (get_cache_info _) => eapply emits_weaken; [|apply emits_get_cache_info]
    | |- emits _ (download_road_network _ _ _) =>
        eapply emits_weaken; [|apply emits_download_road_network]
    | |- emits _ (download_districts _ _) =>
        eapply emits_weaken; [|apply emits_download_districts]
    | |- emits _ (generate_report _ _) => eapply emits_weaken; [|apply emits_generate_report]
    | |- emits _ (create_interactive_map _ _) =>
        eapply emits_weaken; [|apply emits_create_interactive_map]
    end;
    intros e He; unfold allowed; auto 10.
Qed.

End methods.

(** X11: whatever the flags, the cache and the outside world, the file
    operations a run of the pipeline performs itself are existence tests and
    reads of the three cache files and writes of the three cache files and
    of the map; it removes nothing; it asks the provider for the drive
    network of Bangladesh only, and the geocoder for the country and the
    listed cities only.  (What the geodata library does on disk inside those
    calls is not part of the statement.) *)
Theorem pipeline_footprint env force_download force_analysis s :
  ∀ e, e ∈ new_events s (run_complete_analysis env force_download force_analysis s).2 →
       (∀ path, e ≠ FsRemove path) ∧
       (∀ path content, e = FsWrite path content →
                        path ∈ cache_files ∨ path = "bangladesh_road_map.html") ∧
       (∀ path, e = FsRead path ∨ e = FsExists path → path ∈ cache_files) ∧
       (∀ place network_type, e = CallGraphFromPlace place network_type →
                              place = "Bangladesh" ∧ network_type = "drive") ∧
       (∀ query, e = CallGeocodeToGdf query → query = "Bangladesh") ∧
       (∀ query, e = CallGeocode query →
                 ∃ city, city ∈ major_cities ∧ query = city +:+ ", Bangladesh").
Proof.
  destruct (emits_run_complete_analysis env force_download force_analysis s)
    as (evs & Ht & HP & _).
  rewrite (new_events_app _ _ _ Ht).
  intros e He. rewrite Forall_forall in HP. apply HP in He.
  unfold allowed, cache_files in *.
  destruct e; cbn in He; split_and!; try (intros; discriminate);
    intros; try (destruct_or?; try discriminate); simplify_eq; set_solver.
Qed.

Lemma pipeline_footprint_witness :
  FsExists graph_cache_file
    ∈ new_events (init ∅) (run_complete_analysis env_ok false false (init ∅)).2 ∧
  graph_cache_file ∈ cache_files.
Proof.
  assert (Hin : FsExists graph_cache_file
                  ∈ new_events (init ∅) (run_complete_analysis env_ok false false (init ∅)).2).
  { apply (list_elem_of_lookup_2 _ 2). vm_compute. reflexivity. }
  split; [exact Hin|].
  destruct (pipeline_footprint env_ok false false (init ∅) _ Hin) as (_ & _ & Hread & _).
  apply Hread. by right.
Defined.

(** ** A run on a filled cache *)

Lemma emits_at_bind {A B} P (m : M A) (k : A → M B) s :
  emits_at P m s → (∀ a s1, m s = (Ok a, s1) → emits_at P (k a) s1) →
  emits_at P (bind m k) s.
Proof.
  intros (evs1 & Ht1 & HP1) Hk. unfold emits_at. run.
  destruct (m s) as [[a|e] s1] eqn:Hm; cbn [snd] in Ht1.
  - destruct (Hk a s1 eq_refl) as (evs2 & Ht2 & HP2). exists (evs1 ++ evs2).
    rewrite Ht2, Ht1, app_assoc. split; [done|]. by apply Forall_app.
  - by exists evs1.
Qed.

Lemma emits_emits_at {A} (P Q : Event → Prop) (m : M A) s :
  (∀ e, P e → Q e) → emits P m → emits_at Q m s.
Proof.
  intros HPQ Hm. destruct (Hm s) as (evs & Ht & HP & _). exists evs. split; [done|].
  by eapply Forall_impl.
Qed.

Lemma library_calls_nil evs :
  library_calls evs = [] → Forall (λ e, is_library_call e = false) evs.
Proof.
  induction evs as [|e evs IH]; [by constructor|]. cbn.
  destruct (is_library_call e) eqn:He; [done|]. intros H. constructor; auto.
Qed.

(** A method that makes no library call from [s] makes no heavy call. *)
Lemma quiet_emits_at {A} P (m : M A) s :
  emits P m → library_calls (trace (m s).2) = library_calls (trace s) →
  emits_at (λ e, is_heavy_call e = false) m s.
Proof.
  intros Hm Hcalls. destruct (Hm s) as (evs & Ht & _ & _). exists evs. split; [done|].
  rewrite Ht, library_calls_app in Hcalls.
  assert (library_calls evs = []) as Hnil.
  { apply (app_inv_head (library_calls (trace s))). by rewrite app_nil_r. }
  eapply Forall_impl; [by apply library_calls_nil|].
  intros e He. by destruct e.
Qed.

Lemma library_calls_printed l s :
  library_calls (trace (printed l s)) = library_calls (trace s).
Proof.
  unfold printed. cbn [trace]. rewrite library_calls_app.
  induction l as [|line l IH]; cbn; [by rewrite app_nil_r|done].
Qed.

Lemma after_download_light env s G st :
  road_graph s = PyGraph G →
  fs s !! stats_cache_file = Some (Pickled (PyStats st)) →
  emits_at (λ e, is_heavy_call e = false) (after_download env false false) s.
Proof.
  intros Hg Hf. unfold after_download.
  apply emits_at_bind.
  { apply (emits_emits_at districts_event); [intros e; by destruct e|].
    apply emits_download_districts. }
  intros b s2 Hrun2.
  destruct (download_districts_outcome env false s) as (b' & s2' & evs & Hrun & _ & Hg2 & Hf2 & _).
  rewrite Hrun in Hrun2. injection Hrun2 as -> ->.
  apply emits_at_bind.
  { apply (quiet_emits_at stats_event); [apply emits_generate_report|].
    destruct (analyze_cache_hit env s2 (PyStats st)) as (s3 & Hrun3 & _ & _ & Hcalls);
      [congruence|done|by rewrite Hf2|].
    rewrite (generate_report_stats _ _ _ _ _ Hrun3). cbn [snd].
    by rewrite library_calls_printed. }
  intros [] s4 _.
  apply emits_at_bind.
  { apply (emits_emits_at (map_event "bangladesh_road_map.html")); [intros e; by destruct e|].
    apply emits_create_interactive_map. }
  intros m s5 _.
  apply (emits_emits_at info_event); [intros e; by destruct e|]. emits_method.
Qed.

(** X12: with a road graph and a statistics mapping in the cache and neither
    flag set, a run does not download the road network and computes no
    centrality, whatever else happens. *)
Theorem cached_run_is_light env s G st :
  fs s !! graph_cache_file = Some (Pickled (PyGraph G)) →
  fs s !! stats_cache_file = Some (Pickled (PyStats st)) →
  Forall (λ e, is_heavy_call e = false)
    (new_events s (run_complete_analysis env false false s).2).
Proof.
  intros Hgraph Hstats. rewrite run_complete_analysis_steps.
  destruct (preamble_spec env false s) as (s0 & evs0 & Hpre & _ & _ & Hf0 & Ht0 & Hc0).
  rewrite Hpre. cbn [snd].
  destruct (download_road_network_hit env "drive" s0 G) as (s1 & Hdl & Hg1 & _ & Hf1 & Hc1);
    [by rewrite Hf0|].
  destruct (quiet_emits_at (graph_event "drive") (download_road_network env "drive" false) s0)
    as (evs1 & Ht1 & HP1); [apply emits_download_road_network|by rewrite Hdl|].
  rewrite Hdl in *. cbn [snd] in Ht1.
  destruct (after_download_light env s1 G st) as (evs2 & Ht2 & HP2);
    [done|by rewrite Hf1, Hf0|].
  rewrite (new_events_app s _ (evs0 ++ evs1 ++ evs2))
    by (by rewrite Ht2, Ht1, Ht0, <- !app_assoc).
  repeat (apply Forall_app; split); try done.
  eapply Forall_impl; [by apply library_calls_nil|]. intros e He. by destruct e.
Qed.

Lemma cached_run_is_light_witness :
  Forall (λ e, is_heavy_call e = false)
    (new_events s_cached (run_complete_analysis env_ok false false s_cached).2).
Proof.
  apply (cached_run_is_light env_ok s_cached two_islands some_stats); reflexivity.
Defined.

(** ** The road layers *)

Lemma add_to_group_keys key child groups :
  (add_to_group key child groups).*1
  = if decide (key ∈ groups.*1) then groups.*1 else groups.*1 ++ [key].
Proof.
  induction groups as [|[k g] groups IH]; cbn [add_to_group fmap list_fmap fst].
  - rewrite decide_False by (by intros ?%elem_of_nil). done.
  - destruct (decide (k = key)) as [->|Hne]; cbn [fmap list_fmap fst].
    + rewrite decide_True by left. done.
    + fold (fmap (M:=list) (@fst string FeatureGroup)). rewrite IH.
      destruct (decide (key ∈ groups.*1)) as [Hin|Hnin].
      * rewrite decide_True by (by right). done.
      * rewrite decide_False; [done|]. intros [?|?]%elem_of_cons; congruence.
Qed.

Lemma elem_of_add_to_group key child groups k g :
  NoDup groups.*1 →
  (k, g) ∈ add_to_group key child groups →
  (k ≠ key ∧ (k, g) ∈ groups)
  ∨ (k = key ∧
     ((∃ g0, (key, g0) ∈ groups ∧
             g = {| fg_name := fg_name g0; fg_children := fg_children g0 ++ [child] |})
      ∨ (key ∉ groups.*1 ∧
         g = {| fg_name := title key +:+ " Roads"; fg_children := [child] |}))).
Proof.
  induction groups as [|[k0 g0] groups IH]; cbn [add_to_group]; intros Hnd Hin.
  - apply list_elem_of_singleton in Hin as [= -> ->]. right. split; [done|]. right.
    split; [by intros ?%elem_of_nil|done].
  - cbn [fmap list_fmap fst] in Hnd. apply NoDup_cons in Hnd as [Hk0 Hnd].
    destruct (decide (k0 = key)) as [->|Hne].
    + apply elem_of_cons in Hin as [[= -> ->]|Hin].
      * right. split; [done|]. left. exists g0. split; [left|done].
      * left. split; [|by right]. intros ->. apply Hk0.
        apply list_elem_of_fmap. by exists (key, g).
    + apply elem_of_cons in Hin as [[= -> ->]|Hin].
      * left. split; [done|left].
      * destruct (IH Hnd Hin) as [[? ?]|[-> [(g1 & Hg1 & ->)|[Hnin ->]]]].
        -- left. split; [done|by right].
        -- right. split; [done|]. left. exists g1. split; [by right|done].
        -- right. split; [done|]. right. split; [|done].
           cbn [fmap list_fmap fst]. intros [?|?]%elem_of_cons; congruence.
Qed.

Lemma grouped_nil : grouped [] [].
Proof.
  split_and!; [constructor|done|]. intros key group Hin. by apply elem_of_nil in Hin.
Qed.

Lemma grouped_add_road env rows road_groups row road_groups' :
  grouped rows road_groups →
  add_road env road_groups row = Ok road_groups' →
  grouped (rows ++ [row]) road_groups'.
Proof.
  intros (Hnd & Hkeys & Hgroups). unfold add_road.
  destruct (format_length env row) as [len|e]; [|done]. intros [= <-].
  set (key := row_highway_type row). set (child := Build_GeoJson _ _ _ _).
  assert (Hfilter : ∀ k, filter (λ r, row_highway_type r = k) (rows ++ [row])
                         = filter (λ r, row_highway_type r = k) rows
                           ++ (if decide (key = k) then [row] else [])).
  { intros k. rewrite filter_app. f_equal. }
  split_and!.
  - rewrite add_to_group_keys. destruct (decide (key ∈ road_groups.*1)); [done|].
    apply NoDup_app. split_and!; [done| |apply NoDup_singleton].
    intros k Hk ->%list_elem_of_singleton. done.
  - intros k. rewrite add_to_group_keys, fmap_app, elem_of_app, <- Hkeys.
    cbn [fmap list_fmap]. fold key. rewrite list_elem_of_singleton.
    destruct (decide (key ∈ road_groups.*1)) as [Hin|Hnin].
    + split; [tauto|]. intros [?| ->]; done.
    + rewrite elem_of_app, list_elem_of_singleton. tauto.
  - intros k g Hin. rewrite Hfilter.
    apply elem_of_add_to_group in Hin as [[Hne Hin]|[-> [(g0 & Hin & ->)|[Hnin ->]]]]; [| | |done].
    + rewrite decide_False by done. rewrite app_nil_r. by apply Hgroups.
    + destruct (Hgroups key g0 Hin) as (Hname & Hgeo & Hstyle).
      rewrite decide_True by done. cbn [fg_name fg_children].
      split_and!; [done|by rewrite !fmap_app, Hgeo|].
      apply Forall_app. split; [done|]. by repeat constructor.
    + rewrite decide_True by done. cbn [fg_name fg_children].
      assert (filter (λ r, row_highway_type r = key) rows = []) as ->.
      { apply (fmap_nil_inv row_highway_type), elem_of_nil_inv. intros x Hx.
        apply list_elem_of_fmap in Hx as (r & -> & Hr%list_elem_of_filter).
        destruct Hr as [Hr Hin]. apply Hnin, Hkeys, list_elem_of_fmap. by exists r. }
      split_and!; [done|done|]. by repeat constructor.
Qed.

Lemma grouped_add_roads env rows : ∀ done_rows road_groups road_groups',
  grouped done_rows road_groups →
  add_roads env road_groups rows = Ok road_groups' →
  grouped (done_rows ++ rows) road_groups'.
Proof.
  induction rows as [|row rows IH]; intros done_rows road_groups road_groups' Hinv;
    cbn [add_roads].
  - intros [= <-]. by rewrite app_nil_r.
  - destruct (add_road env road_groups row) as [groups1|e] eqn:Hstep; [|done].
    intros Hrest. rewrite cons_middle, app_assoc.
    eapply IH; [|done]. by eapply grouped_add_road.
Qed.

(** X13: when the loop over the edge rows succeeds, the road layers are one
    group per classification present among the rows, each under its own
    key; a group is named after its classification and holds exactly the
    rows of that classification, in their order, drawn in its style. *)
Theorem road_layers_partition_rows env rows road_groups :
  add_roads env [] rows = Ok road_groups →
  grouped rows road_groups.
Proof. intros Hrun. by apply (grouped_add_roads env rows [] [] road_groups grouped_nil). Qed.

Lemma road_layers_partition_rows_witness :
  ∃ road_groups, add_roads env_ok [] some_rows.2 = Ok road_groups ∧
                 grouped some_rows.2 road_groups ∧
                 road_groups.*1 = ["primary"; "trunk"].
Proof.
  eexists. split; [vm_compute; reflexivity|]. split; [|reflexivity].
  apply (road_layers_partition_rows env_ok). vm_compute. reflexivity.
Defined.

(** ** The map: what is not caught *)

Lemma add_roads_missing_length env rows : ∀ road_groups,
  Exists (λ row, row_length row = None) rows →
  add_roads env road_groups rows
  = Raise (Exception "Unknown format code 'f' for object of type 'str'").
Proof.
  induction rows as [|row rows IH]; intros road_groups Hex; [by apply Exists_nil in Hex|].
  cbn [add_roads]. unfold add_road, format_length.
  destruct (row_length row) as [len|] eqn:Hlen; [|done].
  apply Exists_cons in Hex as [Hex|Hex]; [congruence|]. by apply IH.
Qed.

(** X14: three failures leave [create_interactive_map] as exceptions.  When the
    conversion of the graph raises, and when some edge row carries no
    length, nothing has been written and no city has been looked up; when
    the rows are fine but the map cannot be written, the exception of the
    write is the result.  Without a road network the method returns [None]
    after one line. *)
Theorem create_interactive_map_failures env save_path s :
  (road_graph s = PyNone →
   create_interactive_map env save_path s
   = (Ok None, log (Print "No road network available for mapping") s)) ∧
  (∀ G e, road_graph s = PyGraph G → graph_to_gdfs env G = Raise e →
          ∃ s', create_interactive_map env save_path s = (Raise e, s') ∧ fs s' = fs s ∧
                library_calls (new_events s s') = [CallGraphToGdfs (PyGraph G)]) ∧
  (∀ G gdfs, road_graph s = PyGraph G → graph_to_gdfs env G = Ok gdfs →
             Exists (λ row, row_length row = None) gdfs.2 →
             ∃ s', create_interactive_map env save_path s
                   = (Raise (Exception "Unknown format code 'f' for object of type 'str'"), s') ∧
                   fs s' = fs s ∧
                   library_calls (new_events s s') = [CallGraphToGdfs (PyGraph G)]) ∧
  (∀ G gdfs e, road_graph s = PyGraph G → graph_to_gdfs env G = Ok gdfs →
               Forall (λ row, is_Some (row_length row)) gdfs.2 →
               write_error (write_outcome env save_path) = Some e →
               (create_interactive_map env save_path s).1 = Raise e).
Proof.
  split_and!.
  - intros Hg. unfold create_interactive_map. run. rewrite Hg. by run.
  - intros G e Hg Hgdfs. unfold create_interactive_map. run. rewrite Hg. run.
    rewrite Hgdfs. run. eexists. split; [reflexivity|]. split; [done|].
    erewrite new_events_app; [|run; rewrite <- ?app_assoc; reflexivity]. reflexivity.
  - intros G gdfs Hg Hgdfs Hrows. unfold create_interactive_map. run. rewrite Hg. run.
    rewrite Hgdfs. run. rewrite (add_roads_missing_length env _ [] Hrows). run.
    eexists. split; [reflexivity|]. split; [done|].
    erewrite new_events_app; [|run; rewrite <- ?app_assoc; reflexivity]. reflexivity.
  - intros G gdfs e Hg Hgdfs Hrows Hw. unfold create_interactive_map. run. rewrite Hg. run.
    rewrite Hgdfs. run.
    destruct (add_roads_ok env gdfs.2 [] Hrows) as (road_groups & ->). run.
    match goal with |- context [add_cities env major_cities [] ?s1] =>
      destruct (add_cities_spec env major_cities [] s1) as (s2 & -> & _) end.
    run. destruct (write_outcome env save_path); cbn in Hw; [done|..];
      injection Hw as ->; by run.
Qed.

Lemma create_interactive_map_failures_witness :
  (create_interactive_map env_down "bangladesh_road_map.html" (s_loaded two_islands)).1
  = Raise (Exception "[Errno 13] Permission denied") ∧
  create_interactive_map env_ok "bangladesh_road_map.html" (init ∅)
  = (Ok None, log (Print "No road network available for mapping") (init ∅)).
Proof.
  destruct (create_interactive_map_failures env_down "bangladesh_road_map.html"
              (s_loaded two_islands)) as (_ & _ & _ & Hwrite).
  destruct (create_interactive_map_failures env_ok "bangladesh_road_map.html" (init ∅))
    as (Hnone & _).
  split.
  - apply (Hwrite two_islands some_rows); [reflexivity|reflexivity| |reflexivity].
    repeat constructor; by eexists.
  - by apply Hnone.
Defined.

(** ** The city markers *)

Lemma add_cities_events env cities : ∀ cities_group s,
  ∃ s' evs, add_cities env cities cities_group s
            = (Ok (cities_group ++ omap (city_marker env) cities), s') ∧
    trace s' = trace s ++ evs ∧
    library_calls evs = (λ city, CallGeocode (city +:+ ", Bangladesh")) <$> cities ∧
    printed_lines evs = omap (geocode_warning env) cities.
Proof.
  induction cities as [|city cities IH]; intros cities_group s;
    cbn [add_cities omap list_omap fmap list_fmap].
  - run. exists s, []. by rewrite !app_nil_r.
  - run. unfold city_marker at 1, geocode_warning at 1.
    destruct (geocode env (city +:+ ", Bangladesh")) as [loc|e]; run.
    + match goal with |- context [add_cities env cities ?acc ?s1] =>
        destruct (IH acc s1) as (s' & evs & -> & Ht & Hc & Hp) end.
      revert Ht. run. intros Ht. eexists _, _. rewrite <- app_assoc.
      split_and!; [done|by rewrite Ht, <- app_assoc|..]; cbn; by f_equal.
    + match goal with |- context [add_cities env cities ?acc ?s1] =>
        destruct (IH acc s1) as (s' & evs & -> & Ht & Hc & Hp) end.
      revert Ht. run. intros Ht. eexists _, _.
      split_and!; [done|by rewrite Ht, <- !app_assoc|..]; cbn; by f_equal.
Qed.

(** X15: the city loop never raises: it asks the geocoder once per city, in the
    order of the list, adds the marker of each city found, and prints one
    line for each city not found. *)
Theorem city_loop_skips_failures env cities cities_group s :
  ∃ s', add_cities env cities cities_group s
        = (Ok (cities_group ++ omap (city_marker env) cities), s') ∧
    library_calls (new_events s s')
    = (λ city, CallGeocode (city +:+ ", Bangladesh")) <$> cities ∧
    printed_lines (new_events s s') = omap (geocode_warning env) cities.
Proof.
  destruct (add_cities_events env cities cities_group s) as (s' & evs & Hrun & Ht & Hc & Hp).
  exists s'. by rewrite (new_events_app s s' evs Ht).
Qed.

(** ** The command line *)

Lemma emits_main env dir_exists makedirs args :
  emits main_event (main env dir_exists makedirs args).
Proof.
  unfold main, BangladeshRoadMap_init.
  emits_method;
    lazymatch goal with
    | |- main_event _ => unfold main_event, allowed; cbn; auto 10
    | |- emits _ (clear_cache _) => eapply emits_weaken; [|apply emits_clear_cache]
    | |- emits _ (get_cache_info _) => eapply emits_weaken; [|apply emits_get_cache_info]
    | |- emits _ (run_complete_analysis _ _ _) =>
        eapply emits_weaken; [|apply emits_run_complete_analysis]
    end;
    intros e He; unfold main_event, allowed; auto 10.
Qed.

Lemma emits_main_clear env dir_exists makedirs args :
  arg_clear_cache args = true →
  emits (λ e, e = FsExists cache_dir ∨ clear_event e) (main env dir_exists makedirs args).
Proof.
  intros Hc. unfold main, BangladeshRoadMap_init. rewrite Hc.
  emits_method; try (cbn; by auto).
  all: eapply emits_weaken; [|apply emits_clear_cache]; intros e He; by right.
Qed.

Lemma emits_main_info env dir_exists makedirs args :
  arg_clear_cache args = false → arg_cache_info args = true →
  emits (λ e, e = FsExists cache_dir ∨ info_event e) (main env dir_exists makedirs args).
Proof.
  intros Hc Hi. unfold main, BangladeshRoadMap_init. rewrite Hc, Hi.
  emits_method; try (cbn; by auto).
  all: eapply emits_weaken; [|apply emits_get_cache_info]; intros e He; by right.
Qed.

(** X16: [--network-type] has no effect: [main] does the same whatever its
    value, and the only network it ever asks the provider for is the drive
    network. *)
Theorem main_ignores_network_type env dir_exists makedirs args s :
  (∀ network_type,
     main env dir_exists makedirs (with_network_type network_type args) s
     = main env dir_exists makedirs args s) ∧
  (∀ place network_type,
     CallGraphFromPlace place network_type
       ∈ new_events s (main env dir_exists makedirs args s).2 →
     place = "Bangladesh" ∧ network_type = "drive").
Proof.
  split; [done|]. intros place nt Hin.
  pose proof (emits_new_events _ _ s (emits_main env dir_exists makedirs args)) as HP.
  rewrite Forall_forall in HP. apply HP in Hin.
  unfold main_event, allowed in Hin. cbn in Hin. naive_solver.
Qed.

Lemma main_ignores_network_type_witness :
  let args := {| arg_force_download := true; arg_force_analysis := false;
                 arg_clear_cache := false; arg_cache_info := false;
                 arg_network_type := "drive" |} in
  main env_ok true (Ok tt) (with_network_type "walk" args) (init ∅)
  = main env_ok true (Ok tt) args (init ∅) ∧
  (∀ place network_type,
     CallGraphFromPlace place network_type
       ∈ new_events (init ∅) (main env_ok true (Ok tt) args (init ∅)).2 →
     place = "Bangladesh" ∧ network_type = "drive").
Proof.
  intros args. destruct (main_ignores_network_type env_ok true (Ok tt) args (init ∅))
    as [Hsame Hdrive].
  split; [apply Hsame|apply Hdrive].
Defined.

(** X17: when the cache directory exists, [--clear-cache] comes first: with
    it, whatever the other flags are, [main] only tests the directory, tests
    the three cache files, removes some of them and prints, and leaves every
    other file as it was; without it, [--cache-info] makes [main] only test
    the directory and the three cache files and print, and change no file.
    When the directory is missing and cannot be created, [main] stops with
    that error right after the test. *)
Theorem main_special_commands env makedirs args s :
  (arg_clear_cache args = true →
   (∀ e, e ∈ new_events s (main env true makedirs args s).2 →
         e = FsExists cache_dir ∨ (∃ line, e = Print line)
         ∨ ∃ path, path ∈ cache_files ∧ (e = FsExists path ∨ e = FsRemove path)) ∧
   (∀ path, path ∉ cache_files →
            fs (main env true makedirs args s).2 !! path = fs s !! path)) ∧
  (arg_clear_cache args = false → arg_cache_info args = true →
   fs (main env true makedirs args s).2 = fs s ∧
   ∀ e, e ∈ new_events s (main env true makedirs args s).2 →
        e = FsExists cache_dir ∨ (∃ line, e = Print line)
        ∨ ∃ path, path ∈ cache_files ∧ e = FsExists path) ∧
  (∀ e, makedirs = Raise e →
        main env false makedirs args s = (Raise e, log (FsExists cache_dir) s)).
Proof.
  split_and!.
  - intros Hc.
    destruct (emits_main_clear env true makedirs args Hc s) as (evs & Ht & HP & Hf).
    rewrite (new_events_app _ _ _ Ht). split.
    + intros e He. rewrite Forall_forall in HP. apply HP in He.
      destruct He as [->|He]; [by left|]. right.
      destruct e; cbn in He; try done; eauto 6.
    + intros path Hp. apply Hf.
      * intros content [?|?]; done.
      * intros [?|?]; done.
  - intros Hc Hi.
    destruct (emits_main_info env true makedirs args Hc Hi s) as (evs & Ht & HP & Hf).
    split.
    + apply map_eq. intros path. apply Hf.
      * intros content [?|?]; done.
      * intros [?|?]; done.
    + rewrite (new_events_app _ _ _ Ht). intros e He.
      rewrite Forall_forall in HP. apply HP in He.
      destruct He as [->|He]; [by left|]. right.
      destruct e; cbn in He; try done; eauto 6.
  - intros e ->. unfold main, BangladeshRoadMap_init. by run.
Qed.

Lemma main_special_commands_witness :
  fs (main env_ok true (Ok tt)
        {| arg_force_download := true; arg_force_analysis := true;
           arg_clear_cache := false; arg_cache_info := true;
           arg_network_type := "drive" |} s_cached).2 = fs s_cached ∧
  fs (main env_ok true (Ok tt)
        {| arg_force_download := true; arg_force_analysis := true;
           arg_clear_cache := true; arg_cache_info := true;
           arg_network_type := "drive" |} s_cached).2 !! "bangladesh_road_map.html"
  = fs s_cached !! "bangladesh_road_map.html" ∧
  main env_ok false (Raise (Exception "[Errno 13] Permission denied"))
    {| arg_force_download := false; arg_force_analysis := false;
       arg_clear_cache := false; arg_cache_info := false;
       arg_network_type := "drive" |} (init ∅)
  = (Raise (Exception "[Errno 13] Permission denied"), log (FsExists cache_dir) (init ∅)).
Proof.
  split_and!.
  - destruct (main_special_commands env_ok (Ok tt)
                {| arg_force_download := true; arg_force_analysis := true;
                   arg_clear_cache := false; arg_cache_info := true;
                   arg_network_type := "drive" |} s_cached) as (_ & Hinfo & _).
    by destruct (Hinfo eq_refl eq_refl).
  - destruct (main_special_commands env_ok (Ok tt)
                {| arg_force_download := true; arg_force_analysis := true;
                   arg_clear_cache := true; arg_cache_info := true;
                   arg_network_type := "drive" |} s_cached) as (Hclear & _).
    destruct (Hclear eq_refl) as [_ Hframe]. apply Hframe.
    vm_compute. intros H.
    repeat (apply elem_of_cons in H as [H|H]; [discriminate|]). by apply elem_of_nil in H.
  - destruct (main_special_commands env_ok (Raise (Exception "[Errno 13] Permission denied"))
                {| arg_force_download := false; arg_force_analysis := false;
                   arg_clear_cache := false; arg_cache_info := false;
                   arg_network_type := "drive" |} (init ∅)) as (_ & _ & Hfail).
    by apply Hfail.
Defined.

(** ** Bad cache files are replaced *)

Lemma download_road_network_heals env network_type s content G :
  fs s !! graph_cache_file = Some content → useless_graph_file content →
  graph_from_place env country_name network_type = Ok G →
  write_outcome env graph_cache_file = WriteOk →
  ∃ s', download_road_network env network_type false s = (Ok true, s') ∧
        road_graph s' = PyGraph G ∧
        fs s' !! graph_cache_file = Some (Pickled (PyGraph G)).
Proof.
  intros Hf Hbad HG Hw.
  unfold download_road_network, load_cached_graph, save_graph_to_cache. run.
  rewrite (exists_true _ _ Hf). run. rewrite Hf.
  destruct content as [[]| |]; try done; run; rewrite HG; run; rewrite Hw; run;
    (eexists; split; [reflexivity|]); run; by rewrite lookup_insert_eq.
Qed.

Lemma analyze_connectivity_heals env s content G :
  road_graph s = PyGraph G → nx.nodes G ≠ [] →
  fs s !! stats_cache_file = Some content → useless_stats_file content →
  write_outcome env stats_cache_file = WriteOk →
  ∃ st s', analyze_connectivity env false s = (Ok (PyStats st), s') ∧
           fs s' !! stats_cache_file = Some (Pickled (PyStats st)).
Proof.
  intros Hg Hne Hf Hbad Hw.
  destruct (nonempty_is_connected G Hne) as (c & Hc & _).
  unfold analyze_connectivity, load_cached_stats. run. rewrite Hg. run.
  rewrite (exists_true _ _ Hf). run. rewrite Hf.
  destruct content as [[]| |]; try done; run;
    match goal with |- context [compute_stats env ?s0] =>
      destruct (compute_stats_cached env s0 G c) as (st & s' & -> & _ & Hfs); [done..|]
    end; by exists st, s'.
Qed.

(** X18: a cache file its producer cannot use does not stay: when the road-graph
    file cannot be decoded or holds something that is not a graph, an
    unforced download that succeeds leaves the fresh graph in the file; when
    the statistics file cannot be decoded or holds [None], an unforced
    analysis leaves the fresh statistics in the file. *)
Theorem bad_cache_files_are_replaced env s :
  (∀ network_type content G,
     fs s !! graph_cache_file = Some content → useless_graph_file content →
     graph_from_place env country_name network_type = Ok G →
     write_outcome env graph_cache_file = WriteOk →
     ∃ s', download_road_network env network_type false s = (Ok true, s') ∧
           road_graph s' = PyGraph G ∧
           fs s' !! graph_cache_file = Some (Pickled (PyGraph G))) ∧
  (∀ content G,
     road_graph s = PyGraph G → nx.nodes G ≠ [] →
     fs s !! stats_cache_file = Some content → useless_stats_file content →
     write_outcome env stats_cache_file = WriteOk →
     ∃ st s', analyze_connectivity env false s = (Ok (PyStats st), s') ∧
              fs s' !! stats_cache_file = Some (Pickled (PyStats st))).
Proof.
  split.
  - intros network_type content G. apply download_road_network_heals.
  - intros content G. apply analyze_connectivity_heals.
Qed.

Lemma bad_cache_files_are_replaced_witness :
  (∃ s', download_road_network env_ok "drive" false s_corrupt = (Ok true, s') ∧
         road_graph s' = PyGraph two_islands ∧
         fs s' !! graph_cache_file = Some (Pickled (PyGraph two_islands))) ∧
  (∃ st s', analyze_connectivity env_ok false (set_road_graph (PyGraph two_islands) s_corrupt)
            = (Ok (PyStats st), s') ∧
            fs s' !! stats_cache_file = Some (Pickled (PyStats st))).
Proof.
  split.
  - destruct (bad_cache_files_are_replaced env_ok s_corrupt) as [Hgraph _].
    apply (Hgraph "drive" (Garbage "invalid load key") two_islands); reflexivity || exact I.
  - destruct (bad_cache_files_are_replaced env_ok
                (set_road_graph (PyGraph two_islands) s_corrupt)) as [_ Hstats].
    apply (Hstats (Garbage "invalid load key") two_islands);
      first [reflexivity | discriminate | exact I].
Defined.

(** ** C3: the sample on which betweenness is computed *)

Lemma betweenness_input_sample (G : nx.MultiDiGraph) :
  (5000 < length (nx.nodes G) →
   (∀ x, x ∈ nx.ug_nodes (betweenness_input G) ↔ x ∈ take 1000 (nx.nodes G)) ∧
   length (nx.ug_nodes (betweenness_input G)) = 1000 ∧
   (∀ e, e ∈ nx.ug_edges (betweenness_input G) ↔
         e ∈ nx.edges G ∧ e.1 ∈ take 1000 (nx.nodes G) ∧ e.2 ∈ take 1000 (nx.nodes G))) ∧
  (length (nx.nodes G) ≤ 5000 → betweenness_input G = nx.to_undirected G).
Proof.
  unfold betweenness_input. cbn [nx.to_undirected nx.ug_nodes]. split.
  - intros Hbig. assert ((5000 <? length (nx.nodes G))%nat = true) as ->
      by by apply Nat.ltb_lt.
    assert (Hnodes : nx.ug_nodes (nx.subgraph (nx.to_undirected G) (take 1000 (nx.nodes G)))
                     = take 1000 (nx.nodes G)).
    { apply filter_take_NoDup, NoDup_nodes. }
    rewrite Hnodes. split_and!; [done|rewrite length_take; lia|].
    intros e. unfold nx.subgraph. cbn [nx.ug_edges nx.to_undirected].
    rewrite list_elem_of_filter. tauto.
  - intros Hsmall. by assert ((5000 <? length (nx.nodes G))%nat = false) as ->
      by by apply Nat.ltb_ge.
Qed.

Lemma compute_stats_centrality env s G c d :
  road_graph s = PyGraph G →
  nx.is_connected (nx.to_undirected G) = Ok c →
  degree_centrality env (nx.to_undirected G) = Ok d →
  ∃ st s' evs, compute_stats env s = (Ok (PyStats st), s') ∧
    trace s' = trace s ++ evs ∧
    CallBetweennessCentrality (betweenness_input G) ∈ evs ∧
    match betweenness_centrality env (betweenness_input G) with
    | Ok b => avg_betweenness_centrality st = Some (np_mean env b) ∧
              avg_degree_centrality st = Some (np_mean env d)
    | Raise _ => avg_betweenness_centrality st = None ∧ avg_degree_centrality st = None
    end.
Proof.
  intros Hg Hc Hd. unfold compute_stats, centrality_measures, save_stats_to_cache.
  unfold betweenness_input. run. rewrite Hg. run. rewrite Hc, Hd. run.
  destruct (5000 <? length _)%nat; run;
    destruct (betweenness_centrality env _) as [b|e]; run;
    destruct (write_outcome env stats_cache_file); run;
    eexists _, _, _; (split; [reflexivity|]); run;
    (split; [rewrite <- ?app_assoc; reflexivity|]);
    (split; [cbn [app]; do 3 right; left|done]).
Qed.

Lemma analyze_betweenness_calls env force_analysis s G H :
  road_graph s = PyGraph G →
  CallBetweennessCentrality H ∈ new_events s (analyze_connectivity env force_analysis s).2 →
  H = betweenness_input G.
Proof.
  intros Hg Hin.
  destruct (analyze_cases env force_analysis s) as (pre & s0 & Hg0 & _ & _ & Ht0 & Hpre & Hrun);
    [by rewrite Hg|].
  destruct (compute_stats_betweenness env s0 G) as (evs & Ht & Hsafe & _); [congruence|].
  apply Hsafe. destruct Hrun as [Hrun|(o & _ & _ & _ & Hrun)]; rewrite Hrun in Hin.
  - rewrite (new_events_app s _ (pre ++ evs)) in Hin by (by rewrite Ht, Ht0, app_assoc).
    apply elem_of_app in Hin as [Hin|Hin]; [by apply Hpre in Hin|done].
  - rewrite (new_events_app s _ pre) in Hin by done. by apply Hpre in Hin.
Qed.

(** C3: there is one graph [H] on which [analyze_connectivity] computes
    betweenness.  For a road network of more than 5000 nodes its nodes are
    the first 1000 nodes of the iteration order and its edges the edges
    between them; for at most 5000 nodes it is the whole undirected graph.
    No betweenness call is made on any other graph.  When the statistics
    are computed (forced, or not cached) on a non-empty graph and the degree
    centrality succeeds, betweenness is called on [H], and the average that
    is stored is the mean of what the library returns for [H]; if that call
    raises, no average is stored. *)
Theorem betweenness_sample env force_analysis s G :
  road_graph s = PyGraph G →
  let U := nx.to_undirected G in
  let s' := (analyze_connectivity env force_analysis s).2 in
  ∃ H,
    (5000 < length (nx.ug_nodes U) →
     (∀ x, x ∈ nx.ug_nodes H ↔ x ∈ take 1000 (nx.ug_nodes U)) ∧
     length (nx.ug_nodes H) = 1000 ∧
     (∀ e, e ∈ nx.ug_edges H ↔
           e ∈ nx.ug_edges U ∧ e.1 ∈ take 1000 (nx.ug_nodes U)
           ∧ e.2 ∈ take 1000 (nx.ug_nodes U))) ∧
    (length (nx.ug_nodes U) ≤ 5000 → H = U) ∧
    (∀ H', CallBetweennessCentrality H' ∈ new_events s s' → H' = H) ∧
    (∀ d, force_analysis = true ∨ fs s !! stats_cache_file = None →
          nx.nodes G ≠ [] →
          degree_centrality env U = Ok d →
          CallBetweennessCentrality H ∈ new_events s s' ∧
          ∃ st, (analyze_connectivity env force_analysis s).1 = Ok (PyStats st) ∧
                match betweenness_centrality env H with
                | Ok b => avg_betweenness_centrality st = Some (np_mean env b) ∧
                          avg_degree_centrality st = Some (np_mean env d)
                | Raise _ => avg_betweenness_centrality st = None ∧
                             avg_degree_centrality st = None
                end).
Proof.
  intros Hg U s'. subst U s'. exists (betweenness_input G).
  destruct (betweenness_input_sample G) as [Hbig Hsmall].
  split_and!; [exact Hbig|exact Hsmall|..].
  - intros H' Hin. by eapply analyze_betweenness_calls.
  - intros d Hmiss Hne Hd.
    destruct (analyze_computes env force_analysis s) as (s0 & pre & -> & Hg0 & _ & _ & Ht0 & _);
      [by rewrite Hg|done|].
    destruct (nonempty_is_connected G Hne) as (c & Hc & _).
    destruct (compute_stats_centrality env s0 G c d) as (st & s' & evs & -> & Ht & Hin & Havg);
      [congruence|done|done|].
    cbn [fst snd]. split; [|by exists st].
    rewrite (new_events_app s s' (pre ++ evs)) by (by rewrite Ht, Ht0, app_assoc).
    apply elem_of_app. by right.
Qed.

Lemma betweenness_sample_witness :
  ∃ H, length (nx.ug_nodes H) = 1000 ∧
       CallBetweennessCentrality H
         ∈ new_events (s_loaded big_graph)
             (analyze_connectivity env_ok true (s_loaded big_graph)).2 ∧
       ∃ st, (analyze_connectivity env_ok true (s_loaded big_graph)).1 = Ok (PyStats st) ∧
             avg_betweenness_centrality st = Some (Float 9).
Proof.
  destruct (betweenness_sample env_ok true (s_loaded big_graph) big_graph eq_refl)
    as (H & Hbig & _ & _ & Hrun).
  exists H. split.
  - apply Hbig. vm_compute. reflexivity.
  - destruct (Hrun [Float 7]) as (Hin & st & Hst & Havg);
      [by left|vm_compute; discriminate|reflexivity|].
    split; [done|]. exists st. split; [done|].
    cbn in Havg. by destruct Havg.
Defined.

(** ** C5: what ends a run of the pipeline *)

Lemma compute_stats_null env s G :
  road_graph s = PyGraph G → nx.nodes G = [] →
  (compute_stats env s).1 = Raise (Exception "Connectivity is undefined for the null graph.").
Proof.
  intros Hg Hnull. unfold compute_stats. run. rewrite Hg. run.
  unfold nx.is_connected. cbn [nx.to_undirected nx.ug_nodes]. rewrite Hnull. by run.
Qed.

Lemma create_interactive_map_conversion_fails env save_path s G e :
  road_graph s = PyGraph G → graph_to_gdfs env G = Raise e →
  (create_interactive_map env save_path s).1 = Raise e.
Proof.
  intros Hg Hgdfs. unfold create_interactive_map. run. rewrite Hg. run.
  rewrite Hgdfs. by run.
Qed.

Lemma create_interactive_map_no_length env save_path s G gdfs :
  road_graph s = PyGraph G → graph_to_gdfs env G = Ok gdfs →
  Exists (λ row, row_length row = None) gdfs.2 →
  (create_interactive_map env save_path s).1
  = Raise (Exception "Unknown format code 'f' for object of type 'str'").
Proof.
  intros Hg Hgdfs Hrows. unfold create_interactive_map. run. rewrite Hg. run.
  rewrite Hgdfs. run. rewrite (add_roads_missing_length env _ [] Hrows). by run.
Qed.

Lemma create_interactive_map_write_fails env save_path s G gdfs e :
  road_graph s = PyGraph G → graph_to_gdfs env G = Ok gdfs →
  Forall (λ row, is_Some (row_length row)) gdfs.2 →
  write_error (write_outcome env save_path) = Some e →
  (create_interactive_map env save_path s).1 = Raise e.
Proof.
  intros Hg Hgdfs Hrows Hw. unfold create_interactive_map. run. rewrite Hg. run.
  rewrite Hgdfs. run.
  destruct (add_roads_ok env gdfs.2 [] Hrows) as (road_groups & ->). run.
  match goal with |- context [add_cities env major_cities [] ?s1] =>
    destruct (add_cities_spec env major_cities [] s1) as (s2 & -> & _) end.
  run. destruct (write_outcome env save_path); cbn in Hw; [done|..];
    injection Hw as ->; by run.
Qed.

Lemma printed_road_graph l s : road_graph (printed l s) = road_graph s.
Proof. reflexivity. Qed.

(** What follows a successful download, step by step. *)
Lemma after_download_steps env force_download force_analysis s :
  let d2 := download_districts env force_download s in
  let an := analyze_connectivity env force_analysis d2.2 in
  (∃ b, d2.1 = Ok b) ∧
  (∀ e, an.1 = Raise e →
        after_download env force_download force_analysis s = (Raise e, an.2)) ∧
  (∀ st, an.1 = Ok (PyStats st) →
         let cm := create_interactive_map env "bangladesh_road_map.html"
                     (printed (report_block env st) an.2) in
         (∀ e, cm.1 = Raise e →
               after_download env force_download force_analysis s = (Raise e, cm.2)) ∧
         (∀ m, cm.1 = Ok m →
               after_download env force_download force_analysis s
               = (Ok m, printed closing_lines cm.2))).
Proof.
  intros d2 an. subst d2 an. unfold after_download. run.
  destruct (download_districts_frame env force_download s) as (b & s1 & -> & _).
  cbn [fst snd]. split; [by exists b|].
  destruct (analyze_connectivity env force_analysis s1) as [[o|e'] s3] eqn:Han; cbn [fst snd].
  - split; [by intros e [=]|]. intros st [= ->].
    rewrite (generate_report_stats _ _ _ _ _ Han).
    destruct (create_interactive_map env "bangladesh_road_map.html"
                (printed (report_block env st) s3)) as [[m'|e'] s5]; cbn [fst snd].
    + split; [by intros e [=]|]. intros m [= ->]. run. f_equal.
      unfold closing_lines. symmetry. rewrite <- !printed_log. apply printed_nil_log.
    + split; [|by intros m [=]]. intros e [= ->]. by run.
  - split; [|by intros st [=]]. intros e [= ->].
    unfold generate_report. run. rewrite Han. by run.
Qed.

(** C5 (as stated): the map step is not guarded.  Here the road network
    is obtained and yet the run ends with the exception of the write of the
    map. *)
Lemma run_aborts_after_download :
  (download_road_network env_no_map "drive" false (preamble env_no_map false (init ∅)).2).1
  = Ok true ∧
  (run_complete_analysis env_no_map false false (init ∅)).1
  = Raise (Exception "[Errno 13] Permission denied").
Proof. split; vm_compute; reflexivity. Qed.

(** C5 (amended): in [run_complete_analysis] the download of the road
    network never raises; when it reports failure the run prints one line
    and returns [None] at once, before districts, report and map.  After a
    successful download the district step never raises, whatever the
    provider does, and the run goes on to the analysis.  An exception of
    the analysis ends the run; with statistics the report is printed and
    the map step follows, whose exception ends the run as well and whose
    result is otherwise returned after the four closing lines.  When the
    statistics are computed (forced, or not cached), the analysis raises
    for a graph without nodes, and for any other graph it returns
    statistics even when a centrality call raises (then without the
    averages).  The map step raises when the conversion of the graph
    raises, when an edge row carries no length and when the file cannot be
    written; otherwise it returns the map with one marker for every city
    the geocoder finds, so that a city that cannot be geocoded costs its
    marker only. *)
Theorem what_ends_a_run env force_download force_analysis s :
  let dl := download_road_network env "drive" force_download
              (preamble env force_download s).2 in
  let d2 := download_districts env force_download dl.2 in
  let an := analyze_connectivity env force_analysis d2.2 in
  let run := run_complete_analysis env force_download force_analysis s in
  (∃ b, dl.1 = Ok b) ∧
  (dl.1 = Ok false →
   run = (Ok None, log (Print "Failed to download road network. Exiting.") dl.2)) ∧
  (dl.1 = Ok true →
   (∃ b, d2.1 = Ok b) ∧
   (∃ G, road_graph d2.2 = PyGraph G ∧ road_graph an.2 = PyGraph G) ∧
   (∀ e, an.1 = Raise e → run = (Raise e, an.2)) ∧
   (∀ st, an.1 = Ok (PyStats st) →
          let cm := create_interactive_map env "bangladesh_road_map.html"
                      (printed (report_block env st) an.2) in
          (∀ e, cm.1 = Raise e → run = (Raise e, cm.2)) ∧
          (∀ m, cm.1 = Ok m → run = (Ok m, printed closing_lines cm.2)) ∧
          (∃ before after,
             new_events s run.2 = before ++ (Print <$> report_block env st) ++ after))) ∧
  (∀ G, road_graph d2.2 = PyGraph G →
        force_analysis = true ∨ fs d2.2 !! stats_cache_file = None →
        (nx.nodes G = [] →
         an.1 = Raise (Exception "Connectivity is undefined for the null graph.")) ∧
        (nx.nodes G ≠ [] →
         ∃ st, an.1 = Ok (PyStats st) ∧
               total_nodes st = length (nx.nodes G) ∧
               total_edges st = length (nx.edges G) ∧
               (∀ c e, nx.is_connected (nx.to_undirected G) = Ok c →
                       centrality_fails env G e → st = basic_stats env G c))) ∧
  (∀ G s4, road_graph s4 = PyGraph G →
           let cm := create_interactive_map env "bangladesh_road_map.html" s4 in
           (∀ e, graph_to_gdfs env G = Raise e → cm.1 = Raise e) ∧
           (∀ gdfs, graph_to_gdfs env G = Ok gdfs →
              (Exists (λ row, row_length row = None) gdfs.2 →
               cm.1 = Raise (Exception "Unknown format code 'f' for object of type 'str'")) ∧
              (Forall (λ row, is_Some (row_length row)) gdfs.2 →
               (∀ e, write_error (write_outcome env "bangladesh_road_map.html") = Some e →
                     cm.1 = Raise e) ∧
               (write_outcome env "bangladesh_road_map.html" = WriteOk →
                ∃ m, cm.1 = Ok (Some m) ∧
                     map_cities m = omap (city_marker env) major_cities ∧
                     fs cm.2 !! "bangladesh_road_map.html" = Some (Html m))))).
Proof.
  intros dl d2 an run. subst dl d2 an run.
  rewrite run_complete_analysis_steps.
  destruct (preamble_spec env force_download s) as (s0 & evs0 & -> & _ & _ & _ & Ht0 & _).
  cbn [fst snd].
  destruct (download_road_network_outcome env "drive" force_download s0)
    as (b & s1 & evs1 & -> & Ht1 & _ & _ & Hgraph & _).
  cbn [fst snd].
  destruct (download_districts_outcome env force_download s1)
    as (b2 & s2 & evs2 & Hd2 & Ht2 & Hg2 & _).
  pose proof (after_download_steps env force_download force_analysis s1) as Hsteps.
  cbv zeta in Hsteps. rewrite Hd2 in Hsteps |- *. cbn [fst snd] in Hsteps |- *.
  destruct Hsteps as (_ & Hraise & Hstats).
  destruct (analyze_connectivity_effects env force_analysis s2) as (Hg3 & _).
  split; [by exists b|]. split; [by intros [= ->]|]. split; [|split].
  - intros [= ->]. destruct (Hgraph eq_refl) as (G & HG).
    split; [by exists b2|]. split; [exists G; split; congruence|].
    split; [exact Hraise|]. intros st Hst. destruct (Hstats st Hst) as (HA & HB).
    cbv zeta. split; [exact HA|]. split; [exact HB|].
    destruct (emits_analyze_connectivity env force_analysis s2) as (evs3 & Ht3 & _).
    destruct (emits_create_interactive_map env "bangladesh_road_map.html"
                (printed (report_block env st)
                   (analyze_connectivity env force_analysis s2).2)) as (evs5 & Ht5 & _).
    cbn [printed trace] in Ht5.
    destruct (create_interactive_map env "bangladesh_road_map.html" _) as [[m|e] s5] eqn:Hcm;
      cbn [fst snd] in *.
    + rewrite (HB m eq_refl). cbn [snd printed trace].
      exists (evs0 ++ evs1 ++ evs2 ++ evs3), (evs5 ++ (Print <$> closing_lines)).
      apply new_events_app. cbn [printed trace].
      rewrite Ht5, Ht3, Ht2, Ht1, Ht0. by rewrite <- !app_assoc.
    + rewrite (HA e eq_refl). cbn [snd].
      exists (evs0 ++ evs1 ++ evs2 ++ evs3), evs5.
      apply new_events_app.
      rewrite Ht5, Ht3, Ht2, Ht1, Ht0. by rewrite <- !app_assoc.
  - intros G HG Hmiss.
    destruct (analyze_computes env force_analysis s2) as (sc & pre & -> & Hg0 & _);
      [by rewrite HG|done|].
    split; [intros Hnull; apply (compute_stats_null env sc G); congruence|].
    intros Hne. destruct (nonempty_is_connected G Hne) as (c0 & Hc0 & _).
    destruct (compute_stats_result env sc G c0) as (st & s' & Hcs & Hn & He & _);
      [congruence|done|].
    exists st. rewrite Hcs. split_and!; [done|done|done|].
    intros c e Hc Hfail.
    destruct (compute_stats_partial env sc G c e) as (s'' & evs' & Hcs' & _);
      [congruence|done|done|].
    congruence.
  - intros G s4 HG. cbv zeta. split.
    { intros e Hgdfs. by eapply create_interactive_map_conversion_fails. }
    intros gdfs Hgdfs. split.
    { intros Hrows. by eapply create_interactive_map_no_length. }
    intros Hrows. split.
    { intros e Hw. by eapply create_interactive_map_write_fails. }
    intros Hw.
    destruct (create_interactive_map_ok env "bangladesh_road_map.html" s4 G gdfs)
      as (m & s5 & -> & Hcities & Hfile & _); [done..|].
    by exists m.
Qed.

Lemma what_ends_a_run_witness :
  ∃ m, (run_complete_analysis env_degraded false false (init ∅)).1 = Ok (Some m) ∧
       map_cities m = [] ∧
       (run_complete_analysis env_down false false (init ∅)).1 = Ok None.
Proof.
  destruct (what_ends_a_run env_degraded false false (init ∅))
    as (_ & _ & Hgo & Han & Hmap).
  destruct (what_ends_a_run env_down false false (init ∅)) as (_ & Hstop & _).
  destruct Hgo as (_ & (G & HG2 & HG3) & _ & Hstats); [vm_compute; reflexivity|].
  destruct (Han G HG2) as (_ & Hsome); [right; vm_compute; reflexivity|].
  destruct Hsome as (st & Hst & _).
  { intros Hnull.
    assert (HG : PyGraph G = PyGraph two_islands)
      by (rewrite <- HG2; vm_compute; reflexivity).
    injection HG as ->. discriminate Hnull. }
  destruct (Hstats st Hst) as (_ & Hok & _).
  match type of HG3 with road_graph ?s3 = _ =>
    destruct (Hmap G (printed (report_block env_degraded st) s3)
                (eq_trans (printed_road_graph (report_block env_degraded st) s3) HG3))
      as (_ & Hrows) end.
  destruct (Hrows some_rows eq_refl) as (_ & Hfine).
  destruct Hfine as (_ & Hwritten); [repeat constructor; by eexists|].
  destruct (Hwritten eq_refl) as (m & Hm & Hcities & _).
  exists m. split; [by rewrite (Hok _ Hm)|]. split; [by rewrite Hcities|].
  rewrite Hstop; [done|vm_compute; reflexivity].
Defined.
